(** * FinancialAnalytics-dashboard: query pipeline and spreadsheet comparator

    A shallow embedding of
      - [backend/sql_utils.py]      (SQL safety validator, literal escaping),
      - [backend/services.py]       (DataService: chart / table / filtered
                                     execution, filter compiler),
      - [backend/routers/excel_compare.py] (workbook comparison),
    followed by the properties established about them.

    Text.  A Python [str] is modelled as a Rocq [string] whose characters are
    read as the code points U+0000..U+00FF; [str.isspace], [str.lower],
    [str.upper] and the [re] classes [\w], [\s], [\d] follow CPython's tables
    on that range.

    Wall-clock measurements ([execution_time]) and logging are not modelled. *)

From Stdlib Require Import ZArith NArith List String Ascii Bool Lia.
From Stdlib Require Import Permutation.
From Stdlib Require Import DecimalString.
From Stdlib Require Import Floats.SpecFloat.
Import ListNotations.

Local Open Scope string_scope.
Local Open Scope Z_scope.

(* ================================================================== *)
(** * Python values, exceptions and results *)
(* ================================================================== *)

(** The exceptions that the modelled code raises, catches or inspects. *)
Inductive exn : Type :=
| HTTPException (status_code : Z) (detail : string)
| ValueError (msg : string)
| TypeError (msg : string)
| KeyError (key : string)
| OverflowError (msg : string)
| UnboundLocalError (name : string)
| TimeoutError (msg : string)
| DatabaseError (msg : string)
| AttributeError (msg : string).

(** Outcome of a call that may raise. *)
Inductive result (A : Type) : Type :=
| Ok (a : A)
| Raise (e : exn).
Arguments Ok {A} a.
Arguments Raise {A} e.

(** [isinstance(e, TimeoutError)], the test of an [except TimeoutError]
    clause. *)
Definition is_TimeoutError (e : exn) : bool :=
  match e with TimeoutError _ => true | _ => false end.

Module PyStr.

(** ** Character tables (code points below 256) *)

Definition code (c : ascii) : N := N_of_ascii c.

Definition in_range (lo hi : N) (c : ascii) : bool :=
  (N.leb lo (code c) && N.leb (code c) hi)%bool.

(** [str.isspace] and the [re] class [\s]. *)
Definition isspace (c : ascii) : bool :=
  (in_range 9 13 c || in_range 28 32 c
   || N.eqb (code c) 133 || N.eqb (code c) 160)%bool.

(** The [re] class [\d] (Unicode decimal digits). *)
Definition isdecimal (c : ascii) : bool := in_range 48 57 c.

(** [str.isalnum]. *)
Definition isalnum (c : ascii) : bool :=
  (in_range 48 57 c || in_range 65 90 c || in_range 97 122 c
   || N.eqb (code c) 170 || in_range 178 179 c || N.eqb (code c) 181
   || in_range 185 186 c || in_range 188 190 c
   || in_range 192 214 c || in_range 216 246 c || in_range 248 255 c)%bool.

(** The [re] class [\w]: alphanumeric or underscore. *)
Definition isword (c : ascii) : bool :=
  (isalnum c || N.eqb (code c) 95)%bool.

Definition lower_char (c : ascii) : ascii :=
  if (in_range 65 90 c || in_range 192 214 c || in_range 216 222 c)%bool
  then ascii_of_N (code c + 32)
  else c.

(** [str.upper] of one character.  U+00DF expands to two letters; the
    upper-case forms of U+00B5 and U+00FF lie above U+00FF and these two
    characters are kept as they are. *)
Definition upper_char (c : ascii) : string :=
  if (in_range 97 122 c || in_range 224 246 c || in_range 248 254 c)%bool
  then String (ascii_of_N (code c - 32)) EmptyString
  else if N.eqb (code c) 223 then "SS"
  else String c EmptyString.

(** ** String operations *)

Fixpoint lower (s : string) : string :=
  match s with
  | EmptyString => EmptyString
  | String c t => String (lower_char c) (lower t)
  end.

Fixpoint upper (s : string) : string :=
  match s with
  | EmptyString => EmptyString
  | String c t => upper_char c ++ upper t
  end.

(** [s.lstrip(chars)] with the stripped set given as a predicate. *)
Fixpoint lstrip_by (p : ascii -> bool) (s : string) : string :=
  match s with
  | EmptyString => EmptyString
  | String c t => if p c then lstrip_by p t else s
  end.

(** [s.rstrip(chars)] with the stripped set given as a predicate. *)
Fixpoint rstrip_by (p : ascii -> bool) (s : string) : string :=
  match s with
  | EmptyString => EmptyString
  | String c t =>
      match rstrip_by p t with
      | EmptyString => if p c then EmptyString else String c EmptyString
      | t' => String c t'
      end
  end.

(** [s.strip()] *)
Definition strip (s : string) : string :=
  rstrip_by isspace (lstrip_by isspace s).

Definition is_semicolon (c : ascii) : bool := Ascii.eqb c ";".

(** [s.rstrip(";")] *)
Definition rstrip_semicolon (s : string) : string :=
  rstrip_by is_semicolon s.

(** [s.startswith(p)] *)
Definition startswith (s p : string) : bool := String.prefix p s.

(** [sub in s] *)
Fixpoint contains (sub s : string) : bool :=
  (String.prefix sub s
   || match s with
      | EmptyString => false
      | String _ t => contains sub t
      end)%bool.

(** [s.replace("'", "''")] *)
Fixpoint replace_quote (s : string) : string :=
  match s with
  | EmptyString => EmptyString
  | String c t =>
      if Ascii.eqb c "'" then String "'" (String "'" (replace_quote t))
      else String c (replace_quote t)
  end.

(** [sep.join(parts)] *)
Fixpoint join (sep : string) (parts : list string) : string :=
  match parts with
  | [] => EmptyString
  | [x] => x
  | x :: rest => x ++ sep ++ join sep rest
  end.

(** [s[:n]] for a non-negative bound. *)
Fixpoint take (n : nat) (s : string) : string :=
  match n, s with
  | O, _ => EmptyString
  | _, EmptyString => EmptyString
  | S n', String c t => String c (take n' t)
  end.

(** [str(z)] for an [int]. *)
Definition str_of_Z (z : Z) : string := NilZero.string_of_int (Z.to_int z).

End PyStr.

(* ================================================================== *)
(** * The fragment of Python's [re] used by [sql_utils.py] *)
(* ================================================================== *)

Module Re.
Import PyStr.

(** Patterns.  Repetition only ever applies to a character class in the
    source patterns ([\s*], [\s+], [\d+], [\w+]), so [RStar] and [RPlus]
    carry a class. *)
Inductive regex : Type :=
| REps
| RFail
| RStr (lit : string)
| RClass (p : ascii -> bool)
| RStar (p : ascii -> bool)
| RPlus (p : ascii -> bool)
| RBoundary
| ROpt (r : regex)
| RSeq (r1 r2 : regex)
| RAlt (r1 r2 : regex).

(** A concatenation written as a list. *)
Definition rseq (rs : list regex) : regex := fold_right RSeq REps rs.

(** ["|".join(tokens)] *)
Definition ralt (rs : list regex) : regex := fold_right RAlt RFail rs.

(** Literal comparison under [re.IGNORECASE]. *)
Definition ci_eqb (a c : ascii) : bool :=
  Ascii.eqb (lower_char a) (lower_char c).

(** Is the character before / after the current position a word character?
    Outside the subject there is none. *)
Definition word_before (prev : option ascii) : bool :=
  match prev with Some c => isword c | None => false end.

Definition word_after (s : string) : bool :=
  match s with String c _ => isword c | EmptyString => false end.

(** The matcher threads the character preceding the current position (for
    [\b]) and a continuation to run on the rest of the subject. *)
Definition cont : Type := option ascii -> string -> bool.

Fixpoint match_lit (lit : string) (prev : option ascii) (s : string)
  (k : cont) : bool :=
  match lit with
  | EmptyString => k prev s
  | String a lit' =>
      match s with
      | String c t => (ci_eqb a c && match_lit lit' (Some c) t k)%bool
      | EmptyString => false
      end
  end.

Fixpoint match_star (p : ascii -> bool) (prev : option ascii) (s : string)
  (k : cont) : bool :=
  (k prev s
   || match s with
      | String c t => p c && match_star p (Some c) t k
      | EmptyString => false
      end)%bool.

Fixpoint rmatch (r : regex) (prev : option ascii) (s : string) (k : cont)
  {struct r} : bool :=
  match r with
  | REps => k prev s
  | RFail => false
  | RStr lit => match_lit lit prev s k
  | RClass p =>
      match s with
      | String c t => (p c && k (Some c) t)%bool
      | EmptyString => false
      end
  | RStar p => match_star p prev s k
  | RPlus p =>
      match s with
      | String c t => (p c && match_star p (Some c) t k)%bool
      | EmptyString => false
      end
  | RBoundary => (xorb (word_before prev) (word_after s) && k prev s)%bool
  | ROpt r' => (rmatch r' prev s k || k prev s)%bool
  | RSeq r1 r2 => rmatch r1 prev s (fun prev' s' => rmatch r2 prev' s' k)
  | RAlt r1 r2 => (rmatch r1 prev s k || rmatch r2 prev s k)%bool
  end.

Definition accept : cont := fun _ _ => true.

(** Does a match start at some position of [s]? *)
Fixpoint search_from (r : regex) (prev : option ascii) (s : string) : bool :=
  (rmatch r prev s accept
   || match s with
      | String c t => search_from r (Some c) t
      | EmptyString => false
      end)%bool.

(** [bool(re.search(pattern, s, re.IGNORECASE))] *)
Definition search (r : regex) (s : string) : bool := search_from r None s.

(** Shorthands for the source patterns. *)
Definition ws_star : regex := RStar isspace.
Definition ws_plus : regex := RPlus isspace.
Definition digits : regex := RPlus isdecimal.
Definition word_plus : regex := RPlus isword.

(** [kw\b] *)
Definition keyword (kw : string) : regex := RSeq (RStr kw) RBoundary.

(** [name\s*\(] *)
Definition call (name : string) : regex := rseq [RStr name; ws_star; RStr "("].

End Re.

(* ================================================================== *)
(** * [sql_utils.py] *)
(* ================================================================== *)

Module SqlUtils.
Import PyStr Re.

Definition _FORBIDDEN_TOKENS : list regex :=
  [ RStr ";";
    RStr "--";
    RStr "/*";
    RStr "*/";
    keyword "drop";
    keyword "delete";
    keyword "truncate";
    keyword "insert";
    keyword "update";
    keyword "alter";
    keyword "create";
    keyword "grant";
    keyword "revoke";
    keyword "union";
    keyword "exec";
    keyword "execute";
    rseq [RStr "sp_"; word_plus];
    rseq [RStr "xp_"; word_plus];
    keyword "declare";
    call "char";
    call "ascii";
    call "substring";
    call "concat";
    call "cast";
    call "convert";
    rseq [RStr "@@"; word_plus];
    keyword "waitfor";
    keyword "benchmark";
    call "sleep";
    call "pg_sleep";
    rseq [RStr "dbms_"; word_plus];
    rseq [RStr "utl_"; word_plus];
    rseq [RStr "'"; ws_star; RStr "or"; ws_star; RStr "'"; digits; RStr "'";
          ws_star; RStr "="; ws_star; RStr "'"; digits; ROpt (RStr "'")];
    rseq [ws_plus; RStr "or"; ws_plus; digits; ws_star; RStr "="; ws_star;
          digits];
    rseq [RStr "or"; ws_star; RStr "'"; digits; RStr "'"; ws_star; RStr "=";
          ws_star; RStr "'"; digits; ROpt (RStr "'")];
    rseq [RStr "'"; ws_star; RStr "or"; ws_star; digits; ws_star; RStr "=";
          ws_star; digits] ].

Definition _FORBIDDEN_PATTERN : regex := ralt _FORBIDDEN_TOKENS.

Definition is_safe_sql (sql : string) : bool :=
  let stripped := lower (strip sql) in
  if negb (startswith stripped "select") then false
  else if search _FORBIDDEN_PATTERN stripped then false
  else true.

Definition injection_patterns : list regex :=
  [ rseq [RStr "'"; ws_star; RStr "or"; ws_plus; RStr "'"; digits; RStr "'";
          ws_star; RStr "="; ws_star; RStr "'"; digits; RStr "'"];
    rseq [RStr "'"; ws_star; RStr "or"; ws_plus; digits; ws_star; RStr "=";
          ws_star; digits];
    rseq [RStr "'"; ws_star; RStr "and"; ws_plus; RStr "'"; digits; RStr "'";
          ws_star; RStr "="; ws_star; RStr "'"; digits; RStr "'"];
    rseq [RStr "'"; ws_star; RStr ";"; ws_star; RStr "select"; ws_plus];
    rseq [RStr "'"; ws_star; RStr "union"; ws_plus; RStr "all"; ws_plus;
          RStr "select"; ws_plus];
    RStr "information_schema.";
    RStr "sys.";
    rseq [RStr "dual"; ws_plus; RStr "where"];
    rseq [RStr "from"; ws_plus; RStr "dual"; ws_plus; RStr "where"] ].

Definition HTTP_400_BAD_REQUEST : Z := 400.

Definition unsafe_sql_detail : string :=
  "Unsafe SQL detected. Only read-only SELECT queries are permitted.".
Definition injection_detail : string :=
  "Potential SQL injection detected. Query rejected.".
Definition too_long_detail : string :=
  "Query too long. Maximum length is 10,000 characters.".

(** [validate_sql] returns [None] or raises [HTTPException]. *)
Definition validate_sql (sql : string) : result unit :=
  if negb (is_safe_sql sql) then
    Raise (HTTPException HTTP_400_BAD_REQUEST unsafe_sql_detail)
  else
    let sql_lower := strip (lower sql) in
    if existsb (fun pattern => search pattern sql_lower) injection_patterns
    then Raise (HTTPException HTTP_400_BAD_REQUEST injection_detail)
    else if Z.of_nat (String.length sql) >? 10000
    then Raise (HTTPException HTTP_400_BAD_REQUEST too_long_detail)
    else Ok tt.

(** The literal is returned already quoted. *)
Definition escape_literal (value : string) : string :=
  "'" ++ replace_quote value ++ "'".

End SqlUtils.

(* ================================================================== *)
(** * [models.py]: request and response payloads *)
(* ================================================================== *)

Module Models.
Import PyStr.

(** IEEE-754 binary64, the representation of a Python [float]. *)
Definition prec : Z := 53.
Definition emax : Z := 1024.

(** Scalars found in result cells and in filter values.  [SOther] stands for
    any other object (a date, a decimal, a nested container, ...), given by
    what [str()] and [float()] return for it; [None] for [as_float] means
    that [float()] raises [TypeError]. *)
Inductive scalar : Type :=
| SNone
| SBool (b : bool)
| SInt (z : Z)
| SFloat (f : spec_float)
| SStr (s : string)
| SOther (as_str : string) (as_float : option spec_float).

(** [FilterCondition.value : Union[str, int, float, List[Any]]] *)
Inductive filter_value : Type :=
| FScalar (v : scalar)
| FList (vs : list scalar).

Record FilterCondition : Type := {
  column : string;
  operator : string;
  value : filter_value
}.

Record TableFilter : Type := {
  conditions : list FilterCondition;
  logic : string
}.

Record FilteredQueryRequest : Type := {
  query_id : option Z;
  sql_query : option string;
  filters : option TableFilter;
  limit : Z;
  offset : Z;
  sort_column : option string;
  sort_direction : option string
}.

(** A number placed in a chart series: the literal [0] of the fallbacks is
    an [int], a successful coercion is a [float]. *)
Inductive number : Type :=
| NInt (z : Z)
| NFloat (f : spec_float).

(** Values of the free-form dataset dictionaries. *)
Inductive dsval : Type :=
| DNumbers (data : list number)
| DText (s : string)
| DTexts (l : list string)
| DInt (z : Z)
| DBool (b : bool).

Definition dataset : Type := list (string * dsval).

Record ChartData : Type := {
  labels : list string;
  datasets : list dataset
}.

Record TableData : Type := {
  columns : list string;
  data : list (list scalar);
  total_count : scalar
}.

Inductive payload : Type :=
| Chart (c : ChartData)
| Table (t : TableData).

Record QueryResult : Type := {
  success : bool;
  result_data : option payload;
  chart_type : option string;
  chart_config : option (list (string * scalar));
  error : option string
}.

(** [QueryResult(success=False, error=msg, ...)] *)
Definition failure (msg : string) : QueryResult :=
  {| success := false; result_data := None; chart_type := None;
     chart_config := None; error := Some msg |}.

End Models.

(* ================================================================== *)
(** * [services.py]: DataService *)
(* ================================================================== *)

Module Services.
Import PyStr SqlUtils Models.

Definition nl : string := String (ascii_of_nat 10) EmptyString.

(** [str(e)].  [HTTPException] prints its status and detail; a [KeyError]
    prints the quoted key. *)
Definition str_exn (e : exn) : string :=
  match e with
  | HTTPException status_code detail => str_of_Z status_code ++ ": " ++ detail
  | ValueError msg => msg
  | TypeError msg => msg
  | KeyError key => "'" ++ key ++ "'"
  | OverflowError msg => msg
  | UnboundLocalError name =>
      "cannot access local variable '" ++ name
      ++ "' where it is not associated with a value"
  | TimeoutError msg => msg
  | DatabaseError msg => msg
  | AttributeError msg => msg
  end.

(** ** The four user-facing messages of the error taxonomy *)

Definition msg_generic : string :=
  "Query execution failed. Please check your SQL syntax and try again.".
Definition msg_syntax : string :=
  "SQL syntax error: Please check your query syntax.".
Definition msg_table : string :=
  "Table or view not found. Please verify the table name.".
Definition msg_column : string :=
  "Column not found. Please verify the column names.".

(** The classification block of the [except Exception] handlers of
    [execute_query_for_chart] and [execute_query_for_table]. *)
Definition classify_error (e : exn) : string :=
  let text := str_exn e in
  if (contains "ORA-00907" text || contains "ORA-00936" text
      || contains "missing right parenthesis" text)%bool then msg_syntax
  else if (contains "ORA-00942" text
           || contains "table or view does not exist" text)%bool then msg_table
  else if (contains "ORA-00904" text
           || contains "invalid identifier" text)%bool then msg_column
  else msg_generic.

Definition chart_timeout_message (timeout : Z) : string :=
  "Query timed out after " ++ str_of_Z timeout
  ++ " seconds. Try reducing data range or complexity.".

Definition table_timeout_message (timeout : Z) : string :=
  "Query timed out after " ++ str_of_Z timeout
  ++ " seconds. Try reducing data range or adding more specific filters.".

(** ** Data frames *)

Record DataFrame : Type := {
  df_columns : list string;
  df_rows : list (list scalar)
}.

(** [df.empty]: some axis has length zero. *)
Definition df_empty (df : DataFrame) : bool :=
  match df_rows df, df_columns df with
  | [], _ => true
  | _, [] => true
  | _, _ => false
  end.

(** [name in df.columns] *)
Definition has_column (name : string) (df : DataFrame) : bool :=
  existsb (String.eqb name) (df_columns df).

(** Keep the entries of [xs] whose column label is not [name]. *)
Fixpoint drop_labelled {A : Type} (name : string) (cols : list string)
  (xs : list A) : list A :=
  match cols, xs with
  | c :: cols', x :: xs' =>
      if String.eqb c name then drop_labelled name cols' xs'
      else x :: drop_labelled name cols' xs'
  | _, _ => []
  end.

(** [df.drop(columns=[name], inplace=True)] *)
Definition drop_column (name : string) (df : DataFrame) : DataFrame :=
  {| df_columns := drop_labelled name (df_columns df) (df_columns df);
     df_rows := map (drop_labelled name (df_columns df)) (df_rows df) |}.

(** The "Remove RNUM/rnum" step. *)
Definition drop_rnum (df : DataFrame) : DataFrame :=
  if (negb (df_empty df) && has_column "RNUM" df)%bool
  then drop_column "RNUM" df
  else if (negb (df_empty df) && has_column "rnum" df)%bool
  then drop_column "rnum" df
  else df.

(** ** Rows as dictionaries *)

Definition row_dict : Type := list (string * scalar).

(** [dict(zip(columns, args))]: a later duplicate key overwrites. *)
Fixpoint dict_get (key : string) (d : row_dict) : option scalar :=
  match d with
  | [] => None
  | (k, v) :: rest =>
      match dict_get key rest with
      | Some v' => Some v'
      | None => if String.eqb k key then Some v else None
      end
  end.

Fixpoint zip {A B : Type} (xs : list A) (ys : list B) : list (A * B) :=
  match xs, ys with
  | x :: xs', y :: ys' => (x, y) :: zip xs' ys'
  | _, _ => []
  end.

(** Truth value of a scalar. *)
Definition truthy (v : scalar) : bool :=
  match v with
  | SNone => false
  | SBool b => b
  | SInt z => negb (z =? 0)
  | SFloat f =>
      match f with S754_zero _ => false | _ => true end
  | SStr s => negb (String.eqb s "")
  | SOther _ _ => true
  end.

(** [a or b] on optional dictionary entries ([None] when absent). *)
Definition get_or_none (key : string) (d : row_dict) : scalar :=
  match dict_get key d with Some v => v | None => SNone end.

Definition py_or (a b : scalar) : scalar := if truthy a then a else b.

(** ** Pagination and counting wrappers *)

(** The Oracle 11g ROWNUM pagination wrapper. *)
Definition paginate (query : string) (limit offset : Z) : string :=
  nl ++ "            SELECT * FROM (" ++ nl
  ++ "                SELECT a.*, ROWNUM rnum FROM (" ++ nl
  ++ "                    " ++ query ++ nl
  ++ "                ) a WHERE ROWNUM <= " ++ str_of_Z (limit + offset) ++ nl
  ++ "            ) WHERE rnum > " ++ str_of_Z offset ++ nl
  ++ "            ".

Definition count_query_of (query : string) : string :=
  "SELECT COUNT(*) as total_count FROM (" ++ query ++ ") sub".

Definition structure_query_of (query : string) : string :=
  "SELECT * FROM (" ++ query ++ ") WHERE 1=0".

End Services.

Module DataService.
Import PyStr SqlUtils Models Services.

Section WithRuntime.

(** The database is an oracle with its own state: running a statement on
    the cursor yields the reported column names and the fetched rows, or
    raises. *)
Variable db_state : Type.
Variable cursor_run :
  string -> db_state -> result (list string * list (list scalar)) * db_state.

(** [QueryService.get_query_by_id]: the SQL text of the stored query, if
    there is an active one.  It swallows every exception. *)
Variable get_query_by_id : Z -> db_state -> option string * db_state.

(** [str()] of a float and of a list, and [float()] of a string ([None]:
    [ValueError]). *)
Variable float_str : spec_float -> string.
Variable list_str : list scalar -> string.
Variable float_of_str : string -> option spec_float.

(** [DataService._format_chart_data], the pandas-based shaping of the
    non-KPI chart kinds, which may raise. *)
Variable _format_chart_data : DataFrame -> option string -> result ChartData.

(** ** State and exception monad *)

Definition M (A : Type) : Type := db_state -> result A * db_state.

Definition ret {A : Type} (a : A) : M A := fun st => (Ok a, st).

Definition raise {A : Type} (e : exn) : M A := fun st => (Raise e, st).

Definition bind {A B : Type} (m : M A) (k : A -> M B) : M B :=
  fun st =>
    match m st with
    | (Ok a, st') => k a st'
    | (Raise e, st') => (Raise e, st')
    end.

(** [try: m  except Exception as e: handler e] *)
Definition try_except {A : Type} (m : M A) (handler : exn -> M A) : M A :=
  fun st =>
    match m st with
    | (Ok a, st') => (Ok a, st')
    | (Raise e, st') => handler e st'
    end.

Definition lift {A : Type} (r : result A) : M A := fun st => (r, st).

Notation "x <- m ;; k" := (bind m (fun x => k))
  (at level 61, m at next level, right associativity).

(** ** [database.py]: DatabaseManager *)

Definition execute_query_pandas (query : string) : M DataFrame :=
  let sql := rstrip_semicolon (strip query) in
  r <- cursor_run sql ;;
  ret {| df_columns := fst r; df_rows := snd r |}.

(** Rows are fetched only when the cursor has a description, that is,
    reports columns. *)
Definition execute_query (query : string) : M (list row_dict) :=
  let sql := rstrip_semicolon (strip query) in
  r <- cursor_run sql ;;
  match fst r with
  | [] => ret []
  | description =>
      let columns := map lower description in
      ret (map (zip columns) (snd r))
  end.

(** ** Scalars as text and as numbers *)

Definition bool_str (b : bool) : string := if b then "True" else "False".

Definition py_str (v : scalar) : string :=
  match v with
  | SNone => "None"
  | SBool b => bool_str b
  | SInt z => str_of_Z z
  | SFloat f => float_str f
  | SStr s => s
  | SOther as_str _ => as_str
  end.

(** [isinstance(val, (int, float))]; [bool] is a subclass of [int]. *)
Definition is_int_or_float (v : scalar) : bool :=
  match v with
  | SBool _ | SInt _ | SFloat _ => true
  | _ => false
  end.

Definition float_of_Z (z : Z) : spec_float := binary_normalize prec emax z 0 false.

(** [float(v)] *)
Definition py_float (v : scalar) : result spec_float :=
  match v with
  | SNone =>
      Raise (TypeError
        "float() argument must be a string or a real number, not 'NoneType'")
  | SBool b => Ok (float_of_Z (if b then 1 else 0))
  | SInt z =>
      match float_of_Z z with
      | S754_infinity _ => Raise (OverflowError "int too large to convert to float")
      | f => Ok f
      end
  | SFloat f => Ok f
  | SStr s =>
      match float_of_str s with
      | Some f => Ok f
      | None => Raise (ValueError ("could not convert string to float: " ++ s))
      end
  | SOther _ (Some f) => Ok f
  | SOther _ None =>
      Raise (TypeError "float() argument must be a string or a real number")
  end.

(** ** [execute_query_for_chart] *)

Definition kpi_chart (v : number) : ChartData :=
  {| labels := ["KPI"]; datasets := [[("data", DNumbers [v])]] |}.

(** [df.iloc[0].iloc[0]], or [None] when the row has no entry. *)
Definition first_value (df : DataFrame) : scalar :=
  match df_rows df with
  | (v :: _) :: _ => v
  | _ => SNone
  end.

(** The [chart_type == "kpi"] branch. *)
Definition kpi_branch (df : DataFrame) : ChartData :=
  let first_val := if negb (df_empty df) then first_value df else SNone in
  let attempt : result ChartData :=
    match py_float first_val with
    | Ok f => Ok (kpi_chart (NFloat f))
    | Raise (TypeError _) | Raise (ValueError _) => Ok (kpi_chart (NInt 0))
    | Raise e => Raise e
    end in
  match attempt with
  | Ok chart_data => chart_data
  | Raise _ => kpi_chart (NInt 0)
  end.

Definition chart_body (query : string) (chart_type : option string)
  (chart_config : option (list (string * scalar))) : M QueryResult :=
  df <- execute_query_pandas query ;;
  if df_empty df then ret (failure "Query returned no data")
  else
    chart_data <-
      (match chart_type with
       | Some "kpi" => ret (kpi_branch df)
       | _ => lift (_format_chart_data df chart_type)
       end) ;;
    ret {| success := true;
           result_data := Some (Chart chart_data);
           chart_type := chart_type;
           chart_config :=
             Some (match chart_config with Some c => c | None => [] end);
           error := None |}.

Definition execute_query_for_chart (query : string)
  (chart_type : option string)
  (chart_config : option (list (string * scalar))) (timeout : Z)
  : db_state -> QueryResult * db_state :=
  fun st =>
    match chart_body query chart_type chart_config st with
    | (Ok r, st') => (r, st')
    | (Raise e, st') =>
        if is_TimeoutError e
        then (failure (chart_timeout_message timeout), st')
        else (failure (classify_error e), st')
    end.

(** ** [execute_query_for_table] *)

(** The structure fetch for an empty page; its failure is only logged. *)
Definition fetch_structure (query : string) (df : DataFrame) : M DataFrame :=
  if df_empty df then
    try_except
      (structure_df <- execute_query_pandas (structure_query_of query) ;;
       if (0 <? Z.of_nat (List.length (df_columns structure_df)))
       then ret {| df_columns := df_columns structure_df; df_rows := [] |}
       else ret df)
      (fun _ => ret df)
  else ret df.

(** [count_result[0]["total_count"] if count_result else 0] *)
Definition read_total_count (count_result : list row_dict) : result scalar :=
  match count_result with
  | [] => Ok (SInt 0)
  | row :: _ =>
      match dict_get "total_count" row with
      | Some v => Ok v
      | None => Raise (KeyError "total_count")
      end
  end.

(** The [except Exception] clause of the count block.  [count_result] is
    the local variable as the handler finds it: [None] when the assignment
    never happened. *)
Definition count_fallback (count_result : option (list row_dict))
  : M scalar :=
  match count_result with
  | None => raise (UnboundLocalError "count_result")
  | Some [] => ret (SInt 0)
  | Some (row :: _) =>
      match dict_get "TOTAL_COUNT" row with
      | Some v => ret v
      | None => ret (SInt 0)
      end
  end.

(** The count block with its three clauses. *)
Definition count_rows (query : string) (df : DataFrame) (offset : Z)
  : M scalar :=
  fun st =>
    match execute_query (count_query_of query) st with
    | (Raise e, st') =>
        if is_TimeoutError e
        then (Ok (SInt (Z.of_nat (List.length (df_rows df)) + offset)), st')
        else count_fallback None st'
    | (Ok count_result, st') =>
        match read_total_count count_result with
        | Ok total => (Ok total, st')
        | Raise e =>
            if is_TimeoutError e
            then (Ok (SInt (Z.of_nat (List.length (df_rows df)) + offset)), st')
            else count_fallback (Some count_result) st'
        end
    end.

Definition table_result (df : DataFrame) (total : scalar) : QueryResult :=
  {| success := true;
     result_data :=
       Some (Table {| columns := df_columns df; data := df_rows df;
                      total_count := total |});
     chart_type := None;
     chart_config := None;
     error := None |}.

(** The page as it stands when the count block starts. *)
Definition fetch_page (query : string) (limit offset : Z) : M DataFrame :=
  df <- execute_query_pandas (paginate query limit offset) ;;
  let df := drop_rnum df in
  fetch_structure query df.

Definition table_body (query : string) (limit offset : Z) : M QueryResult :=
  df <- fetch_page query limit offset ;;
  total <- count_rows query df offset ;;
  ret (table_result df total).

Definition execute_query_for_table (query : string) (limit offset : Z)
  (timeout : Z) : db_state -> QueryResult * db_state :=
  fun st =>
    match table_body query limit offset st with
    | (Ok r, st') => (r, st')
    | (Raise e, st') =>
        if is_TimeoutError e
        then (failure (table_timeout_message timeout), st')
        else (failure (classify_error e), st')
    end.

(** ** [apply_filters] *)

(** [_as_sql_literal]: a number is returned as it is, anything else as a
    quoted literal. *)
Definition _as_sql_literal (val : filter_value) : scalar + string :=
  match val with
  | FScalar v =>
      if is_int_or_float v then inl v else inr (escape_literal (py_str v))
  | FList vs => inr (escape_literal (list_str vs))
  end.

(** Interpolation of that result into an f-string. *)
Definition fmt (lit : scalar + string) : string :=
  match lit with
  | inl v => py_str v
  | inr s => s
  end.

Definition type_name (v : scalar) : string :=
  match v with
  | SBool _ => "bool"
  | SInt _ => "int"
  | _ => "float"
  end.

(** [", ".join(_as_sql_literal(v) for v in value)]: [str.join] accepts
    strings only. *)
Fixpoint in_literals (i : nat) (vs : list scalar) : result (list string) :=
  match vs with
  | [] => Ok []
  | v :: rest =>
      match _as_sql_literal (FScalar v) with
      | inl n =>
          Raise (TypeError ("sequence item " ++ str_of_Z (Z.of_nat i)
                            ++ ": expected str instance, " ++ type_name n
                            ++ " found"))
      | inr s =>
          match in_literals (S i) rest with
          | Ok ss => Ok (s :: ss)
          | Raise e => Raise e
          end
      end
  end.

(** One pass of the loop body: the fragment appended for a condition, if
    any. *)
Definition render_condition (condition : FilterCondition)
  : result (option string) :=
  let column := column condition in
  let operator := lower (operator condition) in
  let value := value condition in
  let simple (op : string) :=
    Ok (Some (column ++ " " ++ op ++ " " ++ fmt (_as_sql_literal value))) in
  if String.eqb operator "eq" then simple "="
  else if String.eqb operator "ne" then simple "!="
  else if String.eqb operator "gt" then simple ">"
  else if String.eqb operator "lt" then simple "<"
  else if String.eqb operator "gte" then simple ">="
  else if String.eqb operator "lte" then simple "<="
  else if String.eqb operator "like" then
    Ok (Some (column ++ " LIKE '%' || " ++ fmt (_as_sql_literal value)
              ++ " || '%'"))
  else if String.eqb operator "in" then
    match value with
    | FList vs =>
        match in_literals 0 vs with
        | Ok parts => Ok (Some (column ++ " IN (" ++ join ", " parts ++ ")"))
        | Raise e => Raise e
        end
    | FScalar _ => Ok None
    end
  else Ok None.

Fixpoint render_conditions (conds : list FilterCondition)
  : result (list string) :=
  match conds with
  | [] => Ok []
  | c :: rest =>
      match render_condition c with
      | Raise e => Raise e
      | Ok frag =>
          match render_conditions rest with
          | Raise e => Raise e
          | Ok frags =>
              Ok (match frag with Some f => f :: frags | None => frags end)
          end
      end
  end.

Definition apply_filters (base_query : string) (filters : option TableFilter)
  : result string :=
  match filters with
  | None => Ok base_query
  | Some f =>
      match conditions f with
      | [] => Ok base_query
      | conds =>
          match render_conditions conds with
          | Raise e => Raise e
          | Ok [] => Ok base_query
          | Ok where_conditions =>
              let logic_operator := " " ++ logic f ++ " " in
              let where_clause := join logic_operator where_conditions in
              if contains "WHERE" (upper base_query)
              then Ok (base_query ++ " AND (" ++ where_clause ++ ")")
              else Ok (base_query ++ " WHERE " ++ where_clause)
          end
      end
  end.

(** ** [execute_filtered_query] *)

(** Resolution and validation of the base query (the first block of the
    [try]). *)
Definition resolve_base_query (request : FilteredQueryRequest) : M string :=
  match query_id request with
  | Some id =>
      if negb (id =? 0) then
        query_obj <- (fun st => let (q, st') := get_query_by_id id st in
                                (Ok q, st')) ;;
        match query_obj with
        | None => raise (ValueError "Query not found")
        | Some sql =>
            let base_query := rstrip_semicolon (strip sql) in
            _ <- lift (validate_sql base_query) ;;
            ret base_query
        end
      else
        match sql_query request with
        | Some sql =>
            if negb (String.eqb sql "") then
              let base_query := rstrip_semicolon (strip sql) in
              _ <- lift (validate_sql base_query) ;;
              ret base_query
            else raise (ValueError "Either query_id or sql_query must be provided")
        | None => raise (ValueError "Either query_id or sql_query must be provided")
        end
  | None =>
      match sql_query request with
      | Some sql =>
          if negb (String.eqb sql "") then
            let base_query := rstrip_semicolon (strip sql) in
            _ <- lift (validate_sql base_query) ;;
            ret base_query
          else raise (ValueError "Either query_id or sql_query must be provided")
      | None => raise (ValueError "Either query_id or sql_query must be provided")
      end
  end.

(** ["".join(c for c in s if c.isalnum() or c == '_')] *)
Fixpoint keep_identifier_chars (s : string) : string :=
  match s with
  | EmptyString => EmptyString
  | String c t =>
      if (isalnum c || Ascii.eqb c "_")%bool
      then String c (keep_identifier_chars t)
      else keep_identifier_chars t
  end.

Definition sort_query (request : FilteredQueryRequest)
  (filtered_query : string) : string :=
  match sort_column request with
  | Some col =>
      if negb (String.eqb col "") then
        let direction :=
          match sort_direction request with
          | Some d =>
              if (negb (String.eqb d "") && String.eqb (upper d) "DESC")%bool
              then "DESC" else "ASC"
          | None => "ASC"
          end in
        filtered_query ++ " ORDER BY " ++ keep_identifier_chars col ++ " "
        ++ direction
      else filtered_query
  | None => filtered_query
  end.

(** Oracle may report the count column in either case. *)
Definition filtered_total_count (count_result : list row_dict) : scalar :=
  match count_result with
  | [] => SInt 0
  | row :: _ =>
      py_or (py_or (get_or_none "total_count" row)
                   (get_or_none "TOTAL_COUNT" row))
            (SInt 0)
  end.

Definition filtered_body (request : FilteredQueryRequest) : M QueryResult :=
  base_query <- resolve_base_query request ;;
  filtered_query <- lift (apply_filters base_query (filters request)) ;;
  count_result <- execute_query (count_query_of filtered_query) ;;
  let total := filtered_total_count count_result in
  let sorted_query := sort_query request filtered_query in
  df <- execute_query_pandas
          (paginate sorted_query (limit request) (offset request)) ;;
  let df := drop_rnum df in
  df <- fetch_structure filtered_query df ;;
  ret (table_result df total).

Definition execute_filtered_query (request : FilteredQueryRequest)
  : db_state -> QueryResult * db_state :=
  fun st =>
    match filtered_body request st with
    | (Ok r, st') => (r, st')
    | (Raise e, st') => (failure (str_exn e), st')
    end.

End WithRuntime.

Arguments ret {db_state A}.
Arguments raise {db_state A}.
Arguments bind {db_state A B}.
Arguments try_except {db_state A}.
Arguments lift {db_state A}.
Arguments execute_query_pandas {db_state}.
Arguments execute_query {db_state}.
Arguments chart_body {db_state}.
Arguments execute_query_for_chart {db_state}.
Arguments fetch_structure {db_state}.
Arguments count_fallback {db_state}.
Arguments count_rows {db_state}.
Arguments fetch_page {db_state}.
Arguments table_body {db_state}.
Arguments execute_query_for_table {db_state}.
Arguments resolve_base_query {db_state}.
Arguments filtered_body {db_state}.
Arguments execute_filtered_query {db_state}.

End DataService.

(* ================================================================== *)
(** * [routers/excel_compare.py] *)
(* ================================================================== *)

Module ExcelCompare.
Import PyStr.

(** ** Worksheets as the comparator sees them *)

(** A cell value: empty, text, an integer, a boolean, or any other object
    (date, float, error value, ...) given by the outcome of [str()]. *)
Inductive cell_value : Type :=
| CEmpty
| CText (s : string)
| CNumber (z : Z)
| CBoolean (b : bool)
| CObject (as_str : result string).

(** A sheet as [workbook[name]] returns it from a workbook opened with
    [read_only=True].  The reads [sheet.max_row] and [sheet.max_column]
    give an [int], or [None] for a worksheet without a dimension record, or
    raise (a chartsheet has no such attribute); the read
    [sheet.cell(row, column).value] may raise as well. *)
Record Sheet : Type := {
  max_row : result (option Z);
  max_column : result (option Z);
  cell : Z -> Z -> result cell_value
}.

(** A workbook: its sheets in [sheetnames] order. *)
Definition Workbook : Type := list (string * Sheet).

Definition sheetnames (wb : Workbook) : list string := map fst wb.

(** [workbook[sheet_name]] *)
Fixpoint get_sheet (wb : Workbook) (name : string) : option Sheet :=
  match wb with
  | [] => None
  | (n, sh) :: rest => if String.eqb n name then Some sh else get_sheet rest name
  end.

(** [name in names] *)
Definition mem (name : string) (names : list string) : bool :=
  existsb (String.eqb name) names.

(** ** Result records *)

Record Difference : Type := {
  d_sheet : string;
  d_cell_id : string;
  d_value1 : string;
  d_value2 : string;
  d_status : string
}.

Record SheetResult : Type := {
  sheet : string;
  cell_id : string;
  value1 : string;
  value2 : string;
  status : string;
  differences : list Difference
}.

Record CompareResult : Type := {
  success : bool;
  total_sheets : Z;
  matched_sheets : Z;
  comparison_results : list SheetResult;
  summary : string
}.

(** ** [openpyxl.utils.get_column_letter] *)

Definition letter (n : Z) : ascii := ascii_of_N (Z.to_N (n + 64)).

(** Bijective base 26, most significant letter first. *)
Fixpoint column_letters (fuel : nat) (idx : Z) (acc : string) : string :=
  match fuel with
  | O => acc
  | S fuel' =>
      if idx <=? 0 then acc
      else
        let r := (idx - 1) mod 26 in
        column_letters fuel' ((idx - 1) / 26) (String (letter (r + 1)) acc)
  end.

Definition get_column_letter (idx : Z) : result string :=
  if ((1 <=? idx) && (idx <=? 18278))%bool
  then Ok (column_letters 3 idx EmptyString)
  else Raise (ValueError ("Invalid column index " ++ str_of_Z idx)).

(** ** [compare_sheets] *)

Definition is_None (v : cell_value) : bool :=
  match v with CEmpty => true | _ => false end.

(** [str(v) if v != "" else ""], after [None] has become [""]. *)
Definition cell_str (v : cell_value) : result string :=
  match v with
  | CEmpty => Ok ""
  | CText s => Ok s
  | CNumber z => Ok (str_of_Z z)
  | CBoolean b => Ok (if b then "True" else "False")
  | CObject r => r
  end.

(** The conversion [try]: a failure on either side replaces both. *)
Definition stringify (v1 v2 : cell_value) : string * string :=
  match cell_str v1, cell_str v2 with
  | Ok s1, Ok s2 => (s1, s2)
  | _, _ => ("ERROR_CONVERTING", "ERROR_CONVERTING")
  end.

(** ** Extents that may be [None] *)

(** [type(x).__name__] of an extent. *)
Definition type_name (x : option Z) : string :=
  match x with Some _ => "int" | None => "NoneType" end.

(** The [TypeError] of an ordering test between [a] and [b]. *)
Definition not_supported (op : string) (a b : option Z) : exn :=
  TypeError ("'" ++ op ++ "' not supported between instances of '"
             ++ type_name a ++ "' and '" ++ type_name b ++ "'").

(** [x == 1] *)
Definition is_one (x : option Z) : bool :=
  match x with Some n => n =? 1 | None => false end.

(** [n <= bound] for an [int] [n]. *)
Definition le_extent (n : Z) (bound : option Z) : result bool :=
  match bound with
  | Some b => Ok (n <=? b)
  | None => Raise (not_supported "<=" (Some n) None)
  end.

(** [max(a, b)], which is decided by the test [b > a]. *)
Definition py_max (a b : option Z) : result Z :=
  match a, b with
  | Some x, Some y => Ok (Z.max x y)
  | _, _ => Raise (not_supported ">" b a)
  end.

(** [row <= max_row and col <= max_col], then the read of the cell; outside
    the extent the value stays [None]. *)
Definition read_inside (sh : Sheet) (max_row max_col : option Z)
  (row col : Z) : result cell_value :=
  match le_extent row max_row with
  | Raise e => Raise e
  | Ok false => Ok CEmpty
  | Ok true =>
      match le_extent col max_col with
      | Raise e => Raise e
      | Ok false => Ok CEmpty
      | Ok true => cell sh row col
      end
  end.

(** The extents of the two sheets as the locals [max_row1], [max_col1],
    [max_row2], [max_col2] hold them. *)
Record Extents : Type := {
  max_row1 : option Z;
  max_col1 : option Z;
  max_row2 : option Z;
  max_col2 : option Z
}.

(** The read [try]: each sheet is read only inside its own extent. *)
Definition read_pair (sheet1 sheet2 : Sheet) (ext : Extents) (row col : Z)
  : result (cell_value * cell_value) :=
  match read_inside sheet1 (max_row1 ext) (max_col1 ext) row col with
  | Raise e => Raise e
  | Ok v1 =>
      match read_inside sheet2 (max_row2 ext) (max_col2 ext) row col with
      | Raise e => Raise e
      | Ok v2 => Ok (v1, v2)
      end
  end.

(** [range(1, n + 1)] *)
Definition range1 (n : Z) : list Z := map Z.of_nat (seq 1 (Z.to_nat n)).

Section Scan.

Variables sheet1 sheet2 : Sheet.
Variable ext : Extents.
Variable sheet_name : string.
Variable max_differences : Z.

Definition cap_reached (diffs : list Difference) : bool :=
  Z.of_nat (List.length diffs) >=? max_differences.

(** The inner [for col] loop of one row; a [break] ends it. *)
Fixpoint scan_row (row : Z) (cols : list Z) (diffs : list Difference)
  : result (list Difference) :=
  match cols with
  | [] => Ok diffs
  | col :: rest =>
      match read_pair sheet1 sheet2 ext row col with
      | Raise _ => scan_row row rest diffs
      | Ok (v1, v2) =>
          let (cell1_str, cell2_str) := stringify v1 v2 in
          if negb (String.eqb cell1_str cell2_str) then
            if cap_reached diffs then Ok diffs
            else
              match get_column_letter col with
              | Raise e => Raise e
              | Ok letters =>
                  scan_row row rest
                    (diffs ++
                     [{| d_sheet := sheet_name;
                         d_cell_id := letters ++ str_of_Z row;
                         d_value1 := take 100 cell1_str;
                         d_value2 := take 100 cell2_str;
                         d_status := "not matched" |}])
              end
          else scan_row row rest diffs
      end
  end.

(** The outer [for row] loop, left once the cap is reached. *)
Fixpoint scan_rows (rows : list Z) (cols : list Z) (diffs : list Difference)
  : result (list Difference) :=
  match rows with
  | [] => Ok diffs
  | row :: rest =>
      match scan_row row cols diffs with
      | Raise e => Raise e
      | Ok diffs' =>
          if cap_reached diffs' then Ok diffs' else scan_rows rest cols diffs'
      end
  end.

End Scan.

(** One side of the empty-sheet test, evaluated left to right with
    short-circuiting. *)
Definition looks_empty (sh : Sheet) (max_row max_col : option Z)
  : result bool :=
  if (is_one max_row && is_one max_col)%bool then
    match cell sh 1 1 with
    | Ok v => Ok (is_None v)
    | Raise e => Raise e
    end
  else Ok false.

Definition both_empty (sheet1 sheet2 : Sheet) (ext : Extents) : result bool :=
  match looks_empty sheet1 (max_row1 ext) (max_col1 ext) with
  | Raise e => Raise e
  | Ok false => Ok false
  | Ok true => looks_empty sheet2 (max_row2 ext) (max_col2 ext)
  end.

(** The first two statements of the body: the four extents are read, sheet
    1 first. *)
Definition read_extents (sheet1 sheet2 : Sheet) : result Extents :=
  match max_row sheet1 with
  | Raise e => Raise e
  | Ok r1 =>
      match max_column sheet1 with
      | Raise e => Raise e
      | Ok c1 =>
          match max_row sheet2 with
          | Raise e => Raise e
          | Ok r2 =>
              match max_column sheet2 with
              | Raise e => Raise e
              | Ok c2 =>
                  Ok {| max_row1 := r1; max_col1 := c1;
                        max_row2 := r2; max_col2 := c2 |}
              end
          end
      end
  end.

(** The body once the extents are read. *)
Definition compare_with_extents (sheet1 sheet2 : Sheet) (ext : Extents)
  (sheet_name : string) (max_differences : Z) : result SheetResult :=
  match both_empty sheet1 sheet2 ext with
  | Raise e => Raise e
  | Ok true =>
      Ok {| sheet := sheet_name; cell_id := "NA"; value1 := "Empty sheet";
            value2 := "Empty sheet"; status := "matched"; differences := [] |}
  | Ok false =>
      match py_max (max_row1 ext) (max_row2 ext) with
      | Raise e => Raise e
      | Ok max_row0 =>
          match py_max (max_col1 ext) (max_col2 ext) with
          | Raise e => Raise e
          | Ok max_col =>
              let total_cells := max_row0 * max_col in
              let max_row' :=
                if total_cells >? 1000000 then Z.min max_row0 1000
                else max_row0 in
              match scan_rows sheet1 sheet2 ext sheet_name max_differences
                      (range1 max_row') (range1 max_col) [] with
              | Raise e => Raise e
              | Ok [] =>
                  Ok {| sheet := sheet_name; cell_id := "NA";
                        value1 := "NA"; value2 := "NA";
                        status := "matched"; differences := [] |}
              | Ok diffs =>
                  Ok {| sheet := sheet_name; cell_id := "multiple";
                        value1 := "multiple"; value2 := "multiple";
                        status := "not matched"; differences := diffs |}
              end
          end
      end
  end.

(** The body of the outer [try]. *)
Definition compare_sheets_body (sheet1 sheet2 : Sheet) (sheet_name : string)
  (max_differences : Z) : result SheetResult :=
  match read_extents sheet1 sheet2 with
  | Raise e => Raise e
  | Ok ext =>
      compare_with_extents sheet1 sheet2 ext sheet_name max_differences
  end.

Definition compare_sheets (sheet1 sheet2 : Sheet) (sheet_name : string)
  (max_differences : Z) : SheetResult :=
  match compare_sheets_body sheet1 sheet2 sheet_name max_differences with
  | Ok r => r
  | Raise e =>
      {| sheet := sheet_name; cell_id := "ERROR";
         value1 := "Error during comparison";
         value2 := Services.str_exn e;
         status := "comparison_error"; differences := [] |}
  end.

Definition default_max_differences : Z := 1000.

(** ** [compare_excel_files], from "Get sheet names" on *)

Section CompareFiles.

(** Iteration order of a Python [set] holding the given distinct names, and
    [repr] of a list of names. *)
Variable set_iter : list string -> list string.
Variable names_repr : list string -> string.

(** [set(a) & set(b)] and [set(a) - set(b)], as iterated. *)
Definition set_inter (a b : list string) : list string :=
  set_iter (nodup string_dec (filter (fun n => mem n b) a)).

Definition set_diff (a b : list string) : list string :=
  set_iter (nodup string_dec (filter (fun n => negb (mem n b)) a)).

Definition exists_or_missing (present : bool) : string :=
  if present then "sheet exists" else "sheet missing".

(** The record appended by the [else] branch of the comparison loop. *)
Definition mismatch_record (wb1 wb2 : Workbook) (sheet_name : string)
  : SheetResult :=
  {| sheet := sheet_name; cell_id := "NA";
     value1 := exists_or_missing (mem sheet_name (sheetnames wb1));
     value2 := exists_or_missing (mem sheet_name (sheetnames wb2));
     status := "sheet_mismatch"; differences := [] |}.

Definition missing_in_file2 (sheet_name : string) : SheetResult :=
  {| sheet := sheet_name; cell_id := "NA"; value1 := "sheet exists";
     value2 := "sheet missing"; status := "sheet_missing_in_file2";
     differences := [] |}.

Definition missing_in_file1 (sheet_name : string) : SheetResult :=
  {| sheet := sheet_name; cell_id := "NA"; value1 := "sheet missing";
     value2 := "sheet exists"; status := "sheet_missing_in_file1";
     differences := [] |}.

(** The "Compare each sheet" loop, threading [comparison_results] and
    [matched_sheets]. *)
Fixpoint compare_loop (wb1 wb2 : Workbook) (names : list string)
  (results : list SheetResult) (matched : Z) : list SheetResult * Z :=
  match names with
  | [] => (results, matched)
  | sheet_name :: rest =>
      if (mem sheet_name (sheetnames wb1)
          && mem sheet_name (sheetnames wb2))%bool then
        match get_sheet wb1 sheet_name, get_sheet wb2 sheet_name with
        | Some sh1, Some sh2 =>
            let sheet_result :=
              compare_sheets sh1 sh2 sheet_name default_max_differences in
            compare_loop wb1 wb2 rest (results ++ [sheet_result])
              (if String.eqb (status sheet_result) "matched"
               then matched + 1 else matched)
        | _, _ => compare_loop wb1 wb2 rest results matched
        end
      else
        compare_loop wb1 wb2 rest
          (results ++ [mismatch_record wb1 wb2 sheet_name]) matched
  end.

Definition len {A : Type} (l : list A) : Z := Z.of_nat (List.length l).

Definition summary_text (total matched : Z) : string :=
  "Compared " ++ str_of_Z total ++ " sheets. " ++ str_of_Z matched
  ++ " matched, " ++ str_of_Z (total - matched)
  ++ " had differences or were missing.".

Definition compare_excel_files (workbook1 workbook2 : Workbook)
  : result CompareResult :=
  let sheets1 := sheetnames workbook1 in
  let sheets2 := sheetnames workbook2 in
  let chosen : result (list string) :=
    if negb (len sheets1 =? len sheets2) then
      let common_sheets := set_inter sheets1 sheets2 in
      match common_sheets with
      | [] =>
          Raise (HTTPException 400
                   ("No common sheets found between files. File 1 has: "
                    ++ names_repr sheets1 ++ ". File 2 has: "
                    ++ names_repr sheets2))
      | _ => Ok common_sheets
      end
    else Ok sheets1 in
  match chosen with
  | Raise e => Raise e
  | Ok sheets_to_compare =>
      let (results, matched) :=
        compare_loop workbook1 workbook2 sheets_to_compare [] 0 in
      let sheets1_only := set_diff sheets1 sheets2 in
      let sheets2_only := set_diff sheets2 sheets1 in
      let results := (results ++ map missing_in_file2 sheets1_only)%list in
      let results := (results ++ map missing_in_file1 sheets2_only)%list in
      let success :=
        ((matched =? len sheets_to_compare) && (len sheets1_only =? 0)
         && (len sheets2_only =? 0))%bool in
      let total_sheets_compared :=
        len sheets_to_compare + len sheets1_only + len sheets2_only in
      Ok {| success := success;
            total_sheets := total_sheets_compared;
            matched_sheets := matched;
            comparison_results := results;
            summary := summary_text total_sheets_compared matched |}
  end.

End CompareFiles.

End ExcelCompare.

(* ================================================================== *)
(** * Notions used to state the properties, and sample inputs *)
(* ================================================================== *)

Module Props.
Import PyStr Re SqlUtils Models Services DataService ExcelCompare.

(** ** SQL text *)

(** Removal of a single trailing statement separator. *)
Fixpoint drop_trailing_separator (s : string) : string :=
  match s with
  | EmptyString => EmptyString
  | String c EmptyString => if is_semicolon c then EmptyString else s
  | String c t => String c (drop_trailing_separator t)
  end.

(** The text begins with [select] once trimmed, freed of one trailing
    separator and lower-cased. *)
Definition begins_with_select (sql : string) : bool :=
  startswith (lower (drop_trailing_separator (strip sql))) "select".

Definition contains_separator (sql : string) : Prop :=
  exists pre post, sql = pre ++ ";" ++ post.

Definition dml_ddl_verbs : list string :=
  ["insert"; "update"; "delete"; "drop"; "truncate"; "alter"; "create";
   "grant"; "revoke"].

(** The last character of [pre], if any. *)
Fixpoint last_char (pre : string) (before : option ascii) : option ascii :=
  match pre with
  | EmptyString => before
  | String c t => last_char t (Some c)
  end.

(** [w] occurs in [sql] with no word character on either side. *)
Definition occurs_as_word (w sql : string) : Prop :=
  exists pre post,
    sql = pre ++ w ++ post
    /\ word_before (last_char pre None) = false
    /\ word_after post = false.

(** Some spelling of a DML/DDL verb, in any letter case, occurs as a whole
    word. *)
Definition contains_verb (sql : string) : Prop :=
  exists verb w,
    In verb dml_ddl_verbs /\ lower w = verb /\ occurs_as_word w sql.

(** A string all of whose characters are outside [p]. *)
Fixpoint none_of (p : ascii -> bool) (s : string) : bool :=
  match s with
  | EmptyString => true
  | String c t => (negb (p c) && none_of p t)%bool
  end.

Definition rejected : result unit :=
  Raise (HTTPException HTTP_400_BAD_REQUEST unsafe_sql_detail).

(** ** Filters *)

Definition known_operators : list string :=
  ["eq"; "ne"; "gt"; "lt"; "gte"; "lte"; "like"; "in"].

Definition is_list (v : filter_value) : bool :=
  match v with FList _ => true | FScalar _ => false end.

(** A condition with an operator outside the known ones, or [in] with a
    value that is not a list. *)
Definition malformed (c : FilterCondition) : bool :=
  let op := lower (operator c) in
  (negb (existsb (String.eqb op) known_operators)
   || (String.eqb op "in" && negb (is_list (value c))))%bool.

Definition without_malformed (f : TableFilter) : TableFilter :=
  {| conditions := filter (fun c => negb (malformed c)) (conditions f);
     logic := logic f |}.

(** The request with the malformed conditions of its filter removed. *)
Definition drop_malformed (request : FilteredQueryRequest)
  : FilteredQueryRequest :=
  {| query_id := query_id request;
     sql_query := sql_query request;
     filters := option_map without_malformed (filters request);
     limit := limit request;
     offset := offset request;
     sort_column := sort_column request;
     sort_direction := sort_direction request |}.

Definition one_of_four_messages (msg : string) : bool :=
  (String.eqb msg msg_syntax || String.eqb msg msg_table
   || String.eqb msg msg_column || String.eqb msg msg_generic)%bool.

(** ** Floats *)

(** The integer a float denotes, when it denotes one. *)
Definition float_as_integer (f : spec_float) : option Z :=
  match f with
  | S754_zero _ => Some 0
  | S754_finite s m e =>
      let sign := if s then -1 else 1 in
      if 0 <=? e then Some (sign * (Z.pos m * 2 ^ e))
      else if Z.pos m mod 2 ^ (- e) =? 0
           then Some (sign * (Z.pos m / 2 ^ (- e)))
           else None
  | _ => None
  end.

(** ** Sample runtimes and inputs *)

(** Renderings that the sample inputs never reach. *)
Definition no_float_str : spec_float -> string := fun _ => "".
Definition no_list_str : list scalar -> string := fun _ => "".
Definition no_float_of_str : string -> option spec_float := fun _ => None.
Definition no_format_chart_data : DataFrame -> option string -> result ChartData :=
  fun _ _ => Raise (ValueError "").
Definition no_stored_query : Z -> unit -> option string * unit :=
  fun _ st => (None, st).

(** A database without the queried table. *)
Definition ora_00942 : string := "ORA-00942: table or view does not exist".

Definition db_missing_table
  : string -> unit -> result (list string * list (list scalar)) * unit :=
  fun _ st => (Raise (DatabaseError ora_00942), st).

(** A database answering every statement with one row. *)
Definition db_one_row (cols : list string) (row : list scalar)
  : string -> unit -> result (list string * list (list scalar)) * unit :=
  fun _ st => (Ok (cols, [row]), st).

(** A database whose first statement returns a one-row page and whose
    later statements fail; the state counts the statements run. *)
Definition db_count_fails
  : string -> nat -> result (list string * list (list scalar)) * nat :=
  fun _ n =>
    match n with
    | O => (Ok (["ID"], [[SInt 7]]), S n)
    | _ => (Raise (DatabaseError "ORA-01555: snapshot too old"), S n)
    end.

Definition request_for (sql : string) (f : option TableFilter)
  : FilteredQueryRequest :=
  {| query_id := None; sql_query := Some sql; filters := f;
     limit := 1000; offset := 0; sort_column := None;
     sort_direction := Some "ASC" |}.

Definition role_is_admin : FilterCondition :=
  {| column := "role"; operator := "eq"; value := FScalar (SStr "ADMIN") |}.

Definition role_foo_admin : FilterCondition :=
  {| column := "role"; operator := "foo"; value := FScalar (SStr "ADMIN") |}.

(** Identity iteration order for sets, and an unused [repr]. *)
Definition in_order : list string -> list string := fun l => l.
Definition no_names_repr : list string -> string := fun _ => "".

(** A sheet of the given extent with the given reads. *)
Definition mk_sheet (rows cols : Z) (f : Z -> Z -> result cell_value) : Sheet :=
  {| max_row := Ok (Some rows); max_column := Ok (Some cols); cell := f |}.

(** A one-cell sheet whose only cell cannot be read. *)
Definition unreadable_sheet : Sheet :=
  mk_sheet 1 1 (fun _ _ => Raise (ValueError "bad cell")).

(** Two sheets of 1001 rows and one column that differ in every cell. *)
Definition zeros : Sheet := mk_sheet 1001 1 (fun _ _ => Ok (CNumber 0)).
Definition ones : Sheet := mk_sheet 1001 1 (fun _ _ => Ok (CNumber 1)).

(** Two-sheet workbooks built from them. *)
Definition all_zeros : Workbook := [("A", zeros); ("B", zeros)].
Definition all_ones : Workbook := [("A", ones); ("B", ones)].

(** A workbook with one data sheet and one empty sheet. *)
Definition small_workbook : Workbook :=
  [("Data", mk_sheet 2 2 (fun r c => Ok (CNumber (r + c))));
   ("Notes", mk_sheet 1 1 (fun _ _ => Ok CEmpty))].

Definition within_default_cap (sr : SheetResult) : Prop :=
  len (differences sr) <= default_max_differences.

Definition is_matched (sr : SheetResult) : Prop := status sr = "matched".

Definition total_differences (r : CompareResult) : Z :=
  fold_right (fun sr acc => len (differences sr) + acc) 0
    (comparison_results r).

(** A sheet is probed without failure when, having extent 1x1, its cell
    (1,1) can be read. *)
Definition probe_succeeds (sh : Sheet) : Prop :=
  max_row sh = Ok (Some 1) -> max_column sh = Ok (Some 1) ->
  exists v, cell sh 1 1 = Ok v.

(** Both extents of the sheet can be read and are numbers. *)
Definition has_extent (sh : Sheet) : Prop :=
  exists rows cols,
    max_row sh = Ok (Some rows) /\ max_column sh = Ok (Some cols).

(** A worksheet without a dimension record, and a chartsheet. *)
Definition unsized_sheet : Sheet :=
  {| max_row := Ok None; max_column := Ok None;
     cell := fun _ _ => Ok CEmpty |}.

Definition no_max_row : exn :=
  AttributeError "'Chartsheet' object has no attribute 'max_row'".

Definition chartsheet : Sheet :=
  {| max_row := Raise no_max_row; max_column := Raise no_max_row;
     cell := fun _ _ => Raise no_max_row |}.

(** The locals when a sheet is compared with itself. *)
Definition same_extents (rows cols : option Z) : Extents :=
  {| max_row1 := rows; max_col1 := cols;
     max_row2 := rows; max_col2 := cols |}.

(** What keeps a sheet from being compared: an extent that cannot be read
    or is [None], or a probe of a 1x1 sheet that raises. *)
Definition cannot_be_compared (sh : Sheet) : Prop :=
  (exists e, max_row sh = Raise e)
  \/ (exists e, max_column sh = Raise e)
  \/ max_row sh = Ok None
  \/ max_column sh = Ok None
  \/ (max_row sh = Ok (Some 1) /\ max_column sh = Ok (Some 1)
      /\ exists e, cell sh 1 1 = Raise e).

End Props.

(* ================================================================== *)
(** * [roles_utils.py] and the access check of [routers/query.py] *)
(* ================================================================== *)

Module RolesUtils.
Import PyStr.

(** [s.split(sep)] for a one-character separator: never an empty list. *)
Fixpoint split (sep : ascii) (s : string) : list string :=
  match s with
  | EmptyString => [EmptyString]
  | String c t =>
      if Ascii.eqb c sep then EmptyString :: split sep t
      else
        match split sep t with
        | piece :: rest => String c piece :: rest
        | [] => [String c EmptyString]
        end
  end.

(** [x in roles] for a set of role names, held as a list. *)
Definition in_roles (x : string) (roles : list string) : bool :=
  existsb (String.eqb x) roles.

(** [is_admin], for a role held as text. *)
Definition is_admin (role : string) : bool :=
  if String.eqb role "" then false
  else
    let normalized := upper role in
    let roles := map strip (split "," normalized) in
    in_roles "ADMIN" roles.

End RolesUtils.

Module QueryRouter.
Import PyStr RolesUtils.

(** [{r.strip().upper() for r in (query_obj.role or "").split(",")
      if r.strip()}] *)
Definition assigned_roles (query_role : option string) : list string :=
  let text := match query_role with Some r => r | None => "" end in
  map (fun r => upper (strip r))
    (filter (fun r => negb (String.eqb (strip r) "")) (split "," text)).

Definition not_authorised : exn :=
  HTTPException 403 "Not authorised for this query".

(** The access check made on a stored query before it is run with filters:
    it raises for a user who is not an administrator when the query lists
    roles and the user's role is not one of them. *)
Definition check_query_access (user_role : string)
  (query_role : option string) : result unit :=
  if negb (is_admin user_role) then
    let assigned := assigned_roles query_role in
    if (negb (match assigned with [] => true | _ => false end)
        && negb (in_roles (upper user_role) assigned))%bool
    then Raise not_authorised
    else Ok tt
  else Ok tt.

End QueryRouter.

(* ================================================================== *)
(** * [input_validation.py]: [InputValidator.sanitize_string] *)
(* ================================================================== *)

Module InputValidation.
Import PyStr.

(** [s.replace(c, r)] for a one-character [c]. *)
Fixpoint replace_char (c : ascii) (r : string) (s : string) : string :=
  match s with
  | EmptyString => EmptyString
  | String a t =>
      if Ascii.eqb a c then r ++ replace_char c r t
      else String a (replace_char c r t)
  end.

Definition nul : ascii := ascii_of_N 0.
Definition double_quote : ascii := ascii_of_N 34.

(** [html.escape(s, quote=True)]: five replacements, the ampersand
    first. *)
Definition html_escape (s : string) : string :=
  let s := replace_char "&" "&amp;" s in
  let s := replace_char "<" "&lt;" s in
  let s := replace_char ">" "&gt;" s in
  let s := replace_char double_quote "&quot;" s in
  replace_char "'" "&#x27;" s.

(** The class [[\x00-\x08\x0B\x0C\x0E-\x1F\x7F]]. *)
Definition is_control (c : ascii) : bool :=
  (in_range 0 8 c || N.eqb (code c) 11 || N.eqb (code c) 12
   || in_range 14 31 c || N.eqb (code c) 127)%bool.

(** [re.sub(cls, '', s)] for a character class. *)
Fixpoint remove_class (cls : ascii -> bool) (s : string) : string :=
  match s with
  | EmptyString => EmptyString
  | String c t =>
      if cls c then remove_class cls t else String c (remove_class cls t)
  end.

Definition input_too_long (max_length : Z) : exn :=
  HTTPException 400
    ("Input too long. Maximum length is " ++ str_of_Z max_length
     ++ " characters").

Definition sanitize_string (value : string) (max_length : Z)
  (allow_html : bool) : result string :=
  if Z.of_nat (String.length value) >? max_length then
    Raise (input_too_long max_length)
  else
    let value := replace_char nul "" value in
    let value := if negb allow_html then html_escape value else value in
    let value := remove_class is_control value in
    Ok (strip value).

End InputValidation.

(* ================================================================== *)
(** * [services.py]: [DataService._generate_colors] *)
(* ================================================================== *)

Module ChartColors.

Definition base_colors : list string :=
  ["#FF6384"; "#36A2EB"; "#FFCE56"; "#4BC0C0"; "#9966FF"; "#FF9F40";
   "#FF6384"; "#C9CBCF"; "#4BC0C0"; "#FF6384"].

(** [range(n)] *)
Definition range0 (n : Z) : list Z := map Z.of_nat (seq 0 (Z.to_nat n)).

(** [base_colors[i]] for an index inside the list. *)
Definition color_at (i : Z) : string := nth (Z.to_nat i) base_colors "".

Definition _generate_colors (count : Z) : list string :=
  map (fun i => color_at (i mod Z.of_nat (List.length base_colors)))
    (range0 count).

End ChartColors.

(* ================================================================== *)
(** * Further notions and sample inputs *)
(* ================================================================== *)

Module MoreProps.
Import PyStr Re SqlUtils Models Services DataService ExcelCompare Props.
Import RolesUtils QueryRouter InputValidation ChartColors.

(** ** Reading a quoted SQL literal back *)

(** The text between the quotes of a literal, with doubled quotes read as
    one; [None] when a quote stands alone or the closing quote is
    missing. *)
Fixpoint read_quoted (s : string) : option string :=
  match s with
  | EmptyString => None
  | String c t =>
      if Ascii.eqb c "'" then
        match t with
        | EmptyString => Some EmptyString
        | String c2 t2 =>
            if Ascii.eqb c2 "'"
            then option_map (String "'") (read_quoted t2)
            else None
        end
      else option_map (String c) (read_quoted t)
  end.

Definition unescape_literal (s : string) : option string :=
  match s with
  | String c t => if Ascii.eqb c "'" then read_quoted t else None
  | EmptyString => None
  end.

(** ** Filters *)

Definition has_number (vs : list scalar) : bool := existsb is_int_or_float vs.

Definition in_condition (col : string) (vs : list scalar) : FilterCondition :=
  {| column := col; operator := "in"; value := FList vs |}.

(** ** Sample data *)

Definition filter_of (cs : list FilterCondition) : TableFilter :=
  {| conditions := cs; logic := "AND" |}.

(** ** Query results *)

(** Success carries a table and no error. *)
Definition table_success (r : QueryResult) : Prop :=
  Models.success r = true /\ error r = None
  /\ exists t, result_data r = Some (Table t).

(** Success carries a chart and no error. *)
Definition chart_success (r : QueryResult) : Prop :=
  Models.success r = true /\ error r = None
  /\ exists c, result_data r = Some (Chart c).

(** Failure carries a message and no data. *)
Definition failed_with (r : QueryResult) (msg : string) : Prop :=
  Models.success r = false /\ result_data r = None /\ error r = Some msg.

(** ** Data frames *)

(** Every row has one entry per column. *)
Definition aligned (df : DataFrame) : bool :=
  forallb (fun row => Nat.eqb (List.length row) (List.length (df_columns df)))
    (df_rows df).

(** The labels other than [name], in order. *)
Definition labels_without (name : string) (cols : list string) : list string :=
  filter (fun c => negb (String.eqb c name)) cols.

(** ** Sort fragments *)

Definition identifier_char (c : ascii) : bool :=
  (isalnum c || Ascii.eqb c "_")%bool.

Fixpoint identifier_only (s : string) : bool :=
  match s with
  | EmptyString => true
  | String c t => (identifier_char c && identifier_only t)%bool
  end.

(** The characters of a text that may stand in an identifier, in their
    order. *)
Definition identifier_part (s : string) : string :=
  string_of_list_ascii (filter identifier_char (list_ascii_of_string s)).

(** The request asks for descending order: its direction reads DESC once
    upper-cased. *)
Definition wants_descending (request : FilteredQueryRequest) : bool :=
  match sort_direction request with
  | Some d => String.eqb (upper d) "DESC"
  | None => false
  end.

Definition request_sorted_by (col : string) (direction : option string)
  : FilteredQueryRequest :=
  {| query_id := None; sql_query := Some "SELECT * FROM t"; filters := None;
     limit := 10; offset := 0; sort_column := Some col;
     sort_direction := direction |}.

(** ** Sample databases *)

(** A database whose first statement returns a one-row page and whose
    later statements time out. *)
Definition db_count_times_out
  : string -> nat -> result (list string * list (list scalar)) * nat :=
  fun _ n =>
    match n with
    | O => (Ok (["ID"], [[SInt 7]]), S n)
    | _ => (Raise (TimeoutError "timed out"), S n)
    end.

(** A database whose first statement returns an empty page and whose
    second statement reports the headers. *)
Definition db_empty_page
  : string -> nat -> result (list string * list (list scalar)) * nat :=
  fun _ n =>
    match n with
    | O => (Ok (["ID"; "NAME"; "RNUM"], []), S n)
    | _ => (Ok (["ID"; "NAME"], []), S n)
    end.

(** A database that records nothing and must not be reached. *)
Definition db_unreachable
  : string -> nat -> result (list string * list (list scalar)) * nat :=
  fun _ n => (Raise (DatabaseError "unexpected statement"), S n).

Definition stored_queries (sql : option string)
  : Z -> nat -> option string * nat :=
  fun _ n => (sql, n).

(** ** Requests *)

(** [if request.query_id:] fails: no identifier, or the identifier 0. *)
Definition no_query_id (request : FilteredQueryRequest) : bool :=
  match query_id request with
  | None => true
  | Some id => id =? 0
  end.

(** [elif request.sql_query:] fails: no text, or the empty text. *)
Definition no_sql_query (request : FilteredQueryRequest) : bool :=
  match sql_query request with
  | None => true
  | Some sql => String.eqb sql ""
  end.

(** The request with its SQL text removed. *)
Definition without_sql_query (request : FilteredQueryRequest)
  : FilteredQueryRequest :=
  {| query_id := query_id request;
     sql_query := None;
     filters := filters request;
     limit := limit request;
     offset := offset request;
     sort_column := sort_column request;
     sort_direction := sort_direction request |}.

Definition lacks_upper_total_count (row : row_dict) : Prop :=
  dict_get "TOTAL_COUNT" row = None.

(** ** Comparison results *)

Definition well_formed_difference (name : string) (d : Difference) : Prop :=
  d_sheet d = name /\ d_status d = "not matched"
  /\ (String.length (d_value1 d) <= 100)%nat
  /\ (String.length (d_value2 d) <= 100)%nat.

(** Number of per-sheet results with status [matched]. *)
Definition count_matched (rs : list SheetResult) : Z :=
  len (filter (fun sr => String.eqb (status sr) "matched") rs).

Definition no_sheet_mismatch (sr : SheetResult) : Prop :=
  String.eqb (status sr) "sheet_mismatch" = false.

(** The two sheets agree at a position: the read fails, or the two cells
    have the same text. *)
Definition agree_at (sheet1 sheet2 : Sheet) (ext : Extents) (row col : Z)
  : Prop :=
  (exists e, read_pair sheet1 sheet2 ext row col = Raise e)
  \/ (exists v1 v2,
         read_pair sheet1 sheet2 ext row col = Ok (v1, v2)
         /\ String.eqb (fst (stringify v1 v2)) (snd (stringify v1 v2)) = true).

(** The locals of a comparison of two sheets with the given extents, and
    the locals when the sheets are exchanged. *)
Definition extents_of (rows1 cols1 rows2 cols2 : Z) : Extents :=
  {| max_row1 := Some rows1; max_col1 := Some cols1;
     max_row2 := Some rows2; max_col2 := Some cols2 |}.

Definition exchanged (ext : Extents) : Extents :=
  {| max_row1 := max_row2 ext; max_col1 := max_col2 ext;
     max_row2 := max_row1 ext; max_col2 := max_col1 ext |}.

(** A difference with its two values exchanged. *)
Definition mirror (d : Difference) : Difference :=
  {| d_sheet := d_sheet d; d_cell_id := d_cell_id d;
     d_value1 := d_value2 d; d_value2 := d_value1 d;
     d_status := d_status d |}.

(** Sheets of 1001 rows and 1000 columns that differ in the last row
    only. *)
Definition wide_zeros : Sheet := mk_sheet 1001 1000 (fun _ _ => Ok (CNumber 0)).
Definition wide_last_row_ones : Sheet :=
  mk_sheet 1001 1000
    (fun row _ => Ok (CNumber (if row =? 1001 then 1 else 0))).

(** The sheet names of the first workbook that the second one has too. *)
Definition common_names (wb1 wb2 : Workbook) : list string :=
  filter (fun n => mem n (sheetnames wb2)) (sheetnames wb1).

Definition is_http_400 {A : Type} (r : result A) : Prop :=
  exists detail, r = Raise (HTTPException 400 detail).

(** One-sheet workbooks: one shares its sheet name with [small_workbook],
    the other does not. *)
Definition data_only : Workbook :=
  [("Data", mk_sheet 2 2 (fun r c => Ok (CNumber (r + c))))].
Definition other_only : Workbook :=
  [("Other", mk_sheet 1 1 (fun _ _ => Ok CEmpty))].

(** A scan outcome with the two values of every difference exchanged. *)
Definition mirrored (r : result (list Difference)) : result (list Difference) :=
  match r with
  | Ok ds => Ok (map mirror ds)
  | Raise e => Raise e
  end.

(** ** Roles and sanitised text *)

(** The character occurs in the text. *)
Fixpoint mentions (c : ascii) (s : string) : bool :=
  match s with
  | EmptyString => false
  | String a t => (Ascii.eqb a c || mentions c t)%bool
  end.

(** The letters A-Z read as a-z; every other character is left alone. *)
Definition ascii_fold (c : ascii) : ascii :=
  if in_range 65 90 c then ascii_of_N (code c + 32) else c.

Fixpoint ascii_lower (s : string) : string :=
  match s with
  | EmptyString => EmptyString
  | String c t => String (ascii_fold c) (ascii_lower t)
  end.

(** Two texts that differ only in the case of the letters A-Z. *)
Definition same_up_to_case (a b : string) : Prop :=
  ascii_lower a = ascii_lower b.

Definition same_roles_up_to_case (a b : option string) : Prop :=
  option_map ascii_lower a = option_map ascii_lower b.

(** Every character of the text satisfies the test. *)
Fixpoint all_chars_are (p : ascii -> bool) (s : string) : bool :=
  match s with
  | EmptyString => true
  | String a t => (p a && all_chars_are p t)%bool
  end.

(** The ASCII control characters, and the three of them that are kept. *)
Definition is_ascii_control (c : ascii) : bool :=
  (in_range 0 31 c || N.eqb (code c) 127)%bool.

Definition is_tab_lf_cr (c : ascii) : bool :=
  (N.eqb (code c) 9 || N.eqb (code c) 10 || N.eqb (code c) 13)%bool.

Definition no_stray_control (c : ascii) : bool :=
  (negb (is_ascii_control c) || is_tab_lf_cr c)%bool.

(** A character that [html.escape] rewrites. *)
Definition is_escaped (c : ascii) : bool :=
  (Ascii.eqb c "&" || Ascii.eqb c "<" || Ascii.eqb c ">"
   || Ascii.eqb c double_quote || Ascii.eqb c "'")%bool.

(** A text holding a character of the range U+0080-U+009F. *)
Definition with_c1_control : string :=
  String "a" (String (ascii_of_N 128) (String "b" EmptyString)).

(** A character that markup and quoting are made of. *)
Definition is_markup (c : ascii) : bool :=
  (Ascii.eqb c "<" || Ascii.eqb c ">" || Ascii.eqb c double_quote
   || Ascii.eqb c "'")%bool.

End MoreProps.
(* ================================================================== *)
(** * Facts about text *)
(* ================================================================== *)

Section TextFacts.
Import PyStr Re SqlUtils Props.

Ltac each_char c := destruct c as [[] [] [] [] [] [] [] []].

Lemma isspace_lower_char (c : ascii) : isspace (lower_char c) = isspace c.
Proof. each_char c; reflexivity. Qed.

Lemma isword_lower_char (c : ascii) : isword (lower_char c) = isword c.
Proof. each_char c; reflexivity. Qed.

Lemma lower_char_semicolon (c : ascii) :
  is_semicolon (lower_char c) = is_semicolon c.
Proof. each_char c; reflexivity. Qed.

Lemma ci_eqb_refl (c : ascii) : ci_eqb c c = true.
Proof. unfold ci_eqb. apply Ascii.eqb_refl. Qed.

Lemma app_assoc_s (a b c : string) : (a ++ b) ++ c = a ++ (b ++ c).
Proof. induction a as [|x a IH]; simpl; [reflexivity | now rewrite IH]. Qed.

Lemma app_nil_r_s (a : string) : a ++ "" = a.
Proof. induction a as [|x a IH]; simpl; [reflexivity | now rewrite IH]. Qed.

Lemma lower_app (a b : string) : lower (a ++ b) = lower a ++ lower b.
Proof. induction a as [|x a IH]; simpl; [reflexivity | now rewrite IH]. Qed.

Lemma prefix_app (p s w : string) :
  String.prefix p s = true -> String.prefix p (s ++ w) = true.
Proof.
  revert s. induction p as [|a p IH]; intros s H.
  - destruct (s ++ w); reflexivity.
  - destruct s as [|b s]; simpl in *; [discriminate|].
    destruct (ascii_dec a b); [now apply IH | discriminate].
Qed.

(** *** Stripping *)

Section Strip.
Variable p : ascii -> bool.

Lemma lstrip_by_app (pre : string) (a : ascii) (x : string) :
  p a = false ->
  lstrip_by p (pre ++ String a x) = lstrip_by p pre ++ String a x.
Proof.
  intros Ha. induction pre as [|c pre IH]; simpl.
  - now rewrite Ha.
  - destruct (p c); [exact IH | reflexivity].
Qed.

Lemma rstrip_by_keep_head (a : ascii) (t : string) :
  p a = false -> rstrip_by p (String a t) = String a (rstrip_by p t).
Proof.
  intros Ha. simpl. destruct (rstrip_by p t); [now rewrite Ha | reflexivity].
Qed.

Lemma rstrip_by_cons_nonempty (c : ascii) (t : string) :
  rstrip_by p t <> "" -> rstrip_by p (String c t) = String c (rstrip_by p t).
Proof.
  intros H. simpl. destruct (rstrip_by p t); [congruence | reflexivity].
Qed.

Lemma rstrip_by_prepend (y t : string) :
  rstrip_by p t <> "" -> rstrip_by p (y ++ t) = y ++ rstrip_by p t.
Proof.
  intros H. induction y as [|c y IH]; [reflexivity|].
  change (String c y ++ t) with (String c (y ++ t)).
  rewrite rstrip_by_cons_nonempty; rewrite IH; [reflexivity|].
  destruct y; simpl; [exact H | discriminate].
Qed.

(** What [rstrip_by] returns is an initial segment of its argument. *)
Lemma rstrip_by_prefix (s : string) : exists w, s = rstrip_by p s ++ w.
Proof.
  induction s as [|c s [w IH]].
  - now exists "".
  - simpl. destruct (rstrip_by p s) eqn:E.
    + destruct (p c).
      * now exists (String c s).
      * exists s. reflexivity.
    + exists w. simpl in *. now f_equal.
Qed.

Lemma rstrip_by_head (c : ascii) (t : string) :
  rstrip_by p (String c t) = "" \/ exists t', rstrip_by p (String c t) = String c t'.
Proof.
  simpl. destruct (rstrip_by p t).
  - destruct (p c); [now left | right; now eexists].
  - right; now eexists.
Qed.

Lemma lstrip_by_head (s : string) :
  lstrip_by p s = "" \/ exists a t, lstrip_by p s = String a t /\ p a = false.
Proof.
  induction s as [|c s IH]; simpl; [now left|].
  destruct (p c) eqn:E; [exact IH | right; now exists c, s].
Qed.

End Strip.

Lemma rstrip_by_app_clean (p : ascii -> bool) (w post : string) :
  w <> "" -> none_of p w = true ->
  rstrip_by p (w ++ post) = w ++ rstrip_by p post.
Proof.
  induction w as [|a w IH]; intros Hne Hw; [congruence|].
  simpl in Hw. apply andb_true_iff in Hw as [Ha Hw].
  apply negb_true_iff in Ha.
  change (String a w ++ post) with (String a (w ++ post)).
  rewrite rstrip_by_keep_head by exact Ha.
  destruct w as [|b w]; [reflexivity|].
  rewrite IH; [reflexivity | discriminate | exact Hw].
Qed.

Lemma none_of_space_lower (w : string) :
  none_of isspace (lower w) = none_of isspace w.
Proof.
  induction w as [|c w IH]; simpl; [reflexivity|].
  now rewrite isspace_lower_char, IH.
Qed.

(** Trimming around an occurrence of a whitespace-free word. *)
Lemma strip_around (pre w post : string) :
  w <> "" -> none_of isspace w = true ->
  strip (pre ++ w ++ post)
  = lstrip_by isspace pre ++ w ++ rstrip_by isspace post.
Proof.
  intros Hne Hw. unfold strip.
  destruct w as [|a w]; [congruence|].
  pose proof Hw as Hw'. simpl in Hw'.
  apply andb_true_iff in Hw' as [Ha _]. apply negb_true_iff in Ha.
  change (String a w ++ post) with (String a (w ++ post)).
  rewrite lstrip_by_app by exact Ha.
  change (String a (w ++ post)) with (String a w ++ post).
  assert (E : rstrip_by isspace (String a w ++ post)
              = String a w ++ rstrip_by isspace post)
    by (apply rstrip_by_app_clean; [discriminate | exact Hw]).
  rewrite rstrip_by_prepend; rewrite E; [reflexivity | discriminate].
Qed.

Lemma word_after_lower_rstrip (post : string) :
  word_after post = false ->
  word_after (lower (rstrip_by isspace post)) = false.
Proof.
  intros H. destruct post as [|c t]; [reflexivity|].
  destruct (rstrip_by_head isspace c t) as [E | [t' E]]; rewrite E; simpl.
  - reflexivity.
  - rewrite isword_lower_char. exact H.
Qed.

End TextFacts.

(* ================================================================== *)
(** * The SQL safety validator *)
(* ================================================================== *)

Section Validator.
Import PyStr Re SqlUtils Props.

(** *** The matcher *)

Lemma match_lit_self (lit : string) (prev : option ascii) (rest : string)
  (k : cont) :
  match_lit lit prev (lit ++ rest) k = k (last_char lit prev) rest.
Proof.
  revert prev. induction lit as [|a lit IH]; intros prev; [reflexivity|].
  simpl. now rewrite ci_eqb_refl, IH.
Qed.

Lemma search_from_app (r : regex) (pre rest : string) (prev : option ascii) :
  rmatch r (last_char pre prev) rest accept = true ->
  search_from r prev (pre ++ rest) = true.
Proof.
  revert prev. induction pre as [|c pre IH]; intros prev H; simpl in *.
  - destruct rest; simpl; rewrite H; reflexivity.
  - rewrite (IH (Some c) H). apply orb_true_r.
Qed.

Lemma rmatch_ralt (r : regex) (rs : list regex) (prev : option ascii)
  (s : string) (k : cont) :
  In r rs -> rmatch r prev s k = true -> rmatch (ralt rs) prev s k = true.
Proof.
  intros Hin Hr. induction rs as [|r' rs IH]; [contradiction|].
  simpl. destruct Hin as [-> | Hin].
  - now rewrite Hr.
  - rewrite (IH Hin). apply orb_true_r.
Qed.

(** A forbidden token matching somewhere in the subject makes the whole
    pattern match. *)
Lemma forbidden_found (r : regex) (pre rest : string) :
  In r _FORBIDDEN_TOKENS ->
  rmatch r (last_char pre None) rest accept = true ->
  search _FORBIDDEN_PATTERN (pre ++ rest) = true.
Proof.
  intros Hin H. apply search_from_app.
  now apply rmatch_ralt with (r := r).
Qed.

Lemma keyword_matches (kw : string) (prev : option ascii) (post : string) :
  word_before (last_char kw prev) = true ->
  word_after post = false ->
  rmatch (keyword kw) prev (kw ++ post) accept = true.
Proof.
  intros Hb Ha. unfold keyword. simpl.
  rewrite match_lit_self. now rewrite Hb, Ha.
Qed.

Lemma verb_is_token (verb : string) :
  In verb dml_ddl_verbs -> In (keyword verb) _FORBIDDEN_TOKENS.
Proof.
  unfold dml_ddl_verbs. simpl.
  intros H; repeat (destruct H as [<- | H]; [simpl; tauto|]); contradiction.
Qed.

Lemma verb_shape (verb : string) (prev : option ascii) :
  In verb dml_ddl_verbs ->
  verb <> "" /\ none_of isspace verb = true
  /\ word_before (last_char verb prev) = true.
Proof.
  unfold dml_ddl_verbs. simpl.
  intros H;
    repeat (destruct H as [<- | H];
            [repeat split; (discriminate || reflexivity)|]);
    contradiction.
Qed.

(** *** Rejection *)

Lemma is_safe_sql_false_rejected (sql : string) :
  is_safe_sql sql = false -> validate_sql sql = rejected.
Proof. intros H. unfold validate_sql. now rewrite H. Qed.

Lemma forbidden_unsafe (sql : string) :
  search _FORBIDDEN_PATTERN (lower (strip sql)) = true ->
  is_safe_sql sql = false.
Proof.
  intros H. unfold is_safe_sql.
  destruct (negb (startswith (lower (strip sql)) "select")); [reflexivity|].
  now rewrite H.
Qed.

Lemma separator_unsafe (sql : string) :
  contains_separator sql -> is_safe_sql sql = false.
Proof.
  intros (pre & post & ->). apply forbidden_unsafe.
  rewrite strip_around by (discriminate || reflexivity).
  rewrite !lower_app.
  apply forbidden_found with (r := RStr ";"); [simpl; tauto|].
  reflexivity.
Qed.

Lemma verb_unsafe (sql : string) :
  contains_verb sql -> is_safe_sql sql = false.
Proof.
  intros (verb & w & Hin & Hw & pre & post & -> & _ & Hafter).
  destruct (verb_shape verb (last_char (lower (lstrip_by isspace pre)) None) Hin)
    as (Hne & Hclean & Hlast).
  apply forbidden_unsafe.
  rewrite strip_around.
  - rewrite !lower_app, Hw.
    apply forbidden_found with (r := keyword verb).
    + now apply verb_is_token.
    + apply keyword_matches; [exact Hlast|].
      now apply word_after_lower_rstrip.
  - intros ->. apply Hne. now rewrite <- Hw.
  - now rewrite <- none_of_space_lower, Hw.
Qed.

(** *** The leading keyword *)

Lemma prefix_cons (a b : ascii) (p s : string) :
  String.prefix (String a p) (String b s)
  = if ascii_dec a b then String.prefix p s else false.
Proof. reflexivity. Qed.

Lemma drop_trailing_separator_cons (b c : ascii) (t : string) :
  drop_trailing_separator (String b (String c t))
  = String b (drop_trailing_separator (String c t)).
Proof. reflexivity. Qed.

Lemma lower_cons (c : ascii) (t : string) :
  lower (String c t) = String (lower_char c) (lower t).
Proof. reflexivity. Qed.

Lemma prefix_drop_trailing_separator (p t : string) :
  none_of is_semicolon p = true ->
  String.prefix p (lower t) = true ->
  String.prefix p (lower (drop_trailing_separator t)) = true.
Proof.
  revert t. induction p as [|a p IH]; intros t Hp H.
  - destruct (lower (drop_trailing_separator t)); reflexivity.
  - destruct t as [|b t]; [discriminate|].
    simpl in Hp. apply andb_true_iff in Hp as [Ha Hp].
    apply negb_true_iff in Ha.
    rewrite lower_cons, prefix_cons in H.
    destruct (ascii_dec a (lower_char b)) as [-> | ]; [|discriminate].
    rewrite lower_char_semicolon in Ha.
    destruct t as [|c t].
    + simpl drop_trailing_separator. rewrite Ha.
      rewrite lower_cons, prefix_cons.
      destruct (ascii_dec (lower_char b) (lower_char b)); [exact H | congruence].
    + rewrite drop_trailing_separator_cons, lower_cons, prefix_cons.
      destruct (ascii_dec (lower_char b) (lower_char b)); [|congruence].
      now apply IH.
Qed.

Lemma not_select_unsafe (sql : string) :
  begins_with_select sql = false -> is_safe_sql sql = false.
Proof.
  unfold begins_with_select, startswith, is_safe_sql, startswith. intros H.
  destruct (String.prefix "select" (lower (strip sql))) eqn:E; [|reflexivity].
  apply prefix_drop_trailing_separator in E; [congruence | reflexivity].
Qed.

(** The text handed to the validator by [execute_filtered_query] is an
    initial segment of the trimmed request text. *)
Lemma lstrip_strip (s : string) : lstrip_by isspace (strip s) = strip s.
Proof.
  unfold strip.
  destruct (lstrip_by_head isspace s) as [E | (a & t & E & Ha)]; rewrite E.
  - reflexivity.
  - rewrite rstrip_by_keep_head by exact Ha. simpl. now rewrite Ha.
Qed.

Lemma lstrip_rstrip_semicolon (s : string) :
  lstrip_by isspace (rstrip_semicolon (strip s)) = rstrip_semicolon (strip s).
Proof.
  pose proof (lstrip_strip s) as H. unfold rstrip_semicolon.
  destruct (strip s) as [|c t]; [reflexivity|].
  destruct (rstrip_by_head is_semicolon c t) as [E | [t' E]]; rewrite E.
  - reflexivity.
  - simpl in *. destruct (isspace c); [|reflexivity].
    exfalso. assert (L : (String.length (lstrip_by isspace t) <= String.length t)%nat).
    { clear. induction t as [|x t IH]; simpl; [lia|].
      destruct (isspace x); simpl; lia. }
    rewrite H in L. simpl in L. lia.
Qed.

Lemma pipeline_text_prefix (sql : string) :
  exists w, strip sql = strip (rstrip_semicolon (strip sql)) ++ w.
Proof.
  unfold strip at 2. rewrite lstrip_rstrip_semicolon.
  destruct (rstrip_by_prefix isspace (rstrip_semicolon (strip sql))) as [w1 E1].
  destruct (rstrip_by_prefix is_semicolon (strip sql)) as [w2 E2].
  exists (w1 ++ w2). rewrite <- app_assoc_s.
  unfold rstrip_semicolon in *. now rewrite <- E1.
Qed.

Lemma not_select_unsafe_pipeline (sql : string) :
  begins_with_select sql = false ->
  is_safe_sql (rstrip_semicolon (strip sql)) = false.
Proof.
  intros H. unfold is_safe_sql, startswith.
  destruct (String.prefix "select"
              (lower (strip (rstrip_semicolon (strip sql))))) eqn:E;
    [|reflexivity].
  exfalso.
  destruct (pipeline_text_prefix sql) as [w Hw].
  assert (P : String.prefix "select" (lower (strip sql)) = true).
  { rewrite Hw, lower_app. now apply prefix_app. }
  apply prefix_drop_trailing_separator in P; [|reflexivity].
  unfold begins_with_select, startswith in H. congruence.
Qed.

End Validator.

(** C5. Every SQL text that, once trimmed and freed of one trailing
    separator, does not begin with [select] in any letter case is rejected:
    [is_safe_sql] answers [False] and [validate_sql] raises the 400
    "Unsafe SQL" error, both on the text itself and on the text as
    [execute_filtered_query] hands it over. *)
Theorem C5_non_select_rejected (sql : string) :
  Props.begins_with_select sql = false ->
  SqlUtils.is_safe_sql sql = false
  /\ SqlUtils.validate_sql sql = Props.rejected
  /\ SqlUtils.validate_sql (PyStr.rstrip_semicolon (PyStr.strip sql))
     = Props.rejected.
Proof.
  intros H. repeat split.
  - now apply not_select_unsafe.
  - now apply is_safe_sql_false_rejected, not_select_unsafe.
  - now apply is_safe_sql_false_rejected, not_select_unsafe_pipeline.
Qed.

Lemma C5_non_select_rejected_witness :
  Props.begins_with_select "  UPDATE app_users SET role = 'ADMIN'; " = false
  /\ SqlUtils.is_safe_sql "  UPDATE app_users SET role = 'ADMIN'; " = false
  /\ SqlUtils.validate_sql "  UPDATE app_users SET role = 'ADMIN'; "
     = Props.rejected
  /\ SqlUtils.validate_sql
       (PyStr.rstrip_semicolon
          (PyStr.strip "  UPDATE app_users SET role = 'ADMIN'; "))
     = Props.rejected.
Proof.
  split; [reflexivity|].
  apply (C5_non_select_rejected "  UPDATE app_users SET role = 'ADMIN'; ").
  reflexivity.
Defined.

(** C6. Every SQL text that contains a statement separator, or a DML/DDL
    verb (insert, update, delete, drop, truncate, alter, create, grant,
    revoke) as a whole word in any letter case, is rejected, whatever it
    begins with. *)
Theorem C6_separator_or_verb_rejected (sql : string) :
  Props.contains_separator sql \/ Props.contains_verb sql ->
  SqlUtils.is_safe_sql sql = false
  /\ SqlUtils.validate_sql sql = Props.rejected.
Proof.
  intros H.
  assert (U : SqlUtils.is_safe_sql sql = false)
    by (destruct H; [now apply separator_unsafe | now apply verb_unsafe]).
  split; [exact U | now apply is_safe_sql_false_rejected].
Qed.

Lemma C6_separator_or_verb_rejected_witness :
  (Props.contains_separator "select id from t where n = 1 or Drop = 2"
   \/ Props.contains_verb "select id from t where n = 1 or Drop = 2")
  /\ PyStr.startswith "select id from t where n = 1 or Drop = 2" "select"
     = true
  /\ SqlUtils.is_safe_sql "select id from t where n = 1 or Drop = 2" = false
  /\ SqlUtils.validate_sql "select id from t where n = 1 or Drop = 2"
     = Props.rejected.
Proof.
  assert (V : Props.contains_verb "select id from t where n = 1 or Drop = 2").
  { exists "drop", "Drop". split; [simpl; tauto|]. split; [reflexivity|].
    exists "select id from t where n = 1 or ", " = 2".
    repeat split; reflexivity. }
  split; [right; exact V|]. split; [reflexivity|].
  apply (C6_separator_or_verb_rejected
           "select id from t where n = 1 or Drop = 2").
  right; exact V.
Defined.

(* ================================================================== *)
(** * The filter compiler *)
(* ================================================================== *)

Section FilterCompiler.
Import PyStr SqlUtils Models Services DataService Props.

Variable float_str : spec_float -> string.
Variable list_str : list scalar -> string.

Lemma malformed_renders_nothing (c : FilterCondition) :
  malformed c = true -> render_condition float_str list_str c = Ok None.
Proof.
  unfold malformed, render_condition, known_operators. cbn [existsb].
  cbv zeta. remember (lower (operator c)) as op eqn:Eop. clear Eop.
  intros H.
  do 7 (match goal with
        | |- context [String.eqb op ?b] =>
            destruct (String.eqb_spec op b) as [E | _];
            [rewrite E in H; simpl in H; discriminate H|]
        end).
  destruct (String.eqb_spec op "in") as [_ | _]; [|reflexivity].
  simpl in H.
  destruct (value c); [reflexivity | discriminate H].
Qed.

Lemma render_conditions_without_malformed (conds : list FilterCondition) :
  render_conditions float_str list_str
    (filter (fun c => negb (malformed c)) conds)
  = render_conditions float_str list_str conds.
Proof.
  induction conds as [|c conds IH]; [reflexivity|].
  simpl filter. destruct (malformed c) eqn:E; simpl.
  - rewrite (malformed_renders_nothing c E), IH.
    now destruct (render_conditions float_str list_str conds).
  - now rewrite IH.
Qed.

Lemma apply_filters_unfold (base : string) (f : TableFilter) :
  apply_filters float_str list_str base (Some f)
  = match render_conditions float_str list_str (conditions f) with
    | Raise e => Raise e
    | Ok [] => Ok base
    | Ok frags =>
        if contains "WHERE" (upper base)
        then Ok (base ++ " AND (" ++ join (" " ++ logic f ++ " ") frags ++ ")")
        else Ok (base ++ " WHERE " ++ join (" " ++ logic f ++ " ") frags)
    end.
Proof.
  unfold apply_filters. destruct (conditions f) eqn:E; reflexivity.
Qed.

Lemma apply_filters_without_malformed (base : string) (f : TableFilter) :
  apply_filters float_str list_str base (Some f)
  = apply_filters float_str list_str base (Some (without_malformed f)).
Proof.
  rewrite !apply_filters_unfold. unfold without_malformed. simpl.
  now rewrite render_conditions_without_malformed.
Qed.

End FilterCompiler.

(** C2 (as amended). On a base query without [WHERE] the rendered
    conditions are appended as [WHERE ...] with no parentheses around
    them; the condition role eq ADMIN with logic AND on
    [SELECT * FROM app_users] gives exactly
    [SELECT * FROM app_users WHERE role = 'ADMIN']. *)
Theorem C2_where_less_base_appends_plain_where
  (float_str : spec_float -> string) (list_str : list Models.scalar -> string)
  (base : string) (f : Models.TableFilter) (frags : list string) :
  PyStr.contains "WHERE" (PyStr.upper base) = false ->
  DataService.render_conditions float_str list_str (Models.conditions f)
  = Ok frags ->
  0 < Z.of_nat (List.length frags) ->
  DataService.apply_filters float_str list_str base (Some f)
  = Ok (base ++ " WHERE " ++ PyStr.join (" " ++ Models.logic f ++ " ") frags).
Proof.
  intros Hbase Hr Hlen. rewrite apply_filters_unfold, Hr, Hbase.
  destruct frags; [simpl in Hlen; lia | reflexivity].
Qed.

Lemma C2_where_less_base_appends_plain_where_witness :
  PyStr.contains "WHERE" (PyStr.upper "SELECT * FROM app_users") = false
  /\ DataService.render_conditions Props.no_float_str Props.no_list_str
       [Props.role_is_admin] = Ok ["role = 'ADMIN'"]
  /\ 0 < Z.of_nat (List.length ["role = 'ADMIN'"])
  /\ DataService.apply_filters Props.no_float_str Props.no_list_str
       "SELECT * FROM app_users"
       (Some {| Models.conditions := [Props.role_is_admin];
                Models.logic := "AND" |})
     = Ok "SELECT * FROM app_users WHERE role = 'ADMIN'".
Proof.
  split; [reflexivity|]. split; [reflexivity|]. split; [reflexivity|].
  apply (C2_where_less_base_appends_plain_where
           Props.no_float_str Props.no_list_str "SELECT * FROM app_users"
           {| Models.conditions := [Props.role_is_admin];
              Models.logic := "AND" |}
           ["role = 'ADMIN'"]);
    reflexivity.
Defined.

(** C2, the claim at its own input: the compiled query is not the
    parenthesized one. *)
Lemma C2_counterexample :
  DataService.apply_filters Props.no_float_str Props.no_list_str
    "SELECT * FROM app_users"
    (Some {| Models.conditions := [Props.role_is_admin];
             Models.logic := "AND" |})
  = Ok "SELECT * FROM app_users WHERE role = 'ADMIN'"
  /\ String.eqb "SELECT * FROM app_users WHERE role = 'ADMIN'"
                "SELECT * FROM app_users WHERE (role = 'ADMIN')" = false.
Proof. split; reflexivity. Qed.

(** C3 (as amended). A condition whose operator is outside eq, ne, gt, lt,
    gte, lte, like, in (compared in lower case), or whose operator is [in]
    with a value that is not a list, is skipped: it renders no fragment,
    the compiled query is the one of the filter without such conditions,
    and the filtered execution answers as it does for that filter. *)
Theorem C3_malformed_conditions_are_skipped :
  (forall float_str list_str c,
      Props.malformed c = true ->
      DataService.render_condition float_str list_str c = Ok None)
  /\ (forall float_str list_str base f,
         DataService.apply_filters float_str list_str base (Some f)
         = DataService.apply_filters float_str list_str base
             (Some (Props.without_malformed f)))
  /\ (forall (db_state : Type) (cursor_run : string -> db_state -> _) get_query_by_id float_str list_str
             request (st : db_state),
         DataService.execute_filtered_query cursor_run get_query_by_id
           float_str list_str request st
         = DataService.execute_filtered_query cursor_run get_query_by_id
             float_str list_str (Props.drop_malformed request) st).
Proof.
  split; [exact malformed_renders_nothing|].
  split; [exact apply_filters_without_malformed|].
  intros. unfold DataService.execute_filtered_query, DataService.filtered_body.
  change (DataService.resolve_base_query get_query_by_id
            (Props.drop_malformed request))
    with (DataService.resolve_base_query get_query_by_id request).
  unfold DataService.bind.
  destruct (DataService.resolve_base_query get_query_by_id request st)
    as [[base | e] st1]; [|reflexivity].
  assert (A : DataService.apply_filters float_str list_str base
                (Models.filters (Props.drop_malformed request))
              = DataService.apply_filters float_str list_str base
                  (Models.filters request)).
  { simpl. destruct (Models.filters request) as [f|]; simpl;
      [symmetry; apply apply_filters_without_malformed | reflexivity]. }
  unfold DataService.lift. rewrite A. reflexivity.
Qed.

(** C3, the claim at a filter with the unknown operator [foo]: the request
    is carried out on the unfiltered query and succeeds. *)
Lemma C3_counterexample :
  Props.malformed Props.role_foo_admin = true
  /\ DataService.apply_filters Props.no_float_str Props.no_list_str
       "SELECT * FROM app_users"
       (Some {| Models.conditions := [Props.role_foo_admin];
                Models.logic := "AND" |})
     = Ok "SELECT * FROM app_users"
  /\ Models.success
       (fst (DataService.execute_filtered_query
               (Props.db_one_row ["ROLE"] [Models.SStr "USER"])
               Props.no_stored_query Props.no_float_str Props.no_list_str
               (Props.request_for "SELECT * FROM app_users"
                  (Some {| Models.conditions := [Props.role_foo_admin];
                           Models.logic := "AND" |}))
               tt))
     = true
  /\ Models.error
       (fst (DataService.execute_filtered_query
               (Props.db_one_row ["ROLE"] [Models.SStr "USER"])
               Props.no_stored_query Props.no_float_str Props.no_list_str
               (Props.request_for "SELECT * FROM app_users"
                  (Some {| Models.conditions := [Props.role_foo_admin];
                           Models.logic := "AND" |}))
               tt))
     = None.
Proof. repeat split; vm_compute; reflexivity. Qed.

Lemma C3_malformed_conditions_are_skipped_witness :
  Props.malformed Props.role_foo_admin = true
  /\ DataService.render_condition Props.no_float_str Props.no_list_str
       Props.role_foo_admin = Ok None.
Proof.
  split; [reflexivity|].
  apply (proj1 C3_malformed_conditions_are_skipped
           Props.no_float_str Props.no_list_str Props.role_foo_admin).
  reflexivity.
Defined.

(* ================================================================== *)
(** * The query execution orchestrator *)
(* ================================================================== *)

Section Orchestrator.
Import PyStr SqlUtils Models Services DataService Props.

Variable db_state : Type.
Variable cursor_run :
  string -> db_state -> result (list string * list (list scalar)) * db_state.

Lemma classify_error_one_of_four (e : exn) :
  one_of_four_messages (classify_error e) = true.
Proof.
  unfold classify_error.
  repeat match goal with
         | |- context [if ?b then _ else _] => destruct b
         end; reflexivity.
Qed.

(** Every failure returned by the table path carries one of the four
    messages or the timeout message. *)
Lemma table_failures_are_classified (query : string) (limit offset timeout : Z)
  (st : db_state) :
  let r := fst (execute_query_for_table cursor_run query limit offset timeout st) in
  success r = true
  \/ exists msg, error r = Some msg
       /\ (one_of_four_messages msg = true
           \/ msg = table_timeout_message timeout).
Proof.
  unfold execute_query_for_table.
  destruct (table_body cursor_run query limit offset st) as [[r | e] st'] eqn:E.
  - left. unfold table_body, bind in E.
    destruct (fetch_page cursor_run query limit offset st) as [[df | e] st1];
      [|discriminate].
    destruct (count_rows cursor_run query df offset st1) as [[t | e] st2];
      [|discriminate].
    unfold ret in E. now inversion E.
  - right. destruct (is_TimeoutError e); simpl; eexists; split;
      try reflexivity; [now right | left; apply classify_error_one_of_four].
Qed.

(** Likewise for the chart path, which also reports an empty result. *)
Lemma chart_failures_are_classified float_of_str _format_chart_data
  (query : string) chart_type chart_config (timeout : Z) (st : db_state) :
  let r := fst (execute_query_for_chart cursor_run float_of_str
                  _format_chart_data query chart_type chart_config timeout st) in
  success r = true
  \/ exists msg, error r = Some msg
       /\ (one_of_four_messages msg = true
           \/ msg = chart_timeout_message timeout
           \/ msg = "Query returned no data").
Proof.
  unfold execute_query_for_chart.
  destruct (chart_body cursor_run float_of_str _format_chart_data query
              chart_type chart_config st) as [[r | e] st'] eqn:E.
  - unfold chart_body, bind in E.
    destruct (execute_query_pandas cursor_run query st) as [[df | e] st1];
      [|discriminate].
    destruct (df_empty df).
    + right. unfold ret in E. inversion E; subst. simpl.
      eexists; split; [reflexivity | now right; right].
    + left.
      match type of E with
      | (match ?m with _ => _ end) = _ => destruct m as [[c | e] st2]
      end; [|discriminate].
      unfold ret in E. now inversion E.
  - right. destruct (is_TimeoutError e); simpl; eexists; split;
      try reflexivity; [now right; left | left; apply classify_error_one_of_four].
Qed.

(** The filtered path hands back [str(e)] of whatever was raised. *)
Lemma filtered_failure_is_raw_text get_query_by_id float_str list_str
  (request : FilteredQueryRequest) (st st' : db_state) (e : exn) :
  filtered_body cursor_run get_query_by_id float_str list_str request st
  = (Raise e, st') ->
  execute_filtered_query cursor_run get_query_by_id float_str list_str
    request st
  = (failure (str_exn e), st').
Proof. intros H. unfold execute_filtered_query. now rewrite H. Qed.

(** On a count timeout the page is kept, with an estimated total. *)
Lemma count_timeout_keeps_page (query : string) (limit offset timeout : Z)
  (st st1 st2 : db_state) (df : DataFrame) (e : exn) :
  fetch_page cursor_run query limit offset st = (Ok df, st1) ->
  execute_query cursor_run (count_query_of query) st1 = (Raise e, st2) ->
  is_TimeoutError e = true ->
  execute_query_for_table cursor_run query limit offset timeout st
  = (table_result df (SInt (Z.of_nat (List.length (df_rows df)) + offset)),
     st2).
Proof.
  intros Hp Hc Ht.
  unfold execute_query_for_table, table_body, bind, count_rows.
  now rewrite Hp, Hc, Ht.
Qed.

End Orchestrator.

(** C1, at a filtered request whose table does not exist: the filtered
    path returns the vendor text, which is none of the four messages,
    where the table path answers with the "not found" message. *)
Theorem C1_filtered_query_returns_raw_error :
  Models.error
    (fst (DataService.execute_filtered_query Props.db_missing_table
            Props.no_stored_query Props.no_float_str Props.no_list_str
            (Props.request_for "SELECT * FROM missing_table" None) tt))
  = Some Props.ora_00942
  /\ Props.one_of_four_messages Props.ora_00942 = false
  /\ Models.error
       (fst (DataService.execute_query_for_table Props.db_missing_table
               "SELECT * FROM missing_table" 1000 0 45 tt))
     = Some Services.msg_table.
Proof. repeat split; vm_compute; reflexivity. Qed.

(** C10. In [execute_query_for_table], when the page has been fetched and
    the count query raises anything but a timeout, the fallback handler
    finds [count_result] unbound and raises in turn; the call returns a
    failure carrying the generic message and no data. *)
Theorem C10_count_failure_discards_page
  (db_state : Type)
  (cursor_run : string -> db_state ->
                result (list string * list (list Models.scalar)) * db_state)
  (query : string) (limit offset timeout : Z)
  (st st1 st2 : db_state) (df : Services.DataFrame) (e : exn) :
  DataService.fetch_page cursor_run query limit offset st = (Ok df, st1) ->
  DataService.execute_query cursor_run (Services.count_query_of query) st1
  = (Raise e, st2) ->
  is_TimeoutError e = false ->
  DataService.count_rows cursor_run query df offset st1
  = (Raise (UnboundLocalError "count_result"), st2)
  /\ DataService.execute_query_for_table cursor_run query limit offset
       timeout st
     = (Models.failure Services.msg_generic, st2)
  /\ Models.result_data
       (fst (DataService.execute_query_for_table cursor_run query limit
               offset timeout st))
     = None.
Proof.
  intros Hp Hc Ht.
  assert (C : DataService.count_rows cursor_run query df offset st1
              = (Raise (UnboundLocalError "count_result"), st2)).
  { unfold DataService.count_rows. now rewrite Hc, Ht. }
  assert (T : DataService.execute_query_for_table cursor_run query limit
                offset timeout st
              = (Models.failure Services.msg_generic, st2)).
  { unfold DataService.execute_query_for_table, DataService.table_body,
      DataService.bind.
    rewrite Hp, C. reflexivity. }
  split; [exact C|]. split; [exact T|]. now rewrite T.
Qed.

Lemma C10_count_failure_discards_page_witness :
  DataService.fetch_page Props.db_count_fails "SELECT id FROM t" 1000 0 0%nat
  = (Ok {| Services.df_columns := ["ID"];
           Services.df_rows := [[Models.SInt 7]] |}, 1%nat)
  /\ DataService.execute_query Props.db_count_fails
       (Services.count_query_of "SELECT id FROM t") 1%nat
     = (Raise (DatabaseError "ORA-01555: snapshot too old"), 2%nat)
  /\ is_TimeoutError (DatabaseError "ORA-01555: snapshot too old") = false
  /\ DataService.count_rows Props.db_count_fails "SELECT id FROM t"
       {| Services.df_columns := ["ID"];
          Services.df_rows := [[Models.SInt 7]] |} 0 1%nat
     = (Raise (UnboundLocalError "count_result"), 2%nat)
  /\ DataService.execute_query_for_table Props.db_count_fails
       "SELECT id FROM t" 1000 0 45 0%nat
     = (Models.failure Services.msg_generic, 2%nat)
  /\ Models.result_data
       (fst (DataService.execute_query_for_table Props.db_count_fails
               "SELECT id FROM t" 1000 0 45 0%nat))
     = None.
Proof.
  split; [reflexivity|]. split; [reflexivity|]. split; [reflexivity|].
  apply (C10_count_failure_discards_page nat Props.db_count_fails
           "SELECT id FROM t" 1000 0 45 0%nat 1%nat 2%nat
           {| Services.df_columns := ["ID"];
              Services.df_rows := [[Models.SInt 7]] |}
           (DatabaseError "ORA-01555: snapshot too old"));
    reflexivity.
Defined.

(** C8. KPI shaping takes the first column of the first row: for every
    frame with at least one column whose first row begins with [v],
    whatever the other cells hold, the chart is the one-series chart
    labelled "KPI" whose single point is [float(v)] (a float cell, NaN
    included, is the point as it stands), or zero when the coercion fails
    ([None], a text that is no number); nothing is raised for any frame.  A result [[42]] gives labels ["KPI"] and data
    [42.0]. *)
Theorem C8_kpi_shaping :
  (forall float_of_str c cols v row rows,
      DataService.kpi_branch float_of_str
        {| Services.df_columns := c :: cols;
           Services.df_rows := (v :: row) :: rows |}
      = DataService.kpi_chart
          match DataService.py_float float_of_str v with
          | Ok f => Models.NFloat f
          | Raise _ => Models.NInt 0
          end)
  /\ (forall float_of_str c cols f row rows,
         DataService.kpi_branch float_of_str
           {| Services.df_columns := c :: cols;
              Services.df_rows := (Models.SFloat f :: row) :: rows |}
         = DataService.kpi_chart (Models.NFloat f))
  /\ (forall float_of_str c cols row rows,
         DataService.kpi_branch float_of_str
           {| Services.df_columns := c :: cols;
              Services.df_rows := (Models.SNone :: row) :: rows |}
         = DataService.kpi_chart (Models.NInt 0))
  /\ (forall float_of_str c cols s row rows,
         float_of_str s = None ->
         DataService.kpi_branch float_of_str
           {| Services.df_columns := c :: cols;
              Services.df_rows := (Models.SStr s :: row) :: rows |}
         = DataService.kpi_chart (Models.NInt 0))
  /\ (forall float_of_str df,
         exists point,
           DataService.kpi_branch float_of_str df
           = DataService.kpi_chart point)
  /\ (forall v,
         Models.labels (DataService.kpi_chart v) = ["KPI"]
         /\ Models.datasets (DataService.kpi_chart v)
            = [[("data", Models.DNumbers [v])]])
  /\ (forall float_of_str c,
         DataService.kpi_branch float_of_str
           {| Services.df_columns := [c];
              Services.df_rows := [[Models.SInt 42]] |}
         = {| Models.labels := ["KPI"];
              Models.datasets :=
                [[("data",
                   Models.DNumbers
                     [Models.NFloat (DataService.float_of_Z 42)])]] |})
  /\ Props.float_as_integer (DataService.float_of_Z 42) = Some 42
  /\ fst (DataService.execute_query_for_chart
            (Props.db_one_row ["TOTAL"] [Models.SInt 42])
            Props.no_float_of_str Props.no_format_chart_data
            "SELECT COUNT(*) AS total FROM app_users" (Some "kpi") None 45 tt)
     = {| Models.success := true;
          Models.result_data :=
            Some (Models.Chart
                    (DataService.kpi_chart
                       (Models.NFloat (DataService.float_of_Z 42))));
          Models.chart_type := Some "kpi";
          Models.chart_config := Some [];
          Models.error := None |}.
Proof.
  assert (Pin : forall float_of_str c cols v row rows,
    DataService.kpi_branch float_of_str
      {| Services.df_columns := c :: cols;
         Services.df_rows := (v :: row) :: rows |}
    = DataService.kpi_chart
        match DataService.py_float float_of_str v with
        | Ok f => Models.NFloat f
        | Raise _ => Models.NInt 0
        end).
  { intros. unfold DataService.kpi_branch.
    cbn [Services.df_empty Services.df_rows Services.df_columns negb
         DataService.first_value].
    destruct (DataService.py_float float_of_str v) as [f | []];
      reflexivity. }
  split; [exact Pin|].
  split; [intros; now rewrite Pin|].
  split; [intros; now rewrite Pin|].
  split.
  { intros float_of_str c cols s row rows H. rewrite Pin.
    cbn [DataService.py_float]. now rewrite H. }
  split.
  { intros float_of_str df. unfold DataService.kpi_branch.
    destruct (DataService.py_float float_of_str _) as [f | []];
      eexists; reflexivity. }
  split; [intros; split; reflexivity|].
  split; [intros; reflexivity|].
  split; reflexivity.
Qed.

(* ================================================================== *)
(** * The spreadsheet comparator *)
(* ================================================================== *)

Section Comparator.
Import PyStr ExcelCompare Props.

(** *** The cap on collected differences *)

Section Cap.
Variables sheet1 sheet2 : Sheet.
Variable ext : Extents.
Variable sheet_name : string.
Variable cap : Z.

Lemma scan_row_bound (row : Z) (cols : list Z) (diffs diffs' : list Difference) :
  len diffs <= cap ->
  scan_row sheet1 sheet2 ext sheet_name cap row cols diffs = Ok diffs' ->
  len diffs' <= cap.
Proof.
  revert diffs. induction cols as [|col cols IH]; intros diffs Hb H; simpl in H.
  - now inversion H; subst.
  - destruct (read_pair sheet1 sheet2 ext row col) as [[v1 v2] | e];
      [|now apply IH with diffs].
    destruct (stringify v1 v2) as [s1 s2].
    destruct (negb (String.eqb s1 s2)); [|now apply IH with diffs].
    destruct (cap_reached cap diffs) eqn:Ec; [now inversion H; subst|].
    destruct (get_column_letter col) as [letters | e]; [|discriminate].
    eapply IH; [|exact H].
    unfold cap_reached in Ec. unfold len in *.
    rewrite length_app. simpl. lia.
Qed.

Lemma scan_rows_bound (rows cols : list Z) (diffs diffs' : list Difference) :
  len diffs <= cap ->
  scan_rows sheet1 sheet2 ext sheet_name cap rows cols diffs = Ok diffs' ->
  len diffs' <= cap.
Proof.
  revert diffs. induction rows as [|row rows IH]; intros diffs Hb H; simpl in H.
  - now inversion H; subst.
  - destruct (scan_row sheet1 sheet2 ext sheet_name cap row cols diffs)
      as [d | e] eqn:Er; [|discriminate].
    pose proof (scan_row_bound _ _ _ _ Hb Er) as Hd.
    destruct (cap_reached cap d); [now inversion H; subst|].
    now apply IH with d.
Qed.

Lemma compare_with_extents_bound (r : SheetResult) :
  0 <= cap ->
  compare_with_extents sheet1 sheet2 ext sheet_name cap = Ok r ->
  len (differences r) <= cap.
Proof.
  intros Hcap. unfold compare_with_extents.
  destruct (both_empty sheet1 sheet2 ext) as [[|] | e];
    [intros [= <-]; exact Hcap | | discriminate].
  destruct (py_max (max_row1 ext) (max_row2 ext)) as [rows | e];
    [|discriminate].
  destruct (py_max (max_col1 ext) (max_col2 ext)) as [cols | e];
    [|discriminate].
  cbv zeta.
  match goal with
  | |- context [scan_rows ?a ?b ?x ?c ?d ?rs ?cs []] =>
      destruct (scan_rows a b x c d rs cs []) as [[|d0 diffs] | e] eqn:E
  end; intros [= <-]; simpl; try exact Hcap.
  apply scan_rows_bound in E; [exact E | exact Hcap].
Qed.

End Cap.

Lemma compare_sheets_bound (sheet1 sheet2 : Sheet) (sheet_name : string)
  (cap : Z) :
  0 <= cap ->
  len (differences (compare_sheets sheet1 sheet2 sheet_name cap)) <= cap.
Proof.
  intros Hcap. unfold compare_sheets, compare_sheets_body.
  destruct (read_extents sheet1 sheet2) as [ext | e]; [|exact Hcap].
  destruct (compare_with_extents sheet1 sheet2 ext sheet_name cap)
    as [r | e] eqn:E; [|exact Hcap].
  now apply (compare_with_extents_bound sheet1 sheet2 ext sheet_name cap).
Qed.

Lemma compare_loop_within_cap (wb1 wb2 : Workbook) (names : list string)
  (results : list SheetResult) (matched : Z) :
  Forall within_default_cap results ->
  Forall within_default_cap
    (fst (compare_loop wb1 wb2 names results matched)).
Proof.
  revert results matched.
  induction names as [|n names IH]; intros results matched H; simpl;
    [exact H|].
  destruct (mem n (sheetnames wb1) && mem n (sheetnames wb2))%bool.
  - destruct (get_sheet wb1 n) as [sh1|]; [|now apply IH].
    destruct (get_sheet wb2 n) as [sh2|]; [|now apply IH].
    apply IH. apply Forall_app. split; [exact H|].
    constructor; [|constructor].
    apply compare_sheets_bound. unfold default_max_differences. lia.
  - apply IH. apply Forall_app. split; [exact H|].
    constructor; [|constructor]. unfold within_default_cap. simpl.
    unfold default_max_differences, len. simpl. lia.
Qed.

Lemma compare_excel_files_within_cap set_iter names_repr
  (wb1 wb2 : Workbook) (r : CompareResult) :
  compare_excel_files set_iter names_repr wb1 wb2 = Ok r ->
  Forall within_default_cap (comparison_results r).
Proof.
  unfold compare_excel_files. intros H.
  match type of H with
  | (match ?c with _ => _ end) = _ => destruct c as [names | e]
  end; [|discriminate].
  pose proof (compare_loop_within_cap wb1 wb2 names [] 0 (Forall_nil _)) as L.
  destruct (compare_loop wb1 wb2 names [] 0) as [results matched].
  inversion H; subst; clear H. simpl in *.
  assert (E : forall f (l : list string),
             (forall n, within_default_cap (f n)) ->
             Forall within_default_cap (map f l)).
  { intros f l Hf. induction l; simpl; constructor; auto. }
  repeat (apply Forall_app; split); try exact L;
    apply E; intros n; unfold within_default_cap, default_max_differences, len;
    simpl; lia.
Qed.

(** *** A workbook against itself *)

Lemma stringify_same (v : cell_value) :
  String.eqb (fst (stringify v v)) (snd (stringify v v)) = true.
Proof.
  unfold stringify. destruct (cell_str v); simpl;
    first [apply String.eqb_refl | reflexivity].
Qed.

Lemma read_pair_same (sh : Sheet) (rows cols : option Z) (row col : Z) :
  (exists e, read_pair sh sh (same_extents rows cols) row col = Raise e)
  \/ (exists v, read_pair sh sh (same_extents rows cols) row col = Ok (v, v)).
Proof.
  unfold read_pair. cbn [same_extents max_row1 max_col1 max_row2 max_col2].
  destruct (read_inside sh rows cols row col) as [v | e]; [right | left];
    now eexists.
Qed.

Lemma scan_row_same (sh : Sheet) (rows cols : option Z) (name : string)
  (cap row : Z) (cs : list Z) (diffs : list Difference) :
  scan_row sh sh (same_extents rows cols) name cap row cs diffs = Ok diffs.
Proof.
  induction cs as [|col cs IH]; [reflexivity|]. cbn [scan_row].
  destruct (read_pair_same sh rows cols row col) as [[e ->] | [v ->]];
    [exact IH|].
  pose proof (stringify_same v) as S.
  destruct (stringify v v) as [s1 s2]. simpl in S. rewrite S. exact IH.
Qed.

Lemma scan_rows_same (sh : Sheet) (rows cols : option Z) (name : string)
  (cap : Z) (rs cs : list Z) (diffs : list Difference) :
  scan_rows sh sh (same_extents rows cols) name cap rs cs diffs = Ok diffs.
Proof.
  induction rs as [|row rs IH]; [reflexivity|]. cbn [scan_rows].
  rewrite scan_row_same. now destruct (cap_reached cap diffs).
Qed.

Lemma is_one_spec (x : option Z) : is_one x = true -> x = Some 1.
Proof.
  destruct x as [n|]; simpl; [|discriminate].
  intros H. apply Z.eqb_eq in H. now subst.
Qed.

Lemma compare_sheets_same (sh : Sheet) (name : string) (cap : Z) :
  has_extent sh -> probe_succeeds sh ->
  status (compare_sheets sh sh name cap) = "matched"
  /\ sheet (compare_sheets sh sh name cap) = name.
Proof.
  intros (rows & cols & Er & Ec) Hp.
  unfold compare_sheets, compare_sheets_body, read_extents.
  rewrite Er, Ec. fold (same_extents (Some rows) (Some cols)).
  unfold compare_with_extents.
  assert (B : exists b,
             both_empty sh sh (same_extents (Some rows) (Some cols)) = Ok b).
  { unfold both_empty, looks_empty. cbn [same_extents max_row1 max_col1
                                         max_row2 max_col2].
    destruct (is_one (Some rows) && is_one (Some cols))%bool eqn:E.
    - apply andb_true_iff in E as [E1 E2].
      apply is_one_spec in E1, E2. rewrite E1 in Er. rewrite E2 in Ec.
      destruct (Hp Er Ec) as [v ->].
      destruct (is_None v); now eexists.
    - now eexists. }
  destruct B as [b ->]. destruct b; [now split|].
  cbn [same_extents max_row1 max_col1 max_row2 max_col2 py_max]. cbv zeta.
  fold (same_extents (Some rows) (Some cols)).
  rewrite scan_rows_same. now split.
Qed.

Lemma compare_sheets_faulty (sh : Sheet) (name : string) (cap : Z) :
  cannot_be_compared sh ->
  status (compare_sheets sh sh name cap) = "comparison_error"
  /\ sheet (compare_sheets sh sh name cap) = name
  /\ differences (compare_sheets sh sh name cap) = [].
Proof.
  unfold compare_sheets, compare_sheets_body, read_extents,
    compare_with_extents, both_empty, looks_empty.
  intros [[e H] | [[e H] | [H | [H | (Hr & Hc & e & H)]]]].
  - rewrite H. now repeat split.
  - rewrite H. destruct (max_row sh); now repeat split.
  - rewrite H. destruct (max_column sh) as [c | e]; [|now repeat split].
    cbn. now repeat split.
  - rewrite H. destruct (max_row sh) as [[r|] | e]; [| |now repeat split];
      cbn; [|now repeat split].
    rewrite andb_false_r. cbn. now repeat split.
  - rewrite Hr, Hc. cbn. rewrite H. now repeat split.
Qed.

Lemma mem_refl_in (n : string) (names : list string) :
  In n names -> mem n names = true.
Proof.
  intros H. unfold mem. apply existsb_exists. exists n.
  split; [exact H | apply String.eqb_refl].
Qed.

Lemma get_sheet_some (wb : Workbook) (n : string) :
  In n (sheetnames wb) ->
  exists sh, get_sheet wb n = Some sh /\ In (n, sh) wb.
Proof.
  induction wb as [|[m sh] wb IH]; simpl; [contradiction|].
  intros H. destruct (String.eqb_spec m n) as [-> | Hne].
  - exists sh. split; [reflexivity | now left].
  - destruct H as [H | H]; [congruence|].
    destruct (IH H) as (sh' & E & Hin). exists sh'. split; [exact E | now right].
Qed.

Lemma compare_loop_same (wb : Workbook) (names : list string)
  (results : list SheetResult) (matched : Z) :
  (forall name sh, In (name, sh) wb -> has_extent sh /\ probe_succeeds sh) ->
  incl names (sheetnames wb) ->
  exists rs,
    compare_loop wb wb names results matched
    = ((results ++ rs)%list, matched + len names)
    /\ Forall is_matched rs /\ map sheet rs = names.
Proof.
  intros Hp. revert results matched.
  induction names as [|n names IH]; intros results matched Hin.
  - exists []. simpl. rewrite app_nil_r. unfold len. simpl.
    rewrite Z.add_0_r. repeat split. constructor.
  - assert (Hn : In n (sheetnames wb)) by (apply Hin; now left).
    assert (Hrest : incl names (sheetnames wb))
      by (intros x Hx; apply Hin; now right).
    destruct (get_sheet_some wb n Hn) as (sh & Eg & Hsh).
    destruct (compare_sheets_same sh n default_max_differences
                (proj1 (Hp n sh Hsh)) (proj2 (Hp n sh Hsh))) as [Est Esh].
    simpl. rewrite (mem_refl_in n _ Hn). simpl. rewrite Eg, Est. simpl.
    destruct (IH (results ++ [compare_sheets sh sh n default_max_differences])%list
                 (matched + 1) Hrest) as (rs & E & Hm & Hs).
    exists (compare_sheets sh sh n default_max_differences :: rs).
    rewrite E. rewrite <- app_assoc. simpl. repeat split.
    + f_equal. unfold len. simpl List.length. lia.
    + constructor; [exact Est | exact Hm].
    + now rewrite Esh, Hs.
Qed.

Lemma set_diff_self set_iter (names : list string) :
  (forall l, Permutation l (set_iter l)) ->
  set_diff set_iter names names = [].
Proof.
  intros Hperm. unfold set_diff.
  assert (E : filter (fun n => negb (mem n names)) names = []).
  { assert (G : forall l, incl l names ->
                  filter (fun n => negb (mem n names)) l = []).
    { induction l as [|x l IH]; intros Hl; [reflexivity|]. simpl.
      rewrite (mem_refl_in x names) by (apply Hl; now left). simpl.
      apply IH. intros y Hy. apply Hl. now right. }
    apply G, incl_refl. }
  rewrite E. simpl. apply Permutation_nil, Hperm.
Qed.

End Comparator.

(** C7. The differences recorded for a pair of sheets never exceed the
    cap: for any non-negative cap handed to [compare_sheets], and for the
    default cap of 1000 in every per-sheet result of a workbook
    comparison.  Collection stops at the cap, and the cap is per sheet:
    two sheets of 1001 differing cells each yield 1000 differences each,
    2000 in the workbook. *)
Theorem C7_differences_capped_per_sheet :
  (forall sheet1 sheet2 sheet_name cap,
      0 <= cap ->
      ExcelCompare.len
        (ExcelCompare.differences
           (ExcelCompare.compare_sheets sheet1 sheet2 sheet_name cap))
      <= cap)
  /\ (forall set_iter names_repr workbook1 workbook2 r,
         ExcelCompare.compare_excel_files set_iter names_repr workbook1
           workbook2 = Ok r ->
         Forall Props.within_default_cap (ExcelCompare.comparison_results r))
  /\ (exists r,
         ExcelCompare.compare_excel_files Props.in_order Props.no_names_repr
           Props.all_zeros Props.all_ones = Ok r
         /\ map (fun sr => ExcelCompare.len (ExcelCompare.differences sr))
              (ExcelCompare.comparison_results r) = [1000; 1000]
         /\ Props.total_differences r = 2000).
Proof.
  split; [intros; now apply compare_sheets_bound|].
  split; [intros; eapply compare_excel_files_within_cap; eassumption|].
  eexists. split; [vm_compute; reflexivity|].
  split; vm_compute; reflexivity.
Qed.

Lemma C7_differences_capped_per_sheet_witness :
  0 <= 2
  /\ ExcelCompare.len
       (ExcelCompare.differences
          (ExcelCompare.compare_sheets Props.zeros Props.ones "A" 2))
     <= 2
  /\ ExcelCompare.len
       (ExcelCompare.differences
          (ExcelCompare.compare_sheets Props.zeros Props.ones "A" 2))
     = 2.
Proof.
  split; [lia|]. split.
  - apply (proj1 C7_differences_capped_per_sheet
             Props.zeros Props.ones "A" 2). lia.
  - vm_compute. reflexivity.
Defined.

(** C4, at workbooks with sheets X, Y and X, Z: sheet X is compared, Z is
    reported once as missing in file 1, and Y is reported twice, as
    [sheet_mismatch] and as [sheet_missing_in_file2]; four sheets are
    counted and the comparison fails. *)
Theorem C4_one_sided_sheet_reported_twice
  (set_iter : list string -> list string)
  (names_repr : list string -> string)
  (x1 y x2 z : ExcelCompare.Sheet) :
  (forall n, set_iter [n] = [n]) ->
  exists matched,
    ExcelCompare.compare_excel_files set_iter names_repr
      [("X", x1); ("Y", y)] [("X", x2); ("Z", z)]
    = Ok {| ExcelCompare.success := false;
            ExcelCompare.total_sheets := 4;
            ExcelCompare.matched_sheets := matched;
            ExcelCompare.comparison_results :=
              [ ExcelCompare.compare_sheets x1 x2 "X"
                  ExcelCompare.default_max_differences;
                {| ExcelCompare.sheet := "Y";
                   ExcelCompare.cell_id := "NA";
                   ExcelCompare.value1 := "sheet exists";
                   ExcelCompare.value2 := "sheet missing";
                   ExcelCompare.status := "sheet_mismatch";
                   ExcelCompare.differences := [] |};
                {| ExcelCompare.sheet := "Y";
                   ExcelCompare.cell_id := "NA";
                   ExcelCompare.value1 := "sheet exists";
                   ExcelCompare.value2 := "sheet missing";
                   ExcelCompare.status := "sheet_missing_in_file2";
                   ExcelCompare.differences := [] |};
                {| ExcelCompare.sheet := "Z";
                   ExcelCompare.cell_id := "NA";
                   ExcelCompare.value1 := "sheet missing";
                   ExcelCompare.value2 := "sheet exists";
                   ExcelCompare.status := "sheet_missing_in_file1";
                   ExcelCompare.differences := [] |} ];
            ExcelCompare.summary := ExcelCompare.summary_text 4 matched |}
    /\ (matched = 0 \/ matched = 1).
Proof.
  intros Hone. unfold ExcelCompare.compare_excel_files.
  unfold ExcelCompare.set_diff. simpl. rewrite !Hone.
  destruct (String.eqb
              (ExcelCompare.status
                 (ExcelCompare.compare_sheets x1 x2 "X"
                    ExcelCompare.default_max_differences)) "matched");
    eexists; (split; [reflexivity | tauto]).
Qed.

Lemma C4_one_sided_sheet_reported_twice_witness :
  (forall n, Props.in_order [n] = [n])
  /\ exists matched,
       ExcelCompare.compare_excel_files Props.in_order Props.no_names_repr
         [("X", Props.zeros); ("Y", Props.zeros)]
         [("X", Props.zeros); ("Z", Props.ones)]
       = Ok {| ExcelCompare.success := false;
               ExcelCompare.total_sheets := 4;
               ExcelCompare.matched_sheets := matched;
               ExcelCompare.comparison_results :=
                 [ ExcelCompare.compare_sheets Props.zeros Props.zeros "X"
                     ExcelCompare.default_max_differences;
                   {| ExcelCompare.sheet := "Y";
                      ExcelCompare.cell_id := "NA";
                      ExcelCompare.value1 := "sheet exists";
                      ExcelCompare.value2 := "sheet missing";
                      ExcelCompare.status := "sheet_mismatch";
                      ExcelCompare.differences := [] |};
                   {| ExcelCompare.sheet := "Y";
                      ExcelCompare.cell_id := "NA";
                      ExcelCompare.value1 := "sheet exists";
                      ExcelCompare.value2 := "sheet missing";
                      ExcelCompare.status := "sheet_missing_in_file2";
                      ExcelCompare.differences := [] |};
                   {| ExcelCompare.sheet := "Z";
                      ExcelCompare.cell_id := "NA";
                      ExcelCompare.value1 := "sheet missing";
                      ExcelCompare.value2 := "sheet exists";
                      ExcelCompare.status := "sheet_missing_in_file1";
                      ExcelCompare.differences := [] |} ];
               ExcelCompare.summary := ExcelCompare.summary_text 4 matched |}
       /\ (matched = 0 \/ matched = 1).
Proof.
  split; [reflexivity|].
  exact (C4_one_sided_sheet_reported_twice Props.in_order Props.no_names_repr
           Props.zeros Props.zeros Props.zeros Props.ones
           (fun n => eq_refl)).
Defined.

(* ================================================================== *)
(** * Further properties of [sql_utils.py] *)
(* ================================================================== *)

Ltac all_chars c := destruct c as [[] [] [] [] [] [] [] []].

Section MoreSqlUtils.
Import PyStr Re SqlUtils Props MoreProps.

Lemma read_quoted_replace_quote (s : string) :
  read_quoted (replace_quote s ++ "'") = Some s.
Proof.
  induction s as [|c s IH]; [reflexivity|].
  simpl. destruct (Ascii.eqb c "'") eqn:E.
  - apply Ascii.eqb_eq in E. subst c. simpl. now rewrite IH.
  - simpl. rewrite E. now rewrite IH.
Qed.

Lemma lower_char_idempotent (c : ascii) :
  lower_char (lower_char c) = lower_char c.
Proof. all_chars c; reflexivity. Qed.

Lemma lower_idempotent (s : string) : lower (lower s) = lower s.
Proof.
  induction s as [|c s IH]; simpl; [reflexivity|].
  now rewrite lower_char_idempotent, IH.
Qed.

Lemma lstrip_lower (s : string) :
  lstrip_by isspace (lower s) = lower (lstrip_by isspace s).
Proof.
  induction s as [|c s IH]; simpl; [reflexivity|].
  rewrite isspace_lower_char. now destruct (isspace c).
Qed.

Lemma rstrip_lower (s : string) :
  rstrip_by isspace (lower s) = lower (rstrip_by isspace s).
Proof.
  induction s as [|c s IH]; simpl; [reflexivity|].
  rewrite IH, isspace_lower_char.
  destruct (rstrip_by isspace s); simpl; [now destruct (isspace c) | reflexivity].
Qed.

Lemma strip_lower (s : string) : strip (lower s) = lower (strip s).
Proof. unfold strip. now rewrite lstrip_lower, rstrip_lower. Qed.

Lemma rstrip_by_idempotent (p : ascii -> bool) (s : string) :
  rstrip_by p (rstrip_by p s) = rstrip_by p s.
Proof.
  induction s as [|c s IH]; [reflexivity|].
  simpl. destruct (rstrip_by p s) as [|d t] eqn:E.
  - destruct (p c) eqn:Ec; simpl; [reflexivity | now rewrite Ec].
  - change (rstrip_by p (String c (String d t)))
      with (match rstrip_by p (String d t) with
            | EmptyString => if p c then EmptyString else String c EmptyString
            | t' => String c t'
            end).
    now rewrite IH.
Qed.

Lemma strip_idempotent (s : string) : strip (strip s) = strip s.
Proof.
  unfold strip at 1. rewrite lstrip_strip. unfold strip.
  apply rstrip_by_idempotent.
Qed.

(** A verb followed by a non-word character is found whatever precedes
    it. *)
Lemma verb_tail_unsafe (pre w post verb : string) :
  In verb dml_ddl_verbs -> lower w = verb -> word_after post = false ->
  is_safe_sql (pre ++ w ++ post) = false.
Proof.
  intros Hin Hw Hafter.
  destruct (verb_shape verb (last_char (lower (lstrip_by isspace pre)) None) Hin)
    as (Hne & Hclean & Hlast).
  apply forbidden_unsafe.
  rewrite strip_around.
  - rewrite !lower_app, Hw.
    apply forbidden_found with (r := keyword verb).
    + now apply verb_is_token.
    + apply keyword_matches; [exact Hlast|].
      now apply word_after_lower_rstrip.
  - intros ->. apply Hne. now rewrite <- Hw.
  - now rewrite <- none_of_space_lower, Hw.
Qed.

End MoreSqlUtils.

(** X1. [escape_literal] is reversible: reading the quoted literal back,
    with doubled quotes taken as one, returns the value; so two values
    never share a literal. *)
Theorem X1_escape_literal_round_trip :
  (forall value,
      MoreProps.unescape_literal (SqlUtils.escape_literal value) = Some value)
  /\ (forall a b,
         SqlUtils.escape_literal a = SqlUtils.escape_literal b -> a = b).
Proof.
  assert (R : forall value,
             MoreProps.unescape_literal (SqlUtils.escape_literal value)
             = Some value).
  { intros value. unfold SqlUtils.escape_literal. simpl.
    apply read_quoted_replace_quote. }
  split; [exact R|].
  intros a b H. apply (f_equal MoreProps.unescape_literal) in H.
  rewrite !R in H. now inversion H.
Qed.

Lemma X1_escape_literal_round_trip_witness :
  SqlUtils.escape_literal "O'Brien" = "'O''Brien'"
  /\ MoreProps.unescape_literal "'O''Brien'" = Some "O'Brien".
Proof.
  split; [reflexivity|].
  exact (proj1 X1_escape_literal_round_trip "O'Brien").
Defined.

(** X2. The verdict of [is_safe_sql] does not depend on letter case nor on
    whitespace around the text. *)
Theorem X2_is_safe_sql_ignores_case_and_padding (sql : string) :
  SqlUtils.is_safe_sql (PyStr.lower sql) = SqlUtils.is_safe_sql sql
  /\ SqlUtils.is_safe_sql (PyStr.strip sql) = SqlUtils.is_safe_sql sql.
Proof.
  unfold SqlUtils.is_safe_sql. split.
  - now rewrite strip_lower, lower_idempotent.
  - now rewrite strip_idempotent.
Qed.

(** X3. A DML/DDL verb is rejected as soon as no word character follows
    it, also when it is the tail of a longer identifier ([backdrop],
    [last_update]): the pattern asks for a boundary after the verb only. *)
Theorem X3_verb_at_end_of_identifier_rejected
  (pre w post verb : string) :
  In verb Props.dml_ddl_verbs ->
  PyStr.lower w = verb ->
  Re.word_after post = false ->
  SqlUtils.is_safe_sql (pre ++ w ++ post) = false
  /\ SqlUtils.validate_sql (pre ++ w ++ post) = Props.rejected.
Proof.
  intros Hin Hw Hafter.
  assert (U := verb_tail_unsafe pre w post verb Hin Hw Hafter).
  split; [exact U | now apply is_safe_sql_false_rejected].
Qed.

Lemma X3_verb_at_end_of_identifier_rejected_witness :
  In "update" Props.dml_ddl_verbs
  /\ PyStr.lower "update" = "update"
  /\ Re.word_after " from orders" = false
  /\ SqlUtils.is_safe_sql ("select last_" ++ "update" ++ " from orders")
     = false
  /\ SqlUtils.validate_sql ("select last_" ++ "update" ++ " from orders")
     = Props.rejected.
Proof.
  split; [simpl; tauto|]. split; [reflexivity|]. split; [reflexivity|].
  apply (X3_verb_at_end_of_identifier_rejected
           "select last_" "update" " from orders" "update");
    [simpl; tauto | reflexivity | reflexivity].
Defined.

(* ================================================================== *)
(** * Further properties of the filter compiler *)
(* ================================================================== *)

Section MoreFilters.
Import PyStr SqlUtils Models Services DataService Props MoreProps.

Variable float_str : spec_float -> string.
Variable list_str : list scalar -> string.

Lemma in_literals_strings (vs : list scalar) (i : nat) :
  has_number vs = false ->
  in_literals float_str list_str i vs
  = Ok (map (fun v => escape_literal (py_str float_str v)) vs).
Proof.
  revert i. induction vs as [|v vs IH]; intros i H; [reflexivity|].
  unfold has_number in H. simpl in H. apply orb_false_iff in H as [Hv Hvs].
  simpl. rewrite Hv. now rewrite (IH (S i) Hvs).
Qed.

Lemma in_literals_number (vs : list scalar) (i : nat) :
  has_number vs = true ->
  exists msg, in_literals float_str list_str i vs = Raise (TypeError msg).
Proof.
  revert i. induction vs as [|v vs IH]; intros i H; [discriminate|].
  unfold has_number in H. simpl in H. simpl.
  destruct (is_int_or_float v) eqn:Hv; [now eexists|].
  simpl in H. destruct (IH (S i) H) as [msg ->]. now eexists.
Qed.

Lemma render_condition_raises_type_error (c : FilterCondition) (e : exn) :
  render_condition float_str list_str c = Raise e ->
  exists msg, e = TypeError msg.
Proof.
  unfold render_condition. cbv zeta.
  repeat match goal with
         | |- context [if ?b then _ else _] => destruct b; try discriminate
         end.
  destruct (value c) as [v | vs]; [discriminate|].
  destruct (has_number vs) eqn:H.
  - destruct (in_literals_number vs 0 H) as [msg ->].
    intros E; inversion E; now eexists.
  - now rewrite (in_literals_strings vs 0 H).
Qed.

Lemma render_conditions_raise (conds : list FilterCondition)
  (c : FilterCondition) (msg : string) :
  In c conds ->
  render_condition float_str list_str c = Raise (TypeError msg) ->
  exists msg', render_conditions float_str list_str conds
               = Raise (TypeError msg').
Proof.
  intros Hin Hc. induction conds as [|d conds IH]; [contradiction|].
  simpl. destruct (render_condition float_str list_str d) as [frag | e] eqn:Ed.
  - destruct Hin as [-> | Hin]; [congruence|].
    destruct (IH Hin) as [msg' ->]. now eexists.
  - destruct (render_condition_raises_type_error d e Ed) as [m ->].
    now eexists.
Qed.

Lemma in_condition_with_number (col op : string) (vs : list scalar) :
  lower op = "in" -> has_number vs = true ->
  exists msg,
    render_condition float_str list_str
      {| column := col; operator := op; value := FList vs |}
    = Raise (TypeError msg).
Proof.
  intros Hop Hn. unfold render_condition. cbv zeta. simpl.
  rewrite Hop. simpl.
  destruct (in_literals_number vs 0 Hn) as [msg ->]. now eexists.
Qed.

(** *** Upper-casing *)

Lemma upper_app (a b : string) : upper (a ++ b) = upper a ++ upper b.
Proof.
  induction a as [|c a IH]; simpl; [reflexivity|].
  now rewrite IH, app_assoc_s.
Qed.

Lemma upper_of_where (w : string) : lower w = "where" -> upper w = "WHERE".
Proof.
  intros H.
  destruct w as [|c1 [|c2 [|c3 [|c4 [|c5 [|c6 w]]]]]]; try discriminate H.
  simpl in H. injection H as H1 H2 H3 H4 H5.
  assert (W : forall c, lower_char c = "w"%char -> upper_char c = "W")
    by (intros c; all_chars c; intros E; try discriminate E; reflexivity).
  assert (Hh : forall c, lower_char c = "h"%char -> upper_char c = "H")
    by (intros c; all_chars c; intros E; try discriminate E; reflexivity).
  assert (He : forall c, lower_char c = "e"%char -> upper_char c = "E")
    by (intros c; all_chars c; intros E; try discriminate E; reflexivity).
  assert (Hr : forall c, lower_char c = "r"%char -> upper_char c = "R")
    by (intros c; all_chars c; intros E; try discriminate E; reflexivity).
  simpl. now rewrite (W _ H1), (Hh _ H2), (He _ H3), (Hr _ H4), (He _ H5).
Qed.

Lemma prefix_self_app (p rest : string) : String.prefix p (p ++ rest) = true.
Proof.
  induction p as [|a p IH]; simpl.
  - now destruct rest.
  - destruct (ascii_dec a a); [exact IH | congruence].
Qed.

Lemma contains_of_prefix (sub s : string) :
  String.prefix sub s = true -> contains sub s = true.
Proof.
  intros H. destruct s; unfold contains; fold contains; now rewrite H.
Qed.

Lemma contains_app (sub pre post : string) :
  contains sub (pre ++ sub ++ post) = true.
Proof.
  induction pre as [|c pre IH].
  - change ("" ++ sub ++ post) with (sub ++ post).
    apply contains_of_prefix, prefix_self_app.
  - simpl. rewrite IH. apply orb_true_r.
Qed.

Lemma where_detected (pre w post : string) :
  lower w = "where" -> contains "WHERE" (upper (pre ++ w ++ post)) = true.
Proof.
  intros H. rewrite !upper_app, (upper_of_where w H). apply contains_app.
Qed.

End MoreFilters.

(** X4. [apply_filters] never rewrites the base query: whatever it
    returns is the base query followed by the appended text, and without a
    filter, or with a filter without conditions, it is the base query
    itself. *)
Theorem X4_apply_filters_only_appends
  (float_str : spec_float -> string) (list_str : list Models.scalar -> string)
  (base : string) (filters : option Models.TableFilter) (q : string) :
  DataService.apply_filters float_str list_str base filters = Ok q ->
  (exists suffix, q = base ++ suffix)
  /\ (filters = None -> q = base)
  /\ (forall f, filters = Some f -> Models.conditions f = [] -> q = base).
Proof.
  intros H. split; [|split].
  - destruct filters as [f|];
      [|inversion H; exists ""; symmetry; apply app_nil_r_s].
    rewrite apply_filters_unfold in H.
    destruct (DataService.render_conditions float_str list_str
                (Models.conditions f)) as [[|x frags] | e]; [| |discriminate].
    + inversion H. exists "". symmetry. apply app_nil_r_s.
    + destruct (PyStr.contains "WHERE" (PyStr.upper base));
        inversion H; now eexists.
  - intros ->. now inversion H.
  - intros f -> Hc. unfold DataService.apply_filters in H. rewrite Hc in H.
    now inversion H.
Qed.

Lemma X4_apply_filters_only_appends_witness :
  DataService.apply_filters Props.no_float_str Props.no_list_str
    "SELECT * FROM app_users WHERE is_active = 1"
    (Some (MoreProps.filter_of [Props.role_is_admin]))
  = Ok "SELECT * FROM app_users WHERE is_active = 1 AND (role = 'ADMIN')"
  /\ (exists suffix,
         "SELECT * FROM app_users WHERE is_active = 1 AND (role = 'ADMIN')"
         = "SELECT * FROM app_users WHERE is_active = 1" ++ suffix).
Proof.
  split; [reflexivity|].
  apply (X4_apply_filters_only_appends Props.no_float_str Props.no_list_str
           "SELECT * FROM app_users WHERE is_active = 1"
           (Some (MoreProps.filter_of [Props.role_is_admin]))).
  reflexivity.
Defined.

(** X5. An [in] condition renders only lists of strings: its values are
    joined with [str.join], so a list holding an int, float or bool makes
    [apply_filters] raise [TypeError], wherever the condition stands in
    the filter; a list without numbers renders as a parenthesized list of
    quoted literals. *)
Theorem X5_in_condition_needs_strings
  (float_str : spec_float -> string) (list_str : list Models.scalar -> string) :
  (forall base f col op vs,
      In {| Models.column := col; Models.operator := op;
            Models.value := Models.FList vs |} (Models.conditions f) ->
      PyStr.lower op = "in" ->
      MoreProps.has_number vs = true ->
      exists msg,
        DataService.apply_filters float_str list_str base (Some f)
        = Raise (TypeError msg))
  /\ (forall col vs,
         MoreProps.has_number vs = false ->
         DataService.render_condition float_str list_str
           (MoreProps.in_condition col vs)
         = Ok (Some (col ++ " IN ("
                     ++ PyStr.join ", "
                          (map (fun v => SqlUtils.escape_literal
                                           (DataService.py_str float_str v)) vs)
                     ++ ")"))).
Proof.
  split.
  - intros base f col op vs Hin Hop Hn.
    destruct (in_condition_with_number float_str list_str col op vs Hop Hn)
      as [msg Hc].
    destruct (render_conditions_raise float_str list_str _ _ _ Hin Hc)
      as [msg' Hr].
    exists msg'. rewrite apply_filters_unfold. now rewrite Hr.
  - intros col vs Hn. unfold DataService.render_condition. cbv zeta. simpl.
    now rewrite (in_literals_strings float_str list_str vs 0 Hn).
Qed.

Lemma X5_in_condition_needs_strings_witness :
  In {| Models.column := "id"; Models.operator := "IN";
        Models.value := Models.FList [Models.SInt 1; Models.SInt 2] |}
     (Models.conditions
        (MoreProps.filter_of
           [Props.role_is_admin;
            {| Models.column := "id"; Models.operator := "IN";
               Models.value := Models.FList [Models.SInt 1; Models.SInt 2] |}]))
  /\ PyStr.lower "IN" = "in"
  /\ MoreProps.has_number [Models.SInt 1; Models.SInt 2] = true
  /\ exists msg,
       DataService.apply_filters Props.no_float_str Props.no_list_str
         "SELECT * FROM app_users"
         (Some (MoreProps.filter_of
                  [Props.role_is_admin;
                   {| Models.column := "id"; Models.operator := "IN";
                      Models.value :=
                        Models.FList [Models.SInt 1; Models.SInt 2] |}]))
       = Raise (TypeError msg).
Proof.
  split; [simpl; tauto|]. split; [reflexivity|]. split; [reflexivity|].
  apply (proj1 (X5_in_condition_needs_strings Props.no_float_str
                  Props.no_list_str)
           "SELECT * FROM app_users"
           (MoreProps.filter_of
              [Props.role_is_admin;
               {| Models.column := "id"; Models.operator := "IN";
                  Models.value :=
                    Models.FList [Models.SInt 1; Models.SInt 2] |}])
           "id" "IN" [Models.SInt 1; Models.SInt 2]);
    [simpl; tauto | reflexivity | reflexivity].
Defined.

(** X6. The presence of a WHERE clause is decided by a substring test in
    any letter case: whenever the letters [where] occur anywhere in the
    base query, also inside an identifier such as [somewhere], the
    conditions are appended as [AND (...)]. *)
Theorem X6_where_is_detected_as_substring
  (float_str : spec_float -> string) (list_str : list Models.scalar -> string)
  (pre w post : string) (f : Models.TableFilter) (frags : list string) :
  PyStr.lower w = "where" ->
  DataService.render_conditions float_str list_str (Models.conditions f)
  = Ok frags ->
  0 < Z.of_nat (List.length frags) ->
  DataService.apply_filters float_str list_str (pre ++ w ++ post) (Some f)
  = Ok ((pre ++ w ++ post) ++ " AND ("
        ++ PyStr.join (" " ++ Models.logic f ++ " ") frags ++ ")").
Proof.
  intros Hw Hr Hlen. rewrite apply_filters_unfold, Hr.
  rewrite (where_detected pre w post Hw).
  destruct frags; [simpl in Hlen; lia | reflexivity].
Qed.

Lemma X6_where_is_detected_as_substring_witness :
  PyStr.lower "where" = "where"
  /\ DataService.render_conditions Props.no_float_str Props.no_list_str
       (Models.conditions (MoreProps.filter_of [Props.role_is_admin]))
     = Ok ["role = 'ADMIN'"]
  /\ 0 < Z.of_nat (List.length ["role = 'ADMIN'"])
  /\ DataService.apply_filters Props.no_float_str Props.no_list_str
       ("SELECT some" ++ "where" ++ " FROM places")
       (Some (MoreProps.filter_of [Props.role_is_admin]))
     = Ok "SELECT somewhere FROM places AND (role = 'ADMIN')".
Proof.
  split; [reflexivity|]. split; [reflexivity|]. split; [reflexivity|].
  apply (X6_where_is_detected_as_substring Props.no_float_str
           Props.no_list_str "SELECT some" "where" " FROM places"
           (MoreProps.filter_of [Props.role_is_admin]) ["role = 'ADMIN'"]);
    reflexivity.
Defined.

(* ================================================================== *)
(** * Further properties of the orchestrator *)
(* ================================================================== *)

Section MoreOrchestrator.
Import PyStr SqlUtils Models Services DataService Props MoreProps.

Variable db_state : Type.
Variable cursor_run :
  string -> db_state -> result (list string * list (list scalar)) * db_state.

Lemma table_outcome (query : string) (limit offset timeout : Z)
  (st : db_state) :
  table_success
    (fst (execute_query_for_table cursor_run query limit offset timeout st))
  \/ exists msg,
       failed_with
         (fst (execute_query_for_table cursor_run query limit offset timeout st))
         msg
       /\ (one_of_four_messages msg = true
           \/ msg = table_timeout_message timeout).
Proof.
  unfold execute_query_for_table.
  destruct (table_body cursor_run query limit offset st) as [[r | e] st'] eqn:E.
  - left. unfold table_body, bind in E.
    destruct (fetch_page cursor_run query limit offset st) as [[df | e] st1];
      [|discriminate].
    destruct (count_rows cursor_run query df offset st1) as [[t | e] st2];
      [|discriminate].
    unfold ret in E. inversion E; subst. simpl.
    repeat split. now eexists.
  - right. destruct (is_TimeoutError e); simpl; eexists;
      (split; [repeat split|]); [now right | left].
    apply classify_error_one_of_four.
Qed.

Lemma chart_outcome float_of_str _format_chart_data (query : string)
  chart_type chart_config (timeout : Z) (st : db_state) :
  chart_success
    (fst (execute_query_for_chart cursor_run float_of_str _format_chart_data
            query chart_type chart_config timeout st))
  \/ exists msg,
       failed_with
         (fst (execute_query_for_chart cursor_run float_of_str
                 _format_chart_data query chart_type chart_config timeout st))
         msg
       /\ (one_of_four_messages msg = true
           \/ msg = chart_timeout_message timeout
           \/ msg = "Query returned no data").
Proof.
  unfold execute_query_for_chart.
  destruct (chart_body cursor_run float_of_str _format_chart_data query
              chart_type chart_config st) as [[r | e] st'] eqn:E.
  - unfold chart_body, bind in E.
    destruct (execute_query_pandas cursor_run query st) as [[df | e] st1];
      [|discriminate].
    destruct (df_empty df).
    + right. unfold ret in E. inversion E; subst. simpl.
      eexists. split; [repeat split | now right; right].
    + left.
      match type of E with
      | (match ?m with _ => _ end) = _ => destruct m as [[c | e] st2]
      end; [|discriminate].
      unfold ret in E. inversion E; subst. simpl. repeat split. now eexists.
  - right. destruct (is_TimeoutError e); simpl; eexists;
      (split; [repeat split|]); [now right; left | left].
    apply classify_error_one_of_four.
Qed.

(** The structure fetch never raises. *)
Lemma fetch_structure_ok (query : string) (df : DataFrame) (st : db_state) :
  exists df' st',
    fetch_structure cursor_run query df st = (Ok df', st')
    /\ (df_empty df = false -> df' = df /\ st' = st)
    /\ (df_empty df = true -> df_empty df' = true).
Proof.
  unfold fetch_structure. destruct (df_empty df) eqn:E.
  - unfold try_except, bind.
    destruct (execute_query_pandas cursor_run (structure_query_of query) st)
      as [[sdf | e] st1].
    + destruct (0 <? Z.of_nat (List.length (df_columns sdf))); unfold ret;
        do 2 eexists; (split; [reflexivity|]); split; try discriminate;
        intros _; [reflexivity | exact E].
    + unfold ret. do 2 eexists. split; [reflexivity|]. split; [discriminate|].
      intros _. exact E.
  - unfold ret. do 2 eexists. split; [reflexivity|].
    split; [tauto | discriminate].
Qed.

Lemma fetch_structure_headers (query : string) (df sdf : DataFrame)
  (st st1 : db_state) :
  df_empty df = true ->
  execute_query_pandas cursor_run (structure_query_of query) st = (Ok sdf, st1) ->
  0 < Z.of_nat (List.length (df_columns sdf)) ->
  fetch_structure cursor_run query df st
  = (Ok {| df_columns := df_columns sdf; df_rows := [] |}, st1).
Proof.
  intros E Hs Hc. unfold fetch_structure, try_except, bind.
  rewrite E, Hs. apply Z.ltb_lt in Hc. now rewrite Hc.
Qed.

Lemma fetch_structure_failure_swallowed (query : string) (df : DataFrame)
  (st st1 : db_state) (e : exn) :
  df_empty df = true ->
  execute_query_pandas cursor_run (structure_query_of query) st = (Raise e, st1) ->
  fetch_structure cursor_run query df st = (Ok df, st1).
Proof.
  intros E Hs. unfold fetch_structure, try_except, bind. now rewrite E, Hs.
Qed.

End MoreOrchestrator.

(** X7. The table and chart executions return either a success with data
    and no error, or a failure with no data whose message is one of the
    four fixed messages, the timeout message of the path or, for charts,
    "Query returned no data"; the text of the exception is never
    returned. *)
Theorem X7_table_and_chart_outcomes_are_classified
  (db_state : Type)
  (cursor_run : string -> db_state ->
                result (list string * list (list Models.scalar)) * db_state)
  (st : db_state) (query : string) (timeout : Z) :
  (forall limit offset,
      MoreProps.table_success
        (fst (DataService.execute_query_for_table cursor_run query limit
                offset timeout st))
      \/ exists msg,
           MoreProps.failed_with
             (fst (DataService.execute_query_for_table cursor_run query limit
                     offset timeout st)) msg
           /\ (Props.one_of_four_messages msg = true
               \/ msg = Services.table_timeout_message timeout))
  /\ (forall float_of_str _format_chart_data chart_type chart_config,
         MoreProps.chart_success
           (fst (DataService.execute_query_for_chart cursor_run float_of_str
                   _format_chart_data query chart_type chart_config timeout
                   st))
         \/ exists msg,
              MoreProps.failed_with
                (fst (DataService.execute_query_for_chart cursor_run
                        float_of_str _format_chart_data query chart_type
                        chart_config timeout st)) msg
              /\ (Props.one_of_four_messages msg = true
                  \/ msg = Services.chart_timeout_message timeout
                  \/ msg = "Query returned no data")).
Proof.
  split; intros; [apply table_outcome | apply chart_outcome].
Qed.

(** X8. When the count query of [execute_query_for_table] times out, the
    request still succeeds with the page already fetched: the table has the
    columns of the page and one data row for each of its rows, and the
    total is the number of rows of the page plus the offset. *)
Theorem X8_count_timeout_keeps_page
  (db_state : Type)
  (cursor_run : string -> db_state ->
                result (list string * list (list Models.scalar)) * db_state)
  (query : string) (limit offset timeout : Z)
  (st st1 st2 : db_state) (df : Services.DataFrame) (e : exn) :
  DataService.fetch_page cursor_run query limit offset st = (Ok df, st1) ->
  DataService.execute_query cursor_run (Services.count_query_of query) st1
  = (Raise e, st2) ->
  is_TimeoutError e = true ->
  exists r table,
    DataService.execute_query_for_table cursor_run query limit offset timeout
      st = (r, st2)
    /\ Models.success r = true
    /\ Models.error r = None
    /\ Models.result_data r = Some (Models.Table table)
    /\ Models.columns table = Services.df_columns df
    /\ List.length (Models.data table) = List.length (Services.df_rows df)
    /\ Models.total_count table
       = Models.SInt (Z.of_nat (List.length (Services.df_rows df)) + offset).
Proof.
  intros Hp Hc Ht.
  rewrite (count_timeout_keeps_page db_state cursor_run query limit offset
             timeout st st1 st2 df e Hp Hc Ht).
  eexists. eexists. split; [reflexivity|]. now repeat split.
Qed.

Lemma X8_count_timeout_keeps_page_witness :
  DataService.fetch_page MoreProps.db_count_times_out "SELECT id FROM t"
    10 20 0%nat
  = (Ok {| Services.df_columns := ["ID"];
           Services.df_rows := [[Models.SInt 7]] |}, 1%nat)
  /\ DataService.execute_query MoreProps.db_count_times_out
       (Services.count_query_of "SELECT id FROM t") 1%nat
     = (Raise (TimeoutError "timed out"), 2%nat)
  /\ is_TimeoutError (TimeoutError "timed out") = true
  /\ exists r table,
       DataService.execute_query_for_table MoreProps.db_count_times_out
         "SELECT id FROM t" 10 20 45 0%nat = (r, 2%nat)
       /\ Models.success r = true
       /\ Models.error r = None
       /\ Models.result_data r = Some (Models.Table table)
       /\ Models.columns table = ["ID"]
       /\ List.length (Models.data table) = 1%nat
       /\ Models.total_count table = Models.SInt 21.
Proof.
  split; [reflexivity|]. split; [reflexivity|]. split; [reflexivity|].
  apply (X8_count_timeout_keeps_page nat MoreProps.db_count_times_out
           "SELECT id FROM t" 10 20 45 0%nat 1%nat 2%nat
           {| Services.df_columns := ["ID"];
              Services.df_rows := [[Models.SInt 7]] |}
           (TimeoutError "timed out")); reflexivity.
Defined.

(** X9. The structure fetch for an empty page never raises: a non-empty
    page is returned as it is without a statement being run; for an empty
    page the headers reported by [SELECT * FROM (query) WHERE 1=0] replace
    the frame when there are any, and a failure of that statement leaves
    the empty page as it was. *)
Theorem X9_empty_page_headers
  (db_state : Type)
  (cursor_run : string -> db_state ->
                result (list string * list (list Models.scalar)) * db_state)
  (query : string) (df : Services.DataFrame) (st : db_state) :
  (exists df' st',
      DataService.fetch_structure cursor_run query df st = (Ok df', st')
      /\ (Services.df_empty df = false -> df' = df /\ st' = st)
      /\ (Services.df_empty df = true -> Services.df_empty df' = true))
  /\ (forall sdf st1,
         Services.df_empty df = true ->
         DataService.execute_query_pandas cursor_run
           (Services.structure_query_of query) st = (Ok sdf, st1) ->
         0 < Z.of_nat (List.length (Services.df_columns sdf)) ->
         DataService.fetch_structure cursor_run query df st
         = (Ok {| Services.df_columns := Services.df_columns sdf;
                  Services.df_rows := [] |}, st1))
  /\ (forall e st1,
         Services.df_empty df = true ->
         DataService.execute_query_pandas cursor_run
           (Services.structure_query_of query) st = (Raise e, st1) ->
         DataService.fetch_structure cursor_run query df st = (Ok df, st1)).
Proof.
  split; [apply fetch_structure_ok|].
  split; intros; [now apply fetch_structure_headers
                 | now apply fetch_structure_failure_swallowed with e].
Qed.

Lemma X9_empty_page_headers_witness :
  Services.df_empty
    {| Services.df_columns := ["ID"; "NAME"; "RNUM"];
       Services.df_rows := [] |} = true
  /\ DataService.execute_query_pandas MoreProps.db_empty_page
       (Services.structure_query_of "SELECT id, name FROM t") 1%nat
     = (Ok {| Services.df_columns := ["ID"; "NAME"];
              Services.df_rows := [] |}, 2%nat)
  /\ 0 < Z.of_nat (List.length ["ID"; "NAME"])
  /\ DataService.fetch_structure MoreProps.db_empty_page
       "SELECT id, name FROM t"
       {| Services.df_columns := ["ID"; "NAME"; "RNUM"];
          Services.df_rows := [] |} 1%nat
     = (Ok {| Services.df_columns := ["ID"; "NAME"];
              Services.df_rows := [] |}, 2%nat).
Proof.
  split; [reflexivity|]. split; [reflexivity|]. split; [reflexivity|].
  apply (proj1 (proj2 (X9_empty_page_headers nat MoreProps.db_empty_page
                         "SELECT id, name FROM t"
                         {| Services.df_columns := ["ID"; "NAME"; "RNUM"];
                            Services.df_rows := [] |} 1%nat))
           {| Services.df_columns := ["ID"; "NAME"];
              Services.df_rows := [] |} 2%nat); reflexivity.
Defined.

Section MoreFrames.
Import PyStr SqlUtils Models Services DataService Props MoreProps.

Lemma drop_labelled_columns (name : string) (cols : list string) :
  drop_labelled name cols cols = labels_without name cols.
Proof.
  induction cols as [|c cols IH]; [reflexivity|].
  simpl. destruct (String.eqb c name); simpl; now rewrite IH.
Qed.

Lemma drop_labelled_length {A : Type} (name : string) (cols : list string)
  (xs : list A) :
  List.length xs = List.length cols ->
  List.length (drop_labelled name cols xs)
  = List.length (labels_without name cols).
Proof.
  revert xs. induction cols as [|c cols IH]; intros [|x xs] H;
    try discriminate H; [reflexivity|].
  simpl in *. injection H as H'.
  destruct (String.eqb c name); simpl; now rewrite IH.
Qed.

Lemma labels_without_absent (name : string) (cols : list string) :
  existsb (String.eqb name) (labels_without name cols) = false.
Proof.
  induction cols as [|c cols IH]; [reflexivity|].
  simpl. destruct (String.eqb c name) eqn:E; simpl; [exact IH|].
  rewrite String.eqb_sym, E. exact IH.
Qed.

Lemma drop_column_spec (name : string) (df : DataFrame) :
  df_columns (drop_column name df) = labels_without name (df_columns df)
  /\ has_column name (drop_column name df) = false
  /\ List.length (df_rows (drop_column name df)) = List.length (df_rows df)
  /\ (aligned df = true -> aligned (drop_column name df) = true).
Proof.
  unfold drop_column, has_column, aligned. simpl.
  rewrite drop_labelled_columns.
  split; [reflexivity|]. split; [apply labels_without_absent|].
  split; [apply length_map|].
  intros H. rewrite forallb_forall in *. intros row Hrow.
  apply in_map_iff in Hrow as (r & <- & Hr).
  specialize (H r Hr). apply Nat.eqb_eq in H. apply Nat.eqb_eq.
  now apply drop_labelled_length.
Qed.

(** *** Sort fragments *)

Lemma keep_identifier_chars_only (s : string) :
  identifier_only (keep_identifier_chars s) = true.
Proof.
  induction s as [|c s IH]; [reflexivity|].
  simpl. unfold identifier_char.
  destruct (isalnum c || Ascii.eqb c "_")%bool eqn:E; [|exact IH].
  simpl. unfold identifier_char. now rewrite E, IH.
Qed.

Lemma keep_identifier_chars_fixed (s : string) :
  identifier_only s = true -> keep_identifier_chars s = s.
Proof.
  induction s as [|c s IH]; [reflexivity|].
  simpl. unfold identifier_char. intros H.
  apply andb_true_iff in H as [Hc Hs]. now rewrite Hc, (IH Hs).
Qed.

(** *** Keys of fetched rows *)

Lemma lower_never_total_count (s : string) :
  String.eqb (lower s) "TOTAL_COUNT" = false.
Proof.
  destruct s as [|c s]; [reflexivity|].
  simpl. replace (Ascii.eqb (lower_char c) "T") with false; [reflexivity|].
  all_chars c; reflexivity.
Qed.

Lemma dict_get_lower_keys (cols : list string) (row : list scalar) :
  dict_get "TOTAL_COUNT" (zip (map lower cols) row) = None.
Proof.
  revert row. induction cols as [|c cols IH]; intros [|v row];
    try reflexivity.
  simpl. now rewrite IH, lower_never_total_count.
Qed.

End MoreFrames.

(** X10. Dropping the row-number column of a non-empty page removes every
    column labelled RNUM (or, when there is none, rnum) and keeps the other
    labels in order, the number of rows, and the alignment of rows with
    columns; a page that is empty or has no such column is left as it
    is. *)
Theorem X10_drop_rnum_removes_row_number (df : Services.DataFrame) :
  (Services.df_empty df = false ->
   Services.has_column "RNUM" df = true ->
   Services.df_columns (Services.drop_rnum df)
   = MoreProps.labels_without "RNUM" (Services.df_columns df)
   /\ Services.has_column "RNUM" (Services.drop_rnum df) = false
   /\ List.length (Services.df_rows (Services.drop_rnum df))
      = List.length (Services.df_rows df)
   /\ (MoreProps.aligned df = true ->
       MoreProps.aligned (Services.drop_rnum df) = true))
  /\ (Services.df_empty df = false ->
      Services.has_column "RNUM" df = false ->
      Services.has_column "rnum" df = true ->
      Services.df_columns (Services.drop_rnum df)
      = MoreProps.labels_without "rnum" (Services.df_columns df)
      /\ Services.has_column "rnum" (Services.drop_rnum df) = false
      /\ List.length (Services.df_rows (Services.drop_rnum df))
         = List.length (Services.df_rows df)
      /\ (MoreProps.aligned df = true ->
          MoreProps.aligned (Services.drop_rnum df) = true))
  /\ (Services.df_empty df = true -> Services.drop_rnum df = df)
  /\ (Services.has_column "RNUM" df = false ->
      Services.has_column "rnum" df = false -> Services.drop_rnum df = df).
Proof.
  unfold Services.drop_rnum. split; [|split; [|split]].
  - intros E H. rewrite E, H. simpl. apply drop_column_spec.
  - intros E H1 H2. rewrite E, H1, H2. simpl. apply drop_column_spec.
  - intros E. now rewrite E.
  - intros H1 H2. rewrite H1, H2. now rewrite !andb_false_r.
Qed.

Lemma X10_drop_rnum_removes_row_number_witness :
  Services.df_empty
    {| Services.df_columns := ["ID"; "NAME"; "RNUM"];
       Services.df_rows := [[Models.SInt 7; Models.SStr "a"; Models.SInt 1]] |}
  = false
  /\ Services.has_column "RNUM"
       {| Services.df_columns := ["ID"; "NAME"; "RNUM"];
          Services.df_rows :=
            [[Models.SInt 7; Models.SStr "a"; Models.SInt 1]] |} = true
  /\ Services.drop_rnum
       {| Services.df_columns := ["ID"; "NAME"; "RNUM"];
          Services.df_rows :=
            [[Models.SInt 7; Models.SStr "a"; Models.SInt 1]] |}
     = {| Services.df_columns := ["ID"; "NAME"];
          Services.df_rows := [[Models.SInt 7; Models.SStr "a"]] |}
  /\ Services.has_column "RNUM"
       (Services.drop_rnum
          {| Services.df_columns := ["ID"; "NAME"; "RNUM"];
             Services.df_rows :=
               [[Models.SInt 7; Models.SStr "a"; Models.SInt 1]] |}) = false.
Proof.
  split; [reflexivity|]. split; [reflexivity|]. split; [reflexivity|].
  apply (proj1 (X10_drop_rnum_removes_row_number
                  {| Services.df_columns := ["ID"; "NAME"; "RNUM"];
                     Services.df_rows :=
                       [[Models.SInt 7; Models.SStr "a"; Models.SInt 1]] |}));
    reflexivity.
Defined.

Lemma keep_identifier_chars_spec (s : string) :
  DataService.keep_identifier_chars s = MoreProps.identifier_part s.
Proof.
  unfold MoreProps.identifier_part.
  induction s as [|c s IH]; [reflexivity|].
  cbn [DataService.keep_identifier_chars list_ascii_of_string filter].
  unfold MoreProps.identifier_char at 1.
  destruct (PyStr.isalnum c || Ascii.eqb c "_")%bool;
    cbn [string_of_list_ascii]; now rewrite IH.
Qed.

Lemma upper_desc_nonempty (d : string) :
  String.eqb (PyStr.upper d) "DESC" = true -> String.eqb d "" = false.
Proof. destruct d; [discriminate | reflexivity]. Qed.

(** X11. Sorting only appends to the query.  Without a sort column (none,
    or the empty text) the query is unchanged.  With a sort column the
    appended text is exactly [ORDER BY], the identifier characters of the
    column (alphanumeric or underscore) in their order, and [DESC] when
    the requested direction reads DESC once upper-cased, [ASC] otherwise.
    The column text kept is always an identifier, it is the column itself
    when that already is one, and it is empty when the column has no such
    character. *)
Theorem X11_sort_fragment_is_an_identifier
  (request : Models.FilteredQueryRequest) (q : string) :
  (Models.sort_column request = None -> DataService.sort_query request q = q)
  /\ (Models.sort_column request = Some "" ->
      DataService.sort_query request q = q)
  /\ (forall col,
         Models.sort_column request = Some col ->
         String.eqb col "" = false ->
         DataService.sort_query request q
         = q ++ " ORDER BY " ++ MoreProps.identifier_part col ++ " "
             ++ (if MoreProps.wants_descending request then "DESC" else "ASC"))
  /\ (forall col,
         MoreProps.identifier_only (MoreProps.identifier_part col) = true
         /\ (MoreProps.identifier_only col = true ->
             MoreProps.identifier_part col = col)).
Proof.
  unfold DataService.sort_query. split; [|split; [|split]].
  - now intros ->.
  - now intros ->.
  - intros col -> Hne. rewrite Hne. cbn [negb]. cbv zeta.
    rewrite keep_identifier_chars_spec. do 3 f_equal.
    unfold MoreProps.wants_descending.
    destruct (Models.sort_direction request) as [d|]; [|reflexivity].
    destruct (String.eqb (PyStr.upper d) "DESC") eqn:E;
      [|now rewrite andb_false_r].
    now rewrite (upper_desc_nonempty d E).
  - intros col. rewrite <- keep_identifier_chars_spec. split.
    + apply keep_identifier_chars_only.
    + apply keep_identifier_chars_fixed.
Qed.

Lemma X11_sort_fragment_is_an_identifier_witness :
  DataService.sort_query
    (MoreProps.request_sorted_by "name; DROP TABLE t --" (Some "desc"))
    "SELECT * FROM t"
  = "SELECT * FROM t ORDER BY nameDROPTABLEt DESC"
  /\ DataService.sort_query
       (MoreProps.request_sorted_by "--" (Some "down")) "SELECT * FROM t"
     = "SELECT * FROM t ORDER BY  ASC"
  /\ DataService.sort_query
       (MoreProps.request_sorted_by "name; DROP TABLE t --" (Some "desc"))
       "SELECT * FROM t"
     = "SELECT * FROM t" ++ " ORDER BY "
       ++ MoreProps.identifier_part "name; DROP TABLE t --" ++ " "
       ++ (if MoreProps.wants_descending
                (MoreProps.request_sorted_by "name; DROP TABLE t --"
                   (Some "desc"))
           then "DESC" else "ASC").
Proof.
  split; [reflexivity|]. split; [reflexivity|].
  apply (proj1 (proj2 (proj2 (X11_sort_fragment_is_an_identifier
                  (MoreProps.request_sorted_by "name; DROP TABLE t --"
                     (Some "desc"))
                  "SELECT * FROM t"))) "name; DROP TABLE t --");
    reflexivity.
Defined.

Section MoreFiltered.
Import PyStr SqlUtils Models Services DataService Props MoreProps.

Variable db_state : Type.
Variable cursor_run :
  string -> db_state -> result (list string * list (list scalar)) * db_state.
Variable get_query_by_id : Z -> db_state -> option string * db_state.
Variable float_str : spec_float -> string.
Variable list_str : list scalar -> string.

Lemma resolve_sql_text (request : FilteredQueryRequest) (sql : string)
  (st : db_state) :
  no_query_id request = true ->
  sql_query request = Some sql -> String.eqb sql "" = false ->
  resolve_base_query get_query_by_id request st
  = match validate_sql (rstrip_semicolon (strip sql)) with
    | Ok _ => (Ok (rstrip_semicolon (strip sql)), st)
    | Raise e => (Raise e, st)
    end.
Proof.
  unfold no_query_id, resolve_base_query. intros Hid Hsql Hne.
  rewrite Hsql, Hne. simpl.
  destruct (query_id request) as [id|]; [rewrite Hid; simpl|];
    unfold bind, lift, ret;
    now destruct (validate_sql (rstrip_semicolon (strip sql))).
Qed.

Lemma resolve_nothing (request : FilteredQueryRequest) (st : db_state) :
  no_query_id request = true -> no_sql_query request = true ->
  resolve_base_query get_query_by_id request st
  = (Raise (ValueError "Either query_id or sql_query must be provided"), st).
Proof.
  unfold no_query_id, no_sql_query, resolve_base_query. intros Hid Hsql.
  destruct (query_id request) as [id|]; [rewrite Hid; simpl|];
    destruct (sql_query request) as [sql|]; try rewrite Hsql; reflexivity.
Qed.

Lemma resolve_stored (request : FilteredQueryRequest) (st : db_state) :
  no_query_id request = false ->
  resolve_base_query get_query_by_id request st
  = resolve_base_query get_query_by_id (without_sql_query request) st.
Proof.
  unfold no_query_id, resolve_base_query, without_sql_query. simpl.
  destruct (query_id request) as [id|]; [|discriminate].
  intros ->. reflexivity.
Qed.

Lemma resolve_missing (request : FilteredQueryRequest) (id : Z)
  (st st1 : db_state) :
  query_id request = Some id -> (id =? 0) = false ->
  get_query_by_id id st = (None, st1) ->
  resolve_base_query get_query_by_id request st
  = (Raise (ValueError "Query not found"), st1).
Proof.
  unfold resolve_base_query. intros -> -> Hg. simpl. unfold bind.
  now rewrite Hg.
Qed.

Lemma filtered_stops_at_resolution (request : FilteredQueryRequest)
  (st st1 : db_state) (e : exn) :
  resolve_base_query get_query_by_id request st = (Raise e, st1) ->
  execute_filtered_query cursor_run get_query_by_id float_str list_str
    request st
  = (failure (str_exn e), st1).
Proof.
  intros H. unfold execute_filtered_query, filtered_body, bind. now rewrite H.
Qed.

Lemma execute_query_keys (q : string) (st st' : db_state)
  (rows : list row_dict) :
  execute_query cursor_run q st = (Ok rows, st') ->
  Forall lacks_upper_total_count rows.
Proof.
  unfold execute_query, bind, ret. intros H.
  destruct (cursor_run (rstrip_semicolon (strip q)) st)
    as [[[cols data] | e] st1]; [|discriminate].
  simpl in H. destruct cols as [|c cols]; inversion H; subst; [constructor|].
  apply Forall_forall. intros row Hrow.
  apply in_map_iff in Hrow as (r & <- & _).
  apply (dict_get_lower_keys (c :: cols) r).
Qed.

Lemma count_without_column (q : string) (df : DataFrame) (offset : Z)
  (st1 st2 : db_state) (row : row_dict) (rest : list row_dict) :
  execute_query cursor_run (count_query_of q) st1 = (Ok (row :: rest), st2) ->
  dict_get "total_count" row = None ->
  count_rows cursor_run q df offset st1 = (Ok (SInt 0), st2).
Proof.
  intros He Hk. pose proof (execute_query_keys _ _ _ _ He) as Hkeys.
  inversion Hkeys as [|? ? Hrow _]; subst. unfold lacks_upper_total_count in Hrow.
  unfold count_rows. rewrite He. simpl. rewrite Hk. simpl.
  unfold count_fallback. now rewrite Hrow.
Qed.

End MoreFiltered.

(** X12. A filtered request made of SQL text that the validator rejects is
    answered with the failure of the validator before any statement is
    run: the database is left in the state it was in. *)
Theorem X12_rejected_sql_never_reaches_database
  (db_state : Type)
  (cursor_run : string -> db_state ->
                result (list string * list (list Models.scalar)) * db_state)
  (get_query_by_id : Z -> db_state -> option string * db_state)
  (float_str : spec_float -> string) (list_str : list Models.scalar -> string)
  (request : Models.FilteredQueryRequest) (sql : string) (e : exn)
  (st : db_state) :
  MoreProps.no_query_id request = true ->
  Models.sql_query request = Some sql ->
  String.eqb sql "" = false ->
  SqlUtils.validate_sql (PyStr.rstrip_semicolon (PyStr.strip sql)) = Raise e ->
  DataService.execute_filtered_query cursor_run get_query_by_id float_str
    list_str request st
  = (Models.failure (Services.str_exn e), st).
Proof.
  intros Hid Hsql Hne Hv. apply filtered_stops_at_resolution.
  rewrite (resolve_sql_text db_state get_query_by_id request sql st Hid Hsql Hne).
  now rewrite Hv.
Qed.

Lemma X12_rejected_sql_never_reaches_database_witness :
  MoreProps.no_query_id (Props.request_for "DELETE FROM app_users" None) = true
  /\ Models.sql_query (Props.request_for "DELETE FROM app_users" None)
     = Some "DELETE FROM app_users"
  /\ String.eqb "DELETE FROM app_users" "" = false
  /\ SqlUtils.validate_sql
       (PyStr.rstrip_semicolon (PyStr.strip "DELETE FROM app_users"))
     = Props.rejected
  /\ DataService.execute_filtered_query MoreProps.db_unreachable
       (MoreProps.stored_queries None) Props.no_float_str Props.no_list_str
       (Props.request_for "DELETE FROM app_users" None) 0%nat
     = (Models.failure
          "400: Unsafe SQL detected. Only read-only SELECT queries are permitted.",
        0%nat).
Proof.
  split; [reflexivity|]. split; [reflexivity|]. split; [reflexivity|].
  split; [reflexivity|].
  apply (X12_rejected_sql_never_reaches_database nat MoreProps.db_unreachable
           (MoreProps.stored_queries None) Props.no_float_str
           Props.no_list_str
           (Props.request_for "DELETE FROM app_users" None)
           "DELETE FROM app_users"
           (HTTPException SqlUtils.HTTP_400_BAD_REQUEST
              SqlUtils.unsafe_sql_detail) 0%nat); reflexivity.
Defined.

(** X13. How a filtered request names its query: with neither a query
    identifier nor SQL text (0 and the empty text count as absent) it
    fails with "Either query_id or sql_query must be provided" and runs
    nothing; an identifier with no active stored query fails with "Query
    not found"; and when an identifier is given the SQL text of the
    request plays no part. *)
Theorem X13_filtered_request_resolution
  (db_state : Type)
  (cursor_run : string -> db_state ->
                result (list string * list (list Models.scalar)) * db_state)
  (get_query_by_id : Z -> db_state -> option string * db_state)
  (float_str : spec_float -> string) (list_str : list Models.scalar -> string)
  (request : Models.FilteredQueryRequest) (st : db_state) :
  (MoreProps.no_query_id request = true ->
   MoreProps.no_sql_query request = true ->
   DataService.execute_filtered_query cursor_run get_query_by_id float_str
     list_str request st
   = (Models.failure "Either query_id or sql_query must be provided", st))
  /\ (forall id st1,
         Models.query_id request = Some id -> (id =? 0) = false ->
         get_query_by_id id st = (None, st1) ->
         DataService.execute_filtered_query cursor_run get_query_by_id
           float_str list_str request st
         = (Models.failure "Query not found", st1))
  /\ (MoreProps.no_query_id request = false ->
      DataService.execute_filtered_query cursor_run get_query_by_id float_str
        list_str request st
      = DataService.execute_filtered_query cursor_run get_query_by_id
          float_str list_str (MoreProps.without_sql_query request) st).
Proof.
  split; [|split].
  - intros Hid Hsql.
    apply (filtered_stops_at_resolution db_state cursor_run get_query_by_id
             float_str list_str request st st
             (ValueError "Either query_id or sql_query must be provided")).
    now apply resolve_nothing.
  - intros id st1 Hid Hne Hg.
    apply (filtered_stops_at_resolution db_state cursor_run get_query_by_id
             float_str list_str request st st1 (ValueError "Query not found")).
    now apply resolve_missing with id.
  - intros Hid.
    unfold DataService.execute_filtered_query, DataService.filtered_body.
    unfold DataService.bind at 1 6.
    now rewrite (resolve_stored db_state get_query_by_id request st Hid).
Qed.

Lemma X13_filtered_request_resolution_witness :
  Models.query_id
    {| Models.query_id := Some 12; Models.sql_query := Some "SELECT 1 FROM dual";
       Models.filters := None; Models.limit := 10; Models.offset := 0;
       Models.sort_column := None; Models.sort_direction := None |} = Some 12
  /\ (12 =? 0) = false
  /\ MoreProps.stored_queries None 12 0%nat = (None, 0%nat)
  /\ DataService.execute_filtered_query MoreProps.db_unreachable
       (MoreProps.stored_queries None) Props.no_float_str Props.no_list_str
       {| Models.query_id := Some 12;
          Models.sql_query := Some "SELECT 1 FROM dual";
          Models.filters := None; Models.limit := 10; Models.offset := 0;
          Models.sort_column := None; Models.sort_direction := None |} 0%nat
     = (Models.failure "Query not found", 0%nat).
Proof.
  split; [reflexivity|]. split; [reflexivity|]. split; [reflexivity|].
  apply (proj1 (proj2 (X13_filtered_request_resolution nat
                         MoreProps.db_unreachable
                         (MoreProps.stored_queries None) Props.no_float_str
                         Props.no_list_str
                         {| Models.query_id := Some 12;
                            Models.sql_query := Some "SELECT 1 FROM dual";
                            Models.filters := None; Models.limit := 10;
                            Models.offset := 0; Models.sort_column := None;
                            Models.sort_direction := None |} 0%nat))
           12 0%nat); reflexivity.
Defined.

(** X14. [DatabaseManager.execute_query] lower-cases the column names, so
    no row it returns has a key TOTAL_COUNT: the upper-case lookups of
    the count handlers never succeed, and when the count statement of
    [execute_query_for_table] answers without a [total_count] column the
    total is 0. *)
Theorem X14_fetched_rows_have_lower_case_keys
  (db_state : Type)
  (cursor_run : string -> db_state ->
                result (list string * list (list Models.scalar)) * db_state) :
  (forall q st st' rows,
      DataService.execute_query cursor_run q st = (Ok rows, st') ->
      Forall MoreProps.lacks_upper_total_count rows)
  /\ (forall q df offset st1 st2 row rest,
         DataService.execute_query cursor_run (Services.count_query_of q) st1
         = (Ok (row :: rest), st2) ->
         Services.dict_get "total_count" row = None ->
         DataService.count_rows cursor_run q df offset st1
         = (Ok (Models.SInt 0), st2)).
Proof.
  split; intros.
  - eapply execute_query_keys; eassumption.
  - eapply count_without_column; eassumption.
Qed.

Lemma X14_fetched_rows_have_lower_case_keys_witness :
  DataService.execute_query
    (Props.db_one_row ["TOTAL_COUNT"] [Models.SInt 5]) "SELECT 1" tt
  = (Ok [[("total_count", Models.SInt 5)]], tt)
  /\ Forall MoreProps.lacks_upper_total_count
       [[("total_count", Models.SInt 5)]].
Proof.
  split; [reflexivity|].
  apply (proj1 (X14_fetched_rows_have_lower_case_keys unit
                  (Props.db_one_row ["TOTAL_COUNT"] [Models.SInt 5]))
           "SELECT 1" tt tt). reflexivity.
Defined.

(* ================================================================== *)
(** * Further properties of the comparator *)
(* ================================================================== *)

Section MoreComparator.
Import PyStr ExcelCompare Props MoreProps.

Local Arguments take : simpl never.

Lemma take_length (n : nat) (s : string) : (String.length (take n s) <= n)%nat.
Proof.
  revert s. induction n as [|n IH]; intros s; [simpl; lia|].
  destruct s as [|c s]; simpl; [lia|]. specialize (IH s). lia.
Qed.

Section Records.
Variables sheet1 sheet2 : Sheet.
Variable ext : Extents.
Variable sheet_name : string.
Variable cap : Z.

Lemma scan_row_records (row : Z) (cols : list Z) (diffs diffs' : list Difference) :
  Forall (well_formed_difference sheet_name) diffs ->
  scan_row sheet1 sheet2 ext sheet_name cap row cols diffs = Ok diffs' ->
  Forall (well_formed_difference sheet_name) diffs'.
Proof.
  revert diffs. induction cols as [|col cols IH]; intros diffs Hw H; simpl in H.
  - now inversion H; subst.
  - destruct (read_pair sheet1 sheet2 ext row col) as [[v1 v2] | e];
      [|now apply IH with diffs].
    destruct (stringify v1 v2) as [s1 s2].
    destruct (negb (String.eqb s1 s2)); [|now apply IH with diffs].
    destruct (cap_reached cap diffs); [now inversion H; subst|].
    destruct (get_column_letter col) as [letters | e]; [|discriminate].
    eapply IH; [|exact H].
    apply Forall_app. split; [exact Hw|]. constructor; [|constructor].
    unfold well_formed_difference. simpl.
    repeat split; apply take_length.
Qed.

Lemma scan_rows_records (rows cols : list Z) (diffs diffs' : list Difference) :
  Forall (well_formed_difference sheet_name) diffs ->
  scan_rows sheet1 sheet2 ext sheet_name cap rows cols diffs = Ok diffs' ->
  Forall (well_formed_difference sheet_name) diffs'.
Proof.
  revert diffs. induction rows as [|row rows IH]; intros diffs Hw H; simpl in H.
  - now inversion H; subst.
  - destruct (scan_row sheet1 sheet2 ext sheet_name cap row cols diffs)
      as [d | e] eqn:Er; [|discriminate].
    pose proof (scan_row_records _ _ _ _ Hw Er) as Hd.
    destruct (cap_reached cap d); [now inversion H; subst|].
    now apply IH with d.
Qed.

(** With a cap of zero or less nothing is ever recorded. *)
Lemma scan_row_no_room (row : Z) (cols : list Z) (diffs' : list Difference) :
  cap <= 0 ->
  scan_row sheet1 sheet2 ext sheet_name cap row cols [] = Ok diffs' ->
  diffs' = [].
Proof.
  intros Hcap. induction cols as [|col cols IH]; intros H; simpl in H.
  - now inversion H.
  - destruct (read_pair sheet1 sheet2 ext row col) as [[v1 v2] | e];
      [|now apply IH].
    destruct (stringify v1 v2) as [s1 s2].
    destruct (negb (String.eqb s1 s2)); [|now apply IH].
    assert (C : cap_reached cap [] = true).
    { unfold cap_reached. simpl. apply Z.geb_le. lia. }
    rewrite C in H. now inversion H.
Qed.

Lemma scan_rows_no_room (rows cols : list Z) (diffs' : list Difference) :
  cap <= 0 ->
  scan_rows sheet1 sheet2 ext sheet_name cap rows cols [] = Ok diffs' ->
  diffs' = [].
Proof.
  intros Hcap. induction rows as [|row rows IH]; intros H; simpl in H.
  - now inversion H.
  - destruct (scan_row sheet1 sheet2 ext sheet_name cap row cols [])
      as [d | e] eqn:Er; [|discriminate].
    apply (scan_row_no_room _ _ _ Hcap) in Er. subst d.
    destruct (cap_reached cap []); [now inversion H | now apply IH].
Qed.

End Records.

Lemma compare_sheets_shape (sheet1 sheet2 : Sheet) (name : string) (cap : Z) :
  let r := compare_sheets sheet1 sheet2 name cap in
  sheet r = name
  /\ Forall (well_formed_difference name) (differences r)
  /\ ((status r = "matched" /\ differences r = [])
      \/ (status r = "comparison_error" /\ differences r = [])
      \/ (status r = "not matched" /\ exists d ds, differences r = d :: ds)).
Proof.
  unfold compare_sheets, compare_sheets_body, compare_with_extents.
  destruct (read_extents sheet1 sheet2) as [ext | e]; simpl;
    try (split; [reflexivity|]; split; [constructor | tauto]).
  destruct (both_empty sheet1 sheet2 ext) as [[|] | e]; simpl;
    try (split; [reflexivity|]; split; [constructor | tauto]).
  destruct (py_max (max_row1 ext) (max_row2 ext)) as [rows | e]; simpl;
    try (split; [reflexivity|]; split; [constructor | tauto]).
  destruct (py_max (max_col1 ext) (max_col2 ext)) as [cols | e]; simpl;
    try (split; [reflexivity|]; split; [constructor | tauto]).
  match goal with
  | |- context [scan_rows ?a ?b ?x ?c ?d ?rs ?cs []] =>
      destruct (scan_rows a b x c d rs cs []) as [[|d0 diffs] | e] eqn:E
  end; simpl; try (split; [reflexivity|]; split; [constructor | tauto]).
  split; [reflexivity|]. split.
  - eapply scan_rows_records; [|exact E]. constructor.
  - right; right. split; [reflexivity | now eexists; eexists].
Qed.

Lemma compare_sheets_no_room (sheet1 sheet2 : Sheet) (name : string) (cap : Z) :
  cap <= 0 ->
  differences (compare_sheets sheet1 sheet2 name cap) = []
  /\ (status (compare_sheets sheet1 sheet2 name cap) = "matched"
      \/ status (compare_sheets sheet1 sheet2 name cap) = "comparison_error").
Proof.
  intros Hcap.
  unfold compare_sheets, compare_sheets_body, compare_with_extents.
  destruct (read_extents sheet1 sheet2) as [ext | e]; simpl; try tauto.
  destruct (both_empty sheet1 sheet2 ext) as [[|] | e]; simpl; try tauto.
  destruct (py_max (max_row1 ext) (max_row2 ext)) as [rows | e]; simpl;
    try tauto.
  destruct (py_max (max_col1 ext) (max_col2 ext)) as [cols | e]; simpl;
    try tauto.
  match goal with
  | |- context [scan_rows ?a ?b ?x ?c ?d ?rs ?cs []] =>
      destruct (scan_rows a b x c d rs cs []) as [diffs | e] eqn:E
  end; simpl; try tauto.
  apply (scan_rows_no_room _ _ _ _ _ _ _ _ Hcap) in E. subst diffs.
  simpl. tauto.
Qed.

End MoreComparator.

(** X15. The result of [compare_sheets] carries the sheet name and is of
    one of three kinds: [matched] or [comparison_error] with no
    differences, or [not matched] with at least one; every difference
    names the sheet, has status [not matched], and shows at most 100
    characters of each value. *)
Theorem X15_sheet_result_shape
  (sheet1 sheet2 : ExcelCompare.Sheet) (name : string) (cap : Z) :
  ExcelCompare.sheet (ExcelCompare.compare_sheets sheet1 sheet2 name cap)
  = name
  /\ Forall (MoreProps.well_formed_difference name)
       (ExcelCompare.differences
          (ExcelCompare.compare_sheets sheet1 sheet2 name cap))
  /\ ((ExcelCompare.status
         (ExcelCompare.compare_sheets sheet1 sheet2 name cap) = "matched"
       /\ ExcelCompare.differences
            (ExcelCompare.compare_sheets sheet1 sheet2 name cap) = [])
      \/ (ExcelCompare.status
            (ExcelCompare.compare_sheets sheet1 sheet2 name cap)
          = "comparison_error"
          /\ ExcelCompare.differences
               (ExcelCompare.compare_sheets sheet1 sheet2 name cap) = [])
      \/ (ExcelCompare.status
            (ExcelCompare.compare_sheets sheet1 sheet2 name cap)
          = "not matched"
          /\ exists d ds,
               ExcelCompare.differences
                 (ExcelCompare.compare_sheets sheet1 sheet2 name cap)
               = d :: ds)).
Proof. apply compare_sheets_shape. Qed.

(** X16. With a cap of zero or less [compare_sheets] records nothing:
    sheets that differ are then reported as [matched]. *)
Theorem X16_zero_cap_hides_differences
  (sheet1 sheet2 : ExcelCompare.Sheet) (name : string) (cap : Z) :
  cap <= 0 ->
  ExcelCompare.differences
    (ExcelCompare.compare_sheets sheet1 sheet2 name cap) = []
  /\ (ExcelCompare.status
        (ExcelCompare.compare_sheets sheet1 sheet2 name cap) = "matched"
      \/ ExcelCompare.status
           (ExcelCompare.compare_sheets sheet1 sheet2 name cap)
         = "comparison_error").
Proof. apply compare_sheets_no_room. Qed.

Lemma X16_zero_cap_hides_differences_witness :
  0 <= 0
  /\ ExcelCompare.status
       (ExcelCompare.compare_sheets Props.zeros Props.ones "A" 0) = "matched"
  /\ ExcelCompare.differences
       (ExcelCompare.compare_sheets Props.zeros Props.ones "A" 0) = []
  /\ (ExcelCompare.status
        (ExcelCompare.compare_sheets Props.zeros Props.ones "A" 0) = "matched"
      \/ ExcelCompare.status
           (ExcelCompare.compare_sheets Props.zeros Props.ones "A" 0)
         = "comparison_error").
Proof.
  split; [lia|]. split; [vm_compute; reflexivity|].
  apply (X16_zero_cap_hides_differences Props.zeros Props.ones "A" 0). lia.
Defined.

Section MoreWorkbooks.
Import PyStr ExcelCompare Props MoreProps.

Lemma mem_true_in (n : string) (names : list string) :
  mem n names = true -> In n names.
Proof.
  unfold mem. intros H. apply existsb_exists in H as (m & Hin & E).
  apply String.eqb_eq in E. now subst.
Qed.

Lemma count_matched_cons (r : SheetResult) (rs : list SheetResult) :
  count_matched (r :: rs)
  = (if String.eqb (status r) "matched" then 1 else 0) + count_matched rs.
Proof.
  unfold count_matched, len. simpl.
  destruct (String.eqb (status r) "matched"); simpl List.length; lia.
Qed.

Lemma count_matched_app (a b : list SheetResult) :
  count_matched (a ++ b) = count_matched a + count_matched b.
Proof.
  induction a as [|r a IH]; [reflexivity|].
  simpl app. rewrite !count_matched_cons, IH. lia.
Qed.

Lemma count_matched_bounds (rs : list SheetResult) :
  0 <= count_matched rs <= len rs.
Proof.
  induction rs as [|r rs IH]; [unfold count_matched, len; simpl; lia|].
  rewrite count_matched_cons. unfold len in *. simpl List.length.
  destruct (String.eqb (status r) "matched"); lia.
Qed.

Lemma count_matched_full (rs : list SheetResult) :
  count_matched rs = len rs -> Forall is_matched rs.
Proof.
  induction rs as [|r rs IH]; [constructor|].
  rewrite count_matched_cons. pose proof (count_matched_bounds rs) as B.
  unfold len in *. simpl List.length.
  destruct (String.eqb (status r) "matched") eqn:E; intros H; [|lia].
  constructor; [now apply String.eqb_eq | apply IH; lia].
Qed.

Lemma count_matched_missing (f : string -> SheetResult) (l : list string) :
  (forall n, String.eqb (status (f n)) "matched" = false) ->
  count_matched (map f l) = 0.
Proof.
  intros Hf. induction l as [|n l IH]; [reflexivity|].
  simpl map. rewrite count_matched_cons, Hf, IH. reflexivity.
Qed.

Lemma compare_loop_counts (wb1 wb2 : Workbook) (names : list string)
  (results : list SheetResult) (matched : Z) :
  exists rs,
    compare_loop wb1 wb2 names results matched
    = ((results ++ rs)%list, matched + count_matched rs)
    /\ List.length rs = List.length names.
Proof.
  revert results matched.
  induction names as [|n names IH]; intros results matched.
  - exists []. simpl. rewrite app_nil_r. unfold count_matched, len. simpl.
    now rewrite Z.add_0_r.
  - simpl.
    destruct (mem n (sheetnames wb1) && mem n (sheetnames wb2))%bool eqn:E.
    + apply andb_true_iff in E as [E1 E2].
      destruct (get_sheet_some wb1 n (mem_true_in _ _ E1)) as (sh1 & -> & _).
      destruct (get_sheet_some wb2 n (mem_true_in _ _ E2)) as (sh2 & -> & _).
      set (r := compare_sheets sh1 sh2 n default_max_differences).
      destruct (IH (results ++ [r])%list
                   (if String.eqb (status r) "matched"
                    then matched + 1 else matched)) as (rs & -> & L).
      exists (r :: rs). rewrite <- app_assoc. simpl. split; [|now rewrite L].
      apply f_equal. rewrite count_matched_cons.
      destruct (String.eqb (status r) "matched"); lia.
    + destruct (IH (results ++ [mismatch_record wb1 wb2 n])%list matched)
        as (rs & -> & L).
      exists (mismatch_record wb1 wb2 n :: rs). rewrite <- app_assoc. simpl.
      split; [|now rewrite L]. apply f_equal. rewrite count_matched_cons.
      simpl. lia.
Qed.

Lemma compare_loop_no_mismatch (wb1 wb2 : Workbook) (names : list string)
  (results : list SheetResult) (matched : Z) :
  (forall n, In n names ->
             mem n (sheetnames wb1) = true /\ mem n (sheetnames wb2) = true) ->
  Forall no_sheet_mismatch results ->
  Forall no_sheet_mismatch (fst (compare_loop wb1 wb2 names results matched)).
Proof.
  revert results matched.
  induction names as [|n names IH]; intros results matched Hin H; [exact H|].
  simpl. destruct (Hin n (or_introl eq_refl)) as [E1 E2]. rewrite E1, E2. simpl.
  assert (Hrest : forall m, In m names ->
            mem m (sheetnames wb1) = true /\ mem m (sheetnames wb2) = true)
    by (intros m Hm; apply Hin; now right).
  destruct (get_sheet wb1 n) as [sh1|]; [|now apply IH].
  destruct (get_sheet wb2 n) as [sh2|]; [|now apply IH].
  apply IH; [exact Hrest|]. apply Forall_app. split; [exact H|].
  constructor; [|constructor]. unfold no_sheet_mismatch.
  destruct (compare_sheets_shape sh1 sh2 n default_max_differences)
    as (_ & _ & [[-> _] | [[-> _] | [-> _]]]); reflexivity.
Qed.

Lemma set_iter_empty (set_iter : list string -> list string) (l : list string) :
  (forall l, Permutation l (set_iter l)) ->
  set_iter l = [] -> l = [].
Proof.
  intros Hperm E. pose proof (Hperm l) as P. rewrite E in P.
  now apply Permutation_sym, Permutation_nil in P.
Qed.

Lemma nodup_empty (l : list string) : nodup string_dec l = [] -> l = [].
Proof.
  destruct l as [|x l]; [reflexivity|]. intros H. exfalso.
  assert (I : In x (nodup string_dec (x :: l)))
    by (apply nodup_In; now left).
  rewrite H in I. exact I.
Qed.

Lemma in_range1 (x n : Z) : In x (range1 n) -> 1 <= x <= n.
Proof.
  unfold range1. intros H. apply in_map_iff in H as (k & <- & Hk).
  apply in_seq in Hk. lia.
Qed.

Lemma scan_row_agree (sheet1 sheet2 : Sheet) (ext : Extents) (name : string)
  (cap row : Z) (cols : list Z) (diffs : list Difference) :
  (forall col, In col cols -> agree_at sheet1 sheet2 ext row col) ->
  scan_row sheet1 sheet2 ext name cap row cols diffs = Ok diffs.
Proof.
  induction cols as [|col cols IH]; intros H; [reflexivity|].
  assert (Hrest : forall c, In c cols -> agree_at sheet1 sheet2 ext row c)
    by (intros c Hc; apply H; now right).
  cbn [scan_row].
  destruct (H col (or_introl eq_refl)) as [[e ->] | (v1 & v2 & -> & S)];
    [now apply IH|].
  destruct (stringify v1 v2) as [s1 s2]. simpl in S. rewrite S. simpl.
  now apply IH.
Qed.

Lemma scan_rows_agree (sheet1 sheet2 : Sheet) (ext : Extents) (name : string)
  (cap : Z) (rows cols : list Z) (diffs : list Difference) :
  (forall row col, In row rows -> In col cols ->
                   agree_at sheet1 sheet2 ext row col) ->
  scan_rows sheet1 sheet2 ext name cap rows cols diffs = Ok diffs.
Proof.
  induction rows as [|row rows IH]; intros H; [reflexivity|].
  cbn [scan_rows]. rewrite scan_row_agree
    by (intros col Hc; apply H; [now left | exact Hc]).
  destruct (cap_reached cap diffs); [reflexivity|].
  apply IH. intros r c Hr Hc. apply H; [now right | exact Hc].
Qed.

End MoreWorkbooks.

Section MoreCompareFiles.
Import PyStr ExcelCompare Props MoreProps.

Lemma len_zero_nil {A : Type} (l : list A) : len l = 0 -> l = [].
Proof. destruct l; [reflexivity|]. unfold len. simpl. lia. Qed.

Lemma in_mem (n : string) (names : list string) :
  In n names -> mem n names = true.
Proof.
  intros H. unfold mem. apply existsb_exists. exists n.
  split; [exact H | apply String.eqb_refl].
Qed.

Lemma set_inter_in_both (set_iter : list string -> list string)
  (a b : list string) (n : string) :
  (forall l, Permutation l (set_iter l)) ->
  In n (set_inter set_iter a b) -> mem n a = true /\ mem n b = true.
Proof.
  intros Hperm H. unfold set_inter in H.
  apply (Permutation_in _ (Permutation_sym (Hperm _))) in H.
  apply nodup_In, filter_In in H as [Ha Hb].
  split; [now apply in_mem | exact Hb].
Qed.

Lemma compare_excel_files_counts
  (set_iter : list string -> list string) (names_repr : list string -> string)
  (wb1 wb2 : Workbook) (r : CompareResult) :
  compare_excel_files set_iter names_repr wb1 wb2 = Ok r ->
  total_sheets r = len (comparison_results r)
  /\ matched_sheets r = count_matched (comparison_results r)
  /\ (ExcelCompare.success r = true ->
      Forall is_matched (comparison_results r)).
Proof.
  unfold compare_excel_files. cbv zeta.
  set (only1 := set_diff set_iter (sheetnames wb1) (sheetnames wb2)).
  set (only2 := set_diff set_iter (sheetnames wb2) (sheetnames wb1)).
  assert (G : forall names,
    (let (results, matched) := compare_loop wb1 wb2 names [] 0 in
     Ok {| ExcelCompare.success :=
             ((matched =? len names) && (len only1 =? 0)
              && (len only2 =? 0))%bool;
           total_sheets := len names + len only1 + len only2;
           matched_sheets := matched;
           comparison_results :=
             ((results ++ map missing_in_file2 only1)
              ++ map missing_in_file1 only2)%list;
           summary :=
             summary_text (len names + len only1 + len only2) matched |})
    = Ok r ->
    total_sheets r = len (comparison_results r)
    /\ matched_sheets r = count_matched (comparison_results r)
    /\ (ExcelCompare.success r = true ->
        Forall is_matched (comparison_results r))).
  { intros names.
    destruct (compare_loop_counts wb1 wb2 names [] 0) as (rs & -> & L).
    intros [= <-]. cbn [total_sheets matched_sheets comparison_results
                        ExcelCompare.success app].
    split; [|split].
    - unfold len. rewrite !length_app, !length_map. lia.
    - rewrite !count_matched_app, !count_matched_missing by reflexivity. lia.
    - intros S. apply andb_true_iff in S as [S S2].
      apply andb_true_iff in S as [S0 S1].
      apply Z.eqb_eq in S0, S1, S2.
      rewrite (len_zero_nil _ S1), (len_zero_nil _ S2). simpl.
      rewrite !app_nil_r. apply count_matched_full. unfold len in *. lia. }
  destruct (negb (len (sheetnames wb1) =? len (sheetnames wb2))).
  - destruct (set_inter set_iter (sheetnames wb1) (sheetnames wb2)) eqn:E;
      [discriminate|]. apply G.
  - apply G.
Qed.

(** X17. Whenever the comparison of two workbooks returns a result, its
    counters describe the records it carries: [total_sheets] is the number of
    records, [matched_sheets] is the number of records whose status is
    "matched", and [success] is set only when every record is "matched". *)
Theorem X17_summary_counts_describe_records
  (set_iter : list string -> list string) (names_repr : list string -> string)
  (wb1 wb2 : Workbook) (r : CompareResult) :
  compare_excel_files set_iter names_repr wb1 wb2 = Ok r ->
  total_sheets r = len (comparison_results r)
  /\ matched_sheets r = count_matched (comparison_results r)
  /\ (ExcelCompare.success r = true ->
      Forall is_matched (comparison_results r)).
Proof.
  intros H.
  exact (compare_excel_files_counts set_iter names_repr wb1 wb2 r H).
Qed.

Lemma X17_summary_counts_describe_records_witness :
  exists r,
    compare_excel_files in_order no_names_repr data_only small_workbook = Ok r
    /\ total_sheets r = len (comparison_results r)
    /\ matched_sheets r = count_matched (comparison_results r)
    /\ (ExcelCompare.success r = true ->
        Forall is_matched (comparison_results r)).
Proof.
  eexists. split; [reflexivity|].
  apply (X17_summary_counts_describe_records in_order no_names_repr
           data_only small_workbook).
  reflexivity.
Defined.

(** X18. When the two workbooks have different numbers of sheets (and a set
    iterates over exactly its members), the comparison is refused with HTTP
    400 if no sheet name is common to both; otherwise only the common names
    are compared and no record has status "sheet_mismatch". *)
Theorem X18_differing_sheet_counts
  (set_iter : list string -> list string) (names_repr : list string -> string)
  (wb1 wb2 : Workbook) :
  (forall l, Permutation l (set_iter l)) ->
  len (sheetnames wb1) <> len (sheetnames wb2) ->
  (common_names wb1 wb2 = [] ->
   is_http_400 (compare_excel_files set_iter names_repr wb1 wb2))
  /\ (common_names wb1 wb2 <> [] ->
      exists r, compare_excel_files set_iter names_repr wb1 wb2 = Ok r
                /\ Forall no_sheet_mismatch (comparison_results r)).
Proof.
  intros Hperm Hlen. apply Z.eqb_neq in Hlen.
  unfold compare_excel_files. cbv zeta. rewrite Hlen. cbn [negb].
  split.
  - intros E. unfold set_inter. fold (common_names wb1 wb2). rewrite E.
    cbn [nodup].
    assert (E0 : set_iter [] = [])
      by (apply Permutation_nil, Hperm).
    rewrite E0. eexists. reflexivity.
  - intros Hne.
    pose proof (set_inter_in_both set_iter (sheetnames wb1) (sheetnames wb2))
      as Hin.
    destruct (set_inter set_iter (sheetnames wb1) (sheetnames wb2))
      as [|n names] eqn:E.
    + exfalso. apply Hne. unfold set_inter in E.
      apply (set_iter_empty set_iter _ Hperm) in E.
      now apply nodup_empty in E.
    + pose proof (compare_loop_no_mismatch wb1 wb2 (n :: names) [] 0
                    (fun m Hm => Hin m Hperm Hm) (Forall_nil _)) as F.
      destruct (compare_loop wb1 wb2 (n :: names) [] 0) as [results matched].
      eexists. split; [reflexivity|]. cbn [comparison_results].
      apply Forall_app. split; [apply Forall_app; split; [exact F|]|];
        apply Forall_forall; intros x Hx; apply in_map_iff in Hx as (m & <- & _);
        reflexivity.
Qed.

Lemma X18_differing_sheet_counts_witness :
  is_http_400
    (compare_excel_files in_order no_names_repr other_only small_workbook)
  /\ exists r,
       compare_excel_files in_order no_names_repr data_only small_workbook
       = Ok r
       /\ Forall no_sheet_mismatch (comparison_results r).
Proof.
  split.
  - apply (X18_differing_sheet_counts in_order no_names_repr
             other_only small_workbook);
      [intros l; apply Permutation_refl | vm_compute; discriminate
      | reflexivity].
  - apply (X18_differing_sheet_counts in_order no_names_repr
             data_only small_workbook);
      [intros l; apply Permutation_refl | vm_compute; discriminate
      | vm_compute; discriminate].
Defined.

End MoreCompareFiles.

Section MoreClamp.
Import PyStr ExcelCompare Props MoreProps.

Lemma both_empty_large (sheet1 sheet2 : Sheet)
  (rows1 cols1 rows2 cols2 : Z) :
  max_row sheet1 = Ok (Some rows1) -> max_column sheet1 = Ok (Some cols1) ->
  probe_succeeds sheet1 ->
  Z.max rows1 rows2 * Z.max cols1 cols2 > 1000000 ->
  both_empty sheet1 sheet2 (extents_of rows1 cols1 rows2 cols2) = Ok false.
Proof.
  intros Er Ec Hprobe Hbig. unfold both_empty, looks_empty.
  cbn [extents_of max_row1 max_col1 max_row2 max_col2 is_one].
  destruct ((rows1 =? 1) && (cols1 =? 1))%bool eqn:E1; [|reflexivity].
  apply andb_true_iff in E1 as [R1 C1]. apply Z.eqb_eq in R1, C1. subst.
  destruct (Hprobe Er Ec) as [v ->].
  destruct (is_None v); [|reflexivity].
  destruct ((rows2 =? 1) && (cols2 =? 1))%bool eqn:E2; [|reflexivity].
  apply andb_true_iff in E2 as [R2 C2]. apply Z.eqb_eq in R2, C2. subst.
  simpl in Hbig. lia.
Qed.

(** X19. When the larger row count times the larger column count of two
    sheets exceeds 1,000,000, only the first 1000 rows are examined: if the
    sheets agree on every cell of those rows the sheet is reported as
    "matched" with no differences, whatever the later rows hold. *)
Theorem X19_large_sheets_compared_on_first_1000_rows
  (sheet1 sheet2 : Sheet) (name : string) (cap : Z)
  (rows1 cols1 rows2 cols2 : Z) :
  max_row sheet1 = Ok (Some rows1) -> max_column sheet1 = Ok (Some cols1) ->
  max_row sheet2 = Ok (Some rows2) -> max_column sheet2 = Ok (Some cols2) ->
  probe_succeeds sheet1 ->
  Z.max rows1 rows2 * Z.max cols1 cols2 > 1000000 ->
  (forall row col, 1 <= row <= 1000 -> 1 <= col ->
                   agree_at sheet1 sheet2
                     (extents_of rows1 cols1 rows2 cols2) row col) ->
  status (compare_sheets sheet1 sheet2 name cap) = "matched"
  /\ differences (compare_sheets sheet1 sheet2 name cap) = [].
Proof.
  intros Er1 Ec1 Er2 Ec2 Hprobe Hbig Hagree.
  unfold compare_sheets, compare_sheets_body, read_extents.
  rewrite Er1, Ec1, Er2, Ec2. fold (extents_of rows1 cols1 rows2 cols2).
  unfold compare_with_extents.
  rewrite (both_empty_large _ _ _ _ _ _ Er1 Ec1 Hprobe Hbig).
  cbn [extents_of max_row1 max_col1 max_row2 max_col2 py_max]. cbv zeta.
  fold (extents_of rows1 cols1 rows2 cols2).
  replace (Z.max rows1 rows2 * Z.max cols1 cols2 >? 1000000)
    with true by (symmetry; apply Z.gtb_lt; lia).
  rewrite scan_rows_agree; [split; reflexivity|].
  intros row col Hr Hc. apply in_range1 in Hr, Hc.
  apply Hagree; lia.
Qed.

Lemma X19_large_sheets_compared_on_first_1000_rows_witness :
  cell wide_zeros 1001 1 = Ok (CNumber 0)
  /\ cell wide_last_row_ones 1001 1 = Ok (CNumber 1)
  /\ status (compare_sheets wide_zeros wide_last_row_ones "S" 1000) = "matched"
  /\ differences (compare_sheets wide_zeros wide_last_row_ones "S" 1000) = [].
Proof.
  split; [reflexivity|]. split; [reflexivity|].
  apply (X19_large_sheets_compared_on_first_1000_rows
           wide_zeros wide_last_row_ones "S" 1000 1001 1000 1001 1000);
    try reflexivity.
  - intros Hr. discriminate Hr.
  - intros row col Hr Hc. right. unfold read_pair, read_inside. simpl.
    destruct (row <=? 1001); [|exists CEmpty, CEmpty; split; reflexivity].
    destruct (col <=? 1000); [|exists CEmpty, CEmpty; split; reflexivity].
    exists (CNumber 0), (CNumber 0). split; [|reflexivity].
    destruct (Z.eqb_spec row 1001) as [E|_]; [lia | reflexivity].
Defined.

End MoreClamp.

Section MoreSymmetry.
Import PyStr ExcelCompare Props MoreProps.

Lemma read_pair_swap (sheet1 sheet2 : Sheet) (ext : Extents) (row col : Z) :
  ((exists e, read_pair sheet1 sheet2 ext row col = Raise e)
   /\ (exists e, read_pair sheet2 sheet1 (exchanged ext) row col = Raise e))
  \/ (exists v1 v2,
         read_pair sheet1 sheet2 ext row col = Ok (v1, v2)
         /\ read_pair sheet2 sheet1 (exchanged ext) row col = Ok (v2, v1)).
Proof.
  unfold read_pair. cbn [exchanged max_row1 max_col1 max_row2 max_col2].
  destruct (read_inside sheet1 (max_row1 ext) (max_col1 ext) row col)
    as [v1|e1];
    destruct (read_inside sheet2 (max_row2 ext) (max_col2 ext) row col)
      as [v2|e2];
    try (left; split; eexists; reflexivity).
  right. exists v1, v2. split; reflexivity.
Qed.

Lemma stringify_swap (v1 v2 : cell_value) :
  stringify v2 v1 = (snd (stringify v1 v2), fst (stringify v1 v2)).
Proof.
  unfold stringify. destruct (cell_str v1), (cell_str v2); reflexivity.
Qed.

Lemma cap_reached_mirror (cap : Z) (diffs : list Difference) :
  cap_reached cap (map mirror diffs) = cap_reached cap diffs.
Proof. unfold cap_reached. now rewrite length_map. Qed.

Lemma scan_row_swap (sheet1 sheet2 : Sheet) (ext : Extents) (name : string)
  (cap row : Z) (cols : list Z) (diffs : list Difference) :
  scan_row sheet2 sheet1 (exchanged ext) name cap row cols (map mirror diffs)
  = mirrored (scan_row sheet1 sheet2 ext name cap row cols diffs).
Proof.
  revert diffs. induction cols as [|col cols IH]; intros diffs; [reflexivity|].
  cbn [scan_row].
  destruct (read_pair_swap sheet1 sheet2 ext row col)
    as [[[e1 ->] [e2 ->]] | (v1 & v2 & -> & ->)]; [apply IH|].
  rewrite (stringify_swap v1 v2).
  destruct (stringify v1 v2) as [s1 s2]. cbn [fst snd].
  rewrite (String.eqb_sym s2 s1), cap_reached_mirror.
  destruct (negb (String.eqb s1 s2)); [|apply IH].
  destruct (cap_reached cap diffs); [reflexivity|].
  destruct (get_column_letter col) as [letters|e]; [|reflexivity].
  rewrite <- IH. f_equal. rewrite map_app. reflexivity.
Qed.

Lemma scan_rows_swap (sheet1 sheet2 : Sheet) (ext : Extents) (name : string)
  (cap : Z) (rows cols : list Z) (diffs : list Difference) :
  scan_rows sheet2 sheet1 (exchanged ext) name cap rows cols
    (map mirror diffs)
  = mirrored (scan_rows sheet1 sheet2 ext name cap rows cols diffs).
Proof.
  revert diffs. induction rows as [|row rows IH]; intros diffs; [reflexivity|].
  cbn [scan_rows]. rewrite scan_row_swap.
  destruct (scan_row sheet1 sheet2 ext name cap row cols diffs) as [ds|e];
    [|reflexivity].
  cbn [mirrored]. rewrite cap_reached_mirror.
  destruct (cap_reached cap ds); [reflexivity | apply IH].
Qed.

Lemma looks_empty_total (sh : Sheet) (rows cols : Z) :
  max_row sh = Ok (Some rows) -> max_column sh = Ok (Some cols) ->
  probe_succeeds sh ->
  exists b, looks_empty sh (Some rows) (Some cols) = Ok b.
Proof.
  intros Er Ec H. unfold looks_empty. cbn [is_one].
  destruct ((rows =? 1) && (cols =? 1))%bool eqn:E; [|now exists false].
  apply andb_true_iff in E as [R C]. apply Z.eqb_eq in R, C. subst.
  destruct (H Er Ec) as [v ->]. now exists (is_None v).
Qed.

Lemma both_empty_swap (sheet1 sheet2 : Sheet) (rows1 cols1 rows2 cols2 : Z) :
  max_row sheet1 = Ok (Some rows1) -> max_column sheet1 = Ok (Some cols1) ->
  max_row sheet2 = Ok (Some rows2) -> max_column sheet2 = Ok (Some cols2) ->
  probe_succeeds sheet1 -> probe_succeeds sheet2 ->
  both_empty sheet2 sheet1 (extents_of rows2 cols2 rows1 cols1)
  = both_empty sheet1 sheet2 (extents_of rows1 cols1 rows2 cols2).
Proof.
  intros Er1 Ec1 Er2 Ec2 H1 H2. unfold both_empty.
  cbn [extents_of max_row1 max_col1 max_row2 max_col2].
  destruct (looks_empty_total _ _ _ Er1 Ec1 H1) as [b1 ->].
  destruct (looks_empty_total _ _ _ Er2 Ec2 H2) as [b2 ->].
  now destruct b1, b2.
Qed.

(** X20. Exchanging the two sheets of a comparison changes nothing but the
    side on which each value is reported: provided both sheets have
    numeric extents and the emptiness probe of both can be read, the result
    has the same sheet name, cell id, values and status, and its
    differences are those of the original comparison with [value1] and
    [value2] exchanged.  (When an extent is [None] the text of the error
    reported in [value2] depends on the order of the sheets.) *)
Theorem X20_sheet_comparison_is_symmetric
  (sheet1 sheet2 : Sheet) (name : string) (cap : Z) :
  has_extent sheet1 -> has_extent sheet2 ->
  probe_succeeds sheet1 -> probe_succeeds sheet2 ->
  let r := compare_sheets sheet1 sheet2 name cap in
  let r' := compare_sheets sheet2 sheet1 name cap in
  sheet r' = sheet r /\ cell_id r' = cell_id r
  /\ value1 r' = value1 r /\ value2 r' = value2 r
  /\ status r' = status r
  /\ differences r' = map mirror (differences r).
Proof.
  intros (rows1 & cols1 & Er1 & Ec1) (rows2 & cols2 & Er2 & Ec2) H1 H2.
  cbv zeta. unfold compare_sheets, compare_sheets_body, read_extents.
  rewrite Er1, Ec1, Er2, Ec2.
  fold (extents_of rows1 cols1 rows2 cols2).
  fold (extents_of rows2 cols2 rows1 cols1).
  unfold compare_with_extents.
  rewrite (both_empty_swap _ _ _ _ _ _ Er1 Ec1 Er2 Ec2 H1 H2).
  destruct (both_empty sheet1 sheet2 (extents_of rows1 cols1 rows2 cols2))
    as [[|]|e]; [repeat split | | repeat split].
  cbn [extents_of max_row1 max_col1 max_row2 max_col2 py_max]. cbv zeta.
  fold (extents_of rows1 cols1 rows2 cols2).
  fold (extents_of rows2 cols2 rows1 cols1).
  rewrite (Z.max_comm rows2), (Z.max_comm cols2).
  set (rows := range1 _). set (cols := range1 _).
  pose proof (scan_rows_swap sheet1 sheet2
                (extents_of rows1 cols1 rows2 cols2) name cap rows cols [])
    as Hs.
  change (exchanged (extents_of rows1 cols1 rows2 cols2))
    with (extents_of rows2 cols2 rows1 cols1) in Hs.
  change (map mirror []) with (@nil Difference) in Hs.
  rewrite Hs.
  destruct (scan_rows sheet1 sheet2 _ name cap rows cols []) as [[|d ds]|e];
    repeat split.
Qed.

Lemma X20_sheet_comparison_is_symmetric_witness :
  sheet (compare_sheets ones zeros "A" 2) = "A"
  /\ status (compare_sheets ones zeros "A" 2) = "not matched"
  /\ map d_value1 (differences (compare_sheets zeros ones "A" 2)) = ["0"; "0"]
  /\ map d_value1 (differences (compare_sheets ones zeros "A" 2)) = ["1"; "1"]
  /\ String.eqb (value2 (compare_sheets unsized_sheet zeros "A" 2))
       (value2 (compare_sheets zeros unsized_sheet "A" 2)) = false
  /\ differences (compare_sheets ones zeros "A" 2)
     = map mirror (differences (compare_sheets zeros ones "A" 2)).
Proof.
  split; [reflexivity|]. split; [reflexivity|]. split; [reflexivity|].
  split; [reflexivity|]. split; [reflexivity|].
  apply (X20_sheet_comparison_is_symmetric zeros ones "A" 2);
    try (intros Hr; discriminate Hr);
    exists 1001, 1; split; reflexivity.
Defined.

End MoreSymmetry.

Section MoreRoles.
Import PyStr RolesUtils QueryRouter Props MoreProps.

Lemma upper_char_ascii_fold (c : ascii) :
  upper_char (ascii_fold c) = upper_char c.
Proof. all_chars c; reflexivity. Qed.

Lemma upper_ascii_lower (s : string) : upper (ascii_lower s) = upper s.
Proof.
  induction s as [|c s IH]; simpl; [reflexivity|].
  now rewrite upper_char_ascii_fold, IH.
Qed.

Lemma ascii_fold_comma (c : ascii) :
  Ascii.eqb (ascii_fold c) "," = Ascii.eqb c ",".
Proof. all_chars c; reflexivity. Qed.

Lemma isspace_ascii_fold (c : ascii) : isspace (ascii_fold c) = isspace c.
Proof. all_chars c; reflexivity. Qed.

Lemma ascii_lower_is_empty (s : string) :
  String.eqb (ascii_lower s) "" = String.eqb s "".
Proof. now destruct s. Qed.

Lemma lstrip_ascii_lower (s : string) :
  lstrip_by isspace (ascii_lower s) = ascii_lower (lstrip_by isspace s).
Proof.
  induction s as [|c s IH]; simpl; [reflexivity|].
  rewrite isspace_ascii_fold. now destruct (isspace c).
Qed.

Lemma rstrip_ascii_lower (s : string) :
  rstrip_by isspace (ascii_lower s) = ascii_lower (rstrip_by isspace s).
Proof.
  induction s as [|c s IH]; simpl; [reflexivity|].
  rewrite IH, isspace_ascii_fold.
  destruct (rstrip_by isspace s); simpl;
    [now destruct (isspace c) | reflexivity].
Qed.

Lemma strip_ascii_lower (s : string) :
  strip (ascii_lower s) = ascii_lower (strip s).
Proof. unfold strip. now rewrite lstrip_ascii_lower, rstrip_ascii_lower. Qed.

Lemma split_ascii_lower (s : string) :
  split "," (ascii_lower s) = map ascii_lower (split "," s).
Proof.
  induction s as [|c s IH]; [reflexivity|].
  cbn [ascii_lower split]. rewrite ascii_fold_comma, IH.
  destruct (Ascii.eqb c ","); [reflexivity|].
  now destruct (split "," s).
Qed.

Lemma is_admin_ascii_lower (role : string) :
  is_admin (ascii_lower role) = is_admin role.
Proof.
  unfold is_admin. now rewrite ascii_lower_is_empty, upper_ascii_lower.
Qed.

Lemma assigned_roles_ascii_lower (query_role : option string) :
  assigned_roles (option_map ascii_lower query_role)
  = assigned_roles query_role.
Proof.
  unfold assigned_roles.
  destruct query_role as [r|]; [|reflexivity]. cbn [option_map].
  rewrite split_ascii_lower.
  induction (split "," r) as [|p ps IH]; [reflexivity|].
  cbn [map filter]. rewrite strip_ascii_lower, ascii_lower_is_empty.
  destruct (String.eqb (strip p) ""); cbn [negb map]; [exact IH|].
  now rewrite strip_ascii_lower, upper_ascii_lower, IH.
Qed.

Lemma check_query_access_ascii_lower (user_role : string)
  (query_role : option string) :
  check_query_access (ascii_lower user_role)
    (option_map ascii_lower query_role)
  = check_query_access user_role query_role.
Proof.
  unfold check_query_access.
  now rewrite is_admin_ascii_lower, assigned_roles_ascii_lower,
    upper_ascii_lower.
Qed.

(** X21. The access check on a stored query ignores the case of the
    letters A-Z: a user role and a list of query roles that differ from
    another pair only in the case of these letters get the same verdict.
    (Nothing is said of other letters: the check upper-cases, and texts
    that are equal once lower-cased need not be equal once upper-cased.) *)
Theorem X21_access_check_ignores_case
  (user_role user_role' : string) (query_role query_role' : option string) :
  same_up_to_case user_role user_role' ->
  same_roles_up_to_case query_role query_role' ->
  check_query_access user_role query_role
  = check_query_access user_role' query_role'.
Proof.
  unfold same_up_to_case, same_roles_up_to_case. intros Hu Hq.
  rewrite <- (check_query_access_ascii_lower user_role query_role).
  rewrite <- (check_query_access_ascii_lower user_role' query_role').
  now rewrite Hu, Hq.
Qed.

Lemma X21_access_check_ignores_case_witness :
  check_query_access "ceo" (Some "Ceo, finance_user") = Ok tt
  /\ check_query_access "ceo" (Some "Ceo, finance_user")
     = check_query_access "CEO" (Some "CEO, FINANCE_USER").
Proof.
  split; [reflexivity|].
  apply (X21_access_check_ignores_case "ceo" "CEO"
           (Some "Ceo, finance_user") (Some "CEO, FINANCE_USER"));
    reflexivity.
Defined.

Lemma mentions_app (c : ascii) (a b : string) :
  mentions c (a ++ b) = (mentions c a || mentions c b)%bool.
Proof.
  induction a as [|x a IH]; simpl; [reflexivity|].
  now rewrite IH, orb_assoc.
Qed.

Lemma upper_char_comma (c : ascii) :
  mentions "," (upper_char c) = Ascii.eqb c ",".
Proof. all_chars c; reflexivity. Qed.

Lemma upper_mentions_comma (s : string) :
  mentions "," (upper s) = mentions "," s.
Proof.
  induction s as [|c s IH]; simpl; [reflexivity|].
  now rewrite mentions_app, upper_char_comma, IH.
Qed.

Lemma lstrip_by_mentions (c : ascii) (p : ascii -> bool) (s : string) :
  mentions c s = false -> mentions c (lstrip_by p s) = false.
Proof.
  induction s as [|a s IH]; simpl; [reflexivity|]. intros H.
  apply orb_false_iff in H as [Ha Hs].
  destruct (p a); [now apply IH|]. simpl. now rewrite Ha, Hs.
Qed.

Lemma rstrip_by_mentions (c : ascii) (p : ascii -> bool) (s : string) :
  mentions c s = false -> mentions c (rstrip_by p s) = false.
Proof.
  induction s as [|a s IH]; simpl; [reflexivity|]. intros H.
  apply orb_false_iff in H as [Ha Hs]. specialize (IH Hs).
  destruct (rstrip_by p s) as [|d t].
  - destruct (p a); simpl; [reflexivity | now rewrite Ha].
  - simpl. simpl in IH. now rewrite Ha, IH.
Qed.

Lemma split_pieces_free (c : ascii) (s : string) :
  Forall (fun p => mentions c p = false) (split c s).
Proof.
  induction s as [|a s IH]; [now repeat constructor|].
  cbn [split]. destruct (Ascii.eqb a c) eqn:E; [now constructor|].
  destruct (split c s) as [|p ps]; [repeat constructor; simpl; now rewrite E|].
  inversion IH as [|? ? Hp Hps]; subst.
  constructor; [simpl; now rewrite E, Hp | exact Hps].
Qed.

Lemma assigned_roles_free (query_role : option string) :
  Forall (fun r => mentions "," r = false) (assigned_roles query_role).
Proof.
  unfold assigned_roles.
  set (text := match query_role with Some r => r | None => "" end).
  pose proof (split_pieces_free "," text) as F.
  induction F as [|p ps Hp _ IH]; [constructor|].
  cbn [filter]. destruct (negb (String.eqb (strip p) "")); [|exact IH].
  cbn [map]. constructor; [|exact IH].
  rewrite upper_mentions_comma. unfold strip.
  now apply rstrip_by_mentions, lstrip_by_mentions.
Qed.

Lemma in_roles_free (x : string) (roles : list string) :
  mentions "," x = true ->
  Forall (fun r => mentions "," r = false) roles ->
  in_roles x roles = false.
Proof.
  intros Hx F. induction F as [|r rs Hr _ IH]; [reflexivity|].
  unfold in_roles in *. simpl. rewrite IH, orb_false_r.
  destruct (String.eqb_spec x r) as [->|_]; [congruence | reflexivity].
Qed.

(** X22. The access check compares the user's whole role text with each
    role assigned to the query.  A user who is not an administrator and whose
    role text lists several roles separated by commas is therefore refused by
    every query that has assigned roles, even when one of the listed roles
    is assigned. *)
Theorem X22_role_lists_match_no_assigned_role
  (user_role : string) (query_role : option string) :
  mentions "," user_role = true ->
  is_admin user_role = false ->
  assigned_roles query_role <> [] ->
  check_query_access user_role query_role = Raise not_authorised.
Proof.
  intros Hc Ha Hq. unfold check_query_access. rewrite Ha. cbn [negb].
  rewrite (in_roles_free (upper user_role) (assigned_roles query_role));
    [|now rewrite upper_mentions_comma | apply assigned_roles_free].
  now destruct (assigned_roles query_role).
Qed.

Lemma X22_role_lists_match_no_assigned_role_witness :
  check_query_access "ceo" (Some "CEO,FINANCE_USER") = Ok tt
  /\ check_query_access "ceo,finance_user" (Some "CEO,FINANCE_USER")
     = Raise not_authorised.
Proof.
  split; [reflexivity|].
  apply (X22_role_lists_match_no_assigned_role "ceo,finance_user"
           (Some "CEO,FINANCE_USER"));
    [reflexivity | reflexivity | vm_compute; discriminate].
Defined.

End MoreRoles.

Section MoreSanitize.
Import PyStr InputValidation Props MoreProps.

Lemma all_chars_are_app (p : ascii -> bool) (a b : string) :
  all_chars_are p (a ++ b) = (all_chars_are p a && all_chars_are p b)%bool.
Proof.
  induction a as [|x a IH]; simpl; [reflexivity|].
  now rewrite IH, andb_assoc.
Qed.

Lemma all_chars_are_always (p : ascii -> bool) (s : string) :
  (forall c, p c = true) -> all_chars_are p s = true.
Proof.
  intros H. induction s as [|c s IH]; simpl; [reflexivity|].
  now rewrite H, IH.
Qed.

Lemma replace_char_all (p : ascii -> bool) (c : ascii) (r s : string) :
  all_chars_are p r = true ->
  all_chars_are (fun a => (p a || Ascii.eqb a c)%bool) s = true ->
  all_chars_are p (replace_char c r s) = true.
Proof.
  intros Hr. induction s as [|a s IH]; simpl; [reflexivity|].
  intros H. apply andb_true_iff in H as [Ha Hs].
  destruct (Ascii.eqb a c).
  - rewrite all_chars_are_app, Hr. now apply IH.
  - rewrite orb_false_r in Ha. simpl. rewrite Ha. now apply IH.
Qed.

Lemma remove_class_all (p cls : ascii -> bool) (s : string) :
  all_chars_are p s = true -> all_chars_are p (remove_class cls s) = true.
Proof.
  induction s as [|a s IH]; simpl; [reflexivity|]. intros H.
  apply andb_true_iff in H as [Ha Hs].
  destruct (cls a); [now apply IH|]. simpl. rewrite Ha. now apply IH.
Qed.

Lemma remove_class_clean (cls : ascii -> bool) (s : string) :
  all_chars_are (fun c => negb (cls c)) (remove_class cls s) = true.
Proof.
  induction s as [|a s IH]; simpl; [reflexivity|].
  destruct (cls a) eqn:E; [exact IH|]. simpl. now rewrite E, IH.
Qed.

Lemma lstrip_by_all (p q : ascii -> bool) (s : string) :
  all_chars_are p s = true -> all_chars_are p (lstrip_by q s) = true.
Proof.
  induction s as [|a s IH]; simpl; [reflexivity|]. intros H.
  destruct (q a); [|exact H].
  apply andb_true_iff in H as [_ Hs]. now apply IH.
Qed.

Lemma rstrip_by_all (p q : ascii -> bool) (s : string) :
  all_chars_are p s = true -> all_chars_are p (rstrip_by q s) = true.
Proof.
  induction s as [|a s IH]; simpl; [reflexivity|]. intros H.
  apply andb_true_iff in H as [Ha Hs]. specialize (IH Hs).
  destruct (rstrip_by q s) as [|d t].
  - destruct (q a); simpl; [reflexivity | now rewrite Ha].
  - simpl. simpl in IH. now rewrite Ha, IH.
Qed.

Lemma strip_all (p : ascii -> bool) (s : string) :
  all_chars_are p s = true -> all_chars_are p (strip s) = true.
Proof. intros H. unfold strip. now apply rstrip_by_all, lstrip_by_all. Qed.

Lemma html_escape_no_markup (s : string) :
  all_chars_are (fun c => negb (is_markup c)) (html_escape s) = true.
Proof.
  unfold html_escape. cbv zeta.
  apply replace_char_all; [reflexivity|].
  apply replace_char_all; [reflexivity|].
  apply replace_char_all; [reflexivity|].
  apply replace_char_all; [reflexivity|].
  apply all_chars_are_always. intros c. all_chars c; reflexivity.
Qed.

Lemma remove_class_fixed (cls : ascii -> bool) (s : string) :
  all_chars_are (fun c => negb (cls c)) s = true -> remove_class cls s = s.
Proof.
  induction s as [|a s IH]; simpl; [reflexivity|]. intros H.
  apply andb_true_iff in H as [Ha Hs].
  destruct (cls a); [discriminate|]. now rewrite IH.
Qed.

Lemma replace_nul_fixed (s : string) :
  all_chars_are (fun c => negb (is_control c)) s = true ->
  replace_char nul "" s = s.
Proof.
  induction s as [|a s IH]; simpl; [reflexivity|]. intros H.
  apply andb_true_iff in H as [Ha Hs]. rewrite (IH Hs).
  destruct (Ascii.eqb_spec a nul) as [->|_]; [discriminate | reflexivity].
Qed.

Lemma all_chars_are_ext (p q : ascii -> bool) (s : string) :
  (forall c, p c = q c) -> all_chars_are p s = all_chars_are q s.
Proof.
  intros H. induction s as [|c s IH]; simpl; [reflexivity|].
  now rewrite H, IH.
Qed.

Lemma is_control_spec (c : ascii) :
  negb (is_control c) = no_stray_control c.
Proof. all_chars c; reflexivity. Qed.

Lemma replace_char_absent (c : ascii) (r s : string) :
  all_chars_are (fun a => negb (Ascii.eqb a c)) s = true ->
  replace_char c r s = s.
Proof.
  induction s as [|a s IH]; simpl; [reflexivity|]. intros H.
  apply andb_true_iff in H as [Ha Hs].
  destruct (Ascii.eqb a c); [discriminate|]. now rewrite IH.
Qed.

Lemma all_chars_are_weaken (p q : ascii -> bool) (s : string) :
  (forall c, p c = true -> q c = true) ->
  all_chars_are p s = true -> all_chars_are q s = true.
Proof.
  intros H. induction s as [|c s IH]; simpl; [reflexivity|]. intros Hs.
  apply andb_true_iff in Hs as [Hc Hs]. now rewrite (H c Hc), IH.
Qed.

Lemma html_escape_fixed (s : string) :
  all_chars_are (fun c => negb (is_escaped c)) s = true ->
  html_escape s = s.
Proof.
  intros H. unfold html_escape. cbv zeta.
  assert (F : forall d, is_escaped d = true ->
            all_chars_are (fun a => negb (Ascii.eqb a d)) s = true).
  { intros d Hd.
    apply (all_chars_are_weaken (fun c => negb (is_escaped c))); [|exact H].
    intros c Hc. destruct (Ascii.eqb_spec c d) as [->|_];
      [now rewrite Hd in Hc | reflexivity]. }
  rewrite (replace_char_absent "&") by (apply F; reflexivity).
  rewrite (replace_char_absent "<") by (apply F; reflexivity).
  rewrite (replace_char_absent ">") by (apply F; reflexivity).
  rewrite (replace_char_absent double_quote) by (apply F; reflexivity).
  apply replace_char_absent, F. reflexivity.
Qed.

(** X23. An input within the length limit is always accepted.  The
    sanitised text has no ASCII control character (U+0000-U+001F, U+007F)
    other than tab, line feed and carriage return, and no white space at
    either end; unless HTML is allowed it also has none of the characters
    [<], [>], double quote and single quote.  Nothing else is taken out: a
    text that has no such control character, no white space at either end
    and, unless HTML is allowed, no character that [html.escape] rewrites,
    comes back unchanged, so characters of the range U+0080-U+009F
    survive. *)
Theorem X23_sanitized_text_is_clean
  (value : string) (max_length : Z) (allow_html : bool) :
  Z.of_nat (String.length value) <= max_length ->
  exists out,
    sanitize_string value max_length allow_html = Ok out
    /\ all_chars_are no_stray_control out = true
    /\ strip out = out
    /\ (allow_html = false ->
        all_chars_are (fun c => negb (is_markup c)) out = true)
    /\ (all_chars_are no_stray_control value = true ->
        strip value = value ->
        (allow_html = false ->
         all_chars_are (fun c => negb (is_escaped c)) value = true) ->
        out = value).
Proof.
  intros Hlen. unfold sanitize_string.
  replace (Z.of_nat (String.length value) >? max_length) with false
    by (symmetry; rewrite Z.gtb_ltb; apply Z.ltb_ge; exact Hlen).
  cbv zeta. eexists. split; [reflexivity|]. split; [|split; [|split]].
  - rewrite <- (all_chars_are_ext _ _ _ is_control_spec).
    apply strip_all, remove_class_clean.
  - apply strip_idempotent.
  - intros ->. cbn [negb].
    apply strip_all, remove_class_all, html_escape_no_markup.
  - intros Hc Hs He.
    rewrite <- (all_chars_are_ext _ _ _ is_control_spec) in Hc.
    rewrite (replace_nul_fixed _ Hc).
    assert (E : (if negb allow_html then html_escape value else value)
                = value).
    { destruct allow_html; [reflexivity|]. cbn [negb].
      now apply html_escape_fixed, He. }
    rewrite E, (remove_class_fixed _ _ Hc). exact Hs.
Qed.

Lemma X23_sanitized_text_is_clean_witness :
  sanitize_string "  <b>report's.xlsx </b>" 255 false
  = Ok "&lt;b&gt;report&#x27;s.xlsx &lt;/b&gt;"
  /\ sanitize_string with_c1_control 255 false = Ok with_c1_control
  /\ exists out,
       sanitize_string "  <b>report's.xlsx </b>" 255 false = Ok out
       /\ all_chars_are no_stray_control out = true
       /\ strip out = out
       /\ (false = false ->
           all_chars_are (fun c => negb (is_markup c)) out = true)
       /\ (all_chars_are no_stray_control "  <b>report's.xlsx </b>" = true ->
           strip "  <b>report's.xlsx </b>" = "  <b>report's.xlsx </b>" ->
           (false = false ->
            all_chars_are (fun c => negb (is_escaped c))
              "  <b>report's.xlsx </b>" = true) ->
           out = "  <b>report's.xlsx </b>").
Proof.
  split; [reflexivity|]. split; [reflexivity|].
  apply (X23_sanitized_text_is_clean "  <b>report's.xlsx </b>" 255 false).
  vm_compute. discriminate.
Defined.

Lemma replace_char_length (c : ascii) (s : string) :
  (String.length (replace_char c "" s) <= String.length s)%nat.
Proof.
  induction s as [|a s IH]; simpl; [lia|].
  destruct (Ascii.eqb a c); simpl; lia.
Qed.

Lemma remove_class_length (cls : ascii -> bool) (s : string) :
  (String.length (remove_class cls s) <= String.length s)%nat.
Proof.
  induction s as [|a s IH]; simpl; [lia|].
  destruct (cls a); simpl; lia.
Qed.

Lemma lstrip_by_length (p : ascii -> bool) (s : string) :
  (String.length (lstrip_by p s) <= String.length s)%nat.
Proof.
  induction s as [|a s IH]; simpl; [lia|].
  destruct (p a); simpl; lia.
Qed.

Lemma rstrip_by_length (p : ascii -> bool) (s : string) :
  (String.length (rstrip_by p s) <= String.length s)%nat.
Proof.
  induction s as [|a s IH]; simpl; [lia|].
  destruct (rstrip_by p s) as [|d t]; [destruct (p a)|]; simpl in *; lia.
Qed.

Lemma strip_length (s : string) :
  (String.length (strip s) <= String.length s)%nat.
Proof.
  unfold strip. pose proof (rstrip_by_length isspace (lstrip_by isspace s)).
  pose proof (lstrip_by_length isspace s). lia.
Qed.

(** X24. With HTML allowed, sanitising is idempotent: a sanitised text that
    is sanitised again under the same limit is accepted and comes back
    unchanged. *)
Theorem X24_sanitizing_twice_with_html_allowed
  (value out : string) (max_length : Z) :
  sanitize_string value max_length true = Ok out ->
  sanitize_string out max_length true = Ok out.
Proof.
  unfold sanitize_string.
  destruct (Z.of_nat (String.length value) >? max_length) eqn:E;
    [discriminate|].
  cbv zeta. cbn [negb]. intros [= <-].
  set (inner := remove_class is_control (replace_char nul "" value)).
  assert (Hclean : all_chars_are (fun c => negb (is_control c)) (strip inner)
                   = true) by apply strip_all, remove_class_clean.
  assert (Hlen : (String.length (strip inner) <= String.length value)%nat).
  { pose proof (strip_length inner).
    pose proof (remove_class_length is_control (replace_char nul "" value)).
    pose proof (replace_char_length nul value). unfold inner in *. lia. }
  replace (Z.of_nat (String.length (strip inner)) >? max_length) with false
    by (symmetry; rewrite Z.gtb_ltb in *; apply Z.ltb_ge in E;
        apply Z.ltb_ge; lia).
  now rewrite (replace_nul_fixed _ Hclean), (remove_class_fixed _ _ Hclean),
    strip_idempotent.
Qed.

Lemma X24_sanitizing_twice_with_html_allowed_witness :
  sanitize_string " a&b " 10 true = Ok "a&b"
  /\ sanitize_string "a&b" 10 true = Ok "a&b"
  /\ sanitize_string " a&b " 10 false = Ok "a&amp;b"
  /\ sanitize_string "a&amp;b" 10 false = Ok "a&amp;amp;b".
Proof.
  split; [reflexivity|]. split; [|split; reflexivity].
  apply (X24_sanitizing_twice_with_html_allowed " a&b " "a&b" 10).
  reflexivity.
Defined.

End MoreSanitize.

Section MoreColors.
Import ChartColors.

Lemma color_at_in_palette (i : Z) : 0 <= i < 10 -> In (color_at i) base_colors.
Proof.
  intros H. unfold color_at. apply nth_In.
  change (List.length base_colors) with 10%nat. lia.
Qed.

Lemma generate_colors_length (count : Z) :
  List.length (_generate_colors count) = Z.to_nat count.
Proof.
  unfold _generate_colors, range0. now rewrite !length_map, length_seq.
Qed.

Lemma firstn_of_seq (k start n : nat) :
  firstn k (seq start n) = seq start (Nat.min k n).
Proof.
  revert start n. induction k as [|k IH]; intros start n; [reflexivity|].
  destruct n as [|n]; [reflexivity|]. simpl. now rewrite IH.
Qed.

(** X25. [_generate_colors] returns one colour per requested series and
    none for a negative count; every colour comes from the ten-entry
    palette; and asking for more series keeps the colours already given,
    so a series never changes colour when others are added. *)
Theorem X25_generated_colors (count more : Z) :
  Z.of_nat (List.length (_generate_colors count)) = Z.max 0 count
  /\ Forall (fun c => In c base_colors) (_generate_colors count)
  /\ (count <= more ->
      firstn (Z.to_nat count) (_generate_colors more)
      = _generate_colors count).
Proof.
  split; [|split].
  - rewrite generate_colors_length. lia.
  - unfold _generate_colors. apply Forall_forall. intros c Hc.
    apply in_map_iff in Hc as (i & <- & _).
    apply color_at_in_palette.
    change (Z.of_nat (List.length base_colors)) with 10.
    apply Z.mod_pos_bound. lia.
  - intros Hle. unfold _generate_colors, range0.
    rewrite !firstn_map, firstn_of_seq. do 2 f_equal. f_equal. lia.
Qed.

End MoreColors.

Section SelfComparison.
Import PyStr ExcelCompare Props MoreProps.

Lemma get_sheet_unique (wb : Workbook) (n : string) (sh : Sheet) :
  NoDup (sheetnames wb) -> In (n, sh) wb -> get_sheet wb n = Some sh.
Proof.
  induction wb as [|[m sh'] wb IH]; simpl; [contradiction|].
  intros Hnd [H | H].
  - inversion H; subst. now rewrite String.eqb_refl.
  - inversion Hnd as [|? ? Hm Hnd']; subst.
    destruct (String.eqb_spec m n) as [-> | _]; [|now apply IH].
    exfalso. apply Hm. unfold sheetnames.
    change n with (fst (n, sh)). now apply in_map.
Qed.

Lemma compare_loop_keeps (wb1 wb2 : Workbook) (names : list string)
  (results : list SheetResult) (matched : Z) (x : SheetResult) :
  In x results -> In x (fst (compare_loop wb1 wb2 names results matched)).
Proof.
  revert results matched.
  induction names as [|n names IH]; intros results matched H; [exact H|].
  cbn [compare_loop].
  destruct (mem n (sheetnames wb1) && mem n (sheetnames wb2))%bool.
  - destruct (get_sheet wb1 n) as [sh1|]; [|now apply IH].
    destruct (get_sheet wb2 n) as [sh2|]; [|now apply IH].
    apply IH, in_or_app. now left.
  - apply IH, in_or_app. now left.
Qed.

Lemma compare_loop_reports (wb : Workbook) (names : list string)
  (results : list SheetResult) (matched : Z) (n : string) (sh : Sheet) :
  In n names -> In n (sheetnames wb) -> get_sheet wb n = Some sh ->
  In (compare_sheets sh sh n default_max_differences)
    (fst (compare_loop wb wb names results matched)).
Proof.
  intros Hn Hin Hg. revert results matched.
  induction names as [|m names IH]; intros results matched; [contradiction|].
  cbn [compare_loop]. destruct Hn as [-> | Hn].
  - rewrite (mem_refl_in n _ Hin), Hg. cbn [andb].
    apply compare_loop_keeps, in_or_app. right. now left.
  - destruct (mem m (sheetnames wb) && mem m (sheetnames wb))%bool;
      [destruct (get_sheet wb m)|]; now apply IH.
Qed.

Lemma sheet_dichotomy (sh : Sheet) :
  (has_extent sh /\ probe_succeeds sh) \/ cannot_be_compared sh.
Proof.
  unfold has_extent, probe_succeeds, cannot_be_compared.
  destruct (max_row sh) as [[rows|] | e] eqn:Er;
    [| right; tauto | right; left; now exists e].
  destruct (max_column sh) as [[cols|] | e] eqn:Ec;
    [| right; tauto | right; right; left; now exists e].
  destruct (cell sh 1 1) as [v | e] eqn:E.
  - left. split; [now exists rows, cols | intros _ _; now exists v].
  - destruct (Z.eq_dec rows 1) as [-> | Hr];
      [destruct (Z.eq_dec cols 1) as [-> | Hc]|].
    + right. do 4 right. repeat split. now exists e.
    + left. split; [now exists 1, cols | intros _ [= H]; contradiction].
    + left. split; [now exists rows, cols | intros [= H]; contradiction].
Qed.

(** C9 (as amended). A workbook compared with an identical copy always
    gets a result.  When every sheet has numeric extents ([max_row] and
    [max_column] can be read and are not [None]) and can be probed (the
    cell (1,1) of a sheet of extent 1x1 is readable), there is one record
    per sheet, each with status [matched], and the comparison succeeds.  A
    sheet that lacks one of these is reported (sheet names being distinct)
    as [comparison_error] with no differences, and the comparison then
    fails; and every sheet is of one kind or the other. *)
Theorem C9_self_comparison_matches
  (set_iter : list string -> list string)
  (names_repr : list string -> string) (wb : ExcelCompare.Workbook) :
  (forall l, Permutation l (set_iter l)) ->
  exists r,
    ExcelCompare.compare_excel_files set_iter names_repr wb wb = Ok r
    /\ ((forall name sh, In (name, sh) wb ->
                         Props.has_extent sh /\ Props.probe_succeeds sh) ->
        ExcelCompare.success r = true
        /\ Forall Props.is_matched (ExcelCompare.comparison_results r)
        /\ map ExcelCompare.sheet (ExcelCompare.comparison_results r)
           = ExcelCompare.sheetnames wb
        /\ ExcelCompare.matched_sheets r = ExcelCompare.total_sheets r)
    /\ (forall name sh,
           NoDup (ExcelCompare.sheetnames wb) -> In (name, sh) wb ->
           Props.cannot_be_compared sh ->
           ExcelCompare.success r = false
           /\ exists sr,
                In sr (ExcelCompare.comparison_results r)
                /\ ExcelCompare.sheet sr = name
                /\ ExcelCompare.status sr = "comparison_error"
                /\ ExcelCompare.differences sr = [])
    /\ (forall sh,
           (Props.has_extent sh /\ Props.probe_succeeds sh)
           \/ Props.cannot_be_compared sh).
Proof.
  intros Hperm.
  assert (E : exists r,
             compare_excel_files set_iter names_repr wb wb = Ok r
             /\ comparison_results r
                = fst (compare_loop wb wb (sheetnames wb) [] 0)
             /\ ExcelCompare.success r
                = (snd (compare_loop wb wb (sheetnames wb) [] 0)
                   =? len (sheetnames wb))).
  { unfold compare_excel_files. rewrite Z.eqb_refl. cbn [negb]. cbv zeta.
    rewrite (set_diff_self set_iter _ Hperm).
    destruct (compare_loop wb wb (sheetnames wb) [] 0) as [rs m].
    eexists. split; [reflexivity|].
    cbn [comparison_results ExcelCompare.success map fst snd].
    rewrite !app_nil_r. split; [reflexivity|].
    now rewrite !andb_true_r. }
  destruct E as (r & Er & Eres & Esucc). exists r.
  split; [exact Er|]. split; [|split].
  - intros Hp.
    destruct (compare_loop_same wb (sheetnames wb) [] 0 Hp (incl_refl _))
      as (rs & El & Hm & Hs).
    rewrite El in Eres, Esucc. cbn [fst snd app] in Eres, Esucc.
    pose proof (compare_excel_files_counts _ _ _ _ _ Er) as (Ht & Hc & _).
    rewrite Esucc, Eres, Z.eqb_refl. repeat split; try assumption.
    assert (Em : matched_sheets r = len (sheetnames wb)).
    { revert Er. unfold compare_excel_files. rewrite Z.eqb_refl.
      cbn [negb]. cbv zeta. rewrite El. intros [= <-]. reflexivity. }
    rewrite Em, Ht, Eres. unfold len. now rewrite <- Hs, length_map.
  - intros name sh Hnd Hin Hbad.
    destruct (compare_sheets_faulty sh name default_max_differences Hbad)
      as (Est & Esh & Ed).
    assert (Hn : In name (sheetnames wb)).
    { unfold sheetnames. change name with (fst (name, sh)).
      now apply in_map. }
    pose proof (compare_loop_reports wb (sheetnames wb) [] 0 name sh Hn Hn
                  (get_sheet_unique wb name sh Hnd Hin)) as Hrec.
    rewrite <- Eres in Hrec.
    split; [|now exists (compare_sheets sh sh name default_max_differences)].
    destruct (ExcelCompare.success r) eqn:S; [|reflexivity].
    pose proof (compare_excel_files_counts _ _ _ _ _ Er) as (_ & _ & Hall).
    specialize (Hall S). rewrite Forall_forall in Hall.
    specialize (Hall _ Hrec). unfold is_matched in Hall.
    rewrite Est in Hall. discriminate.
  - apply sheet_dichotomy.
Qed.

Lemma C9_self_comparison_matches_witness :
  (forall l, Permutation l (Props.in_order l))
  /\ exists r,
       ExcelCompare.compare_excel_files Props.in_order Props.no_names_repr
         Props.small_workbook Props.small_workbook = Ok r
       /\ ExcelCompare.success r = true
       /\ Forall Props.is_matched (ExcelCompare.comparison_results r)
       /\ map ExcelCompare.sheet (ExcelCompare.comparison_results r)
          = ExcelCompare.sheetnames Props.small_workbook
       /\ ExcelCompare.matched_sheets r = ExcelCompare.total_sheets r.
Proof.
  assert (P : forall l, Permutation l (Props.in_order l))
    by (intros l; apply Permutation_refl).
  assert (Q : forall name sh, In (name, sh) Props.small_workbook ->
                              Props.has_extent sh /\ Props.probe_succeeds sh).
  { intros name sh [H | [H | []]]; inversion H; subst;
      (split; [eexists; eexists; split; reflexivity|]);
      intros Hr Hc; simpl in *; try discriminate; now eexists. }
  split; [exact P|].
  destruct (C9_self_comparison_matches Props.in_order Props.no_names_repr
              Props.small_workbook P) as (r & Er & Hgood & _).
  exists r. split; [exact Er | exact (Hgood Q)].
Defined.

(** C9, the claim at two workbooks of one sheet: a sheet of extent 1x1
    whose cell cannot be read, and a sheet without a dimension record,
    whose extents are [None].  Either is reported as [comparison_error]
    and the comparison fails. *)
Lemma C9_counterexample :
  ExcelCompare.compare_excel_files Props.in_order Props.no_names_repr
    [("Sheet1", Props.unreadable_sheet)] [("Sheet1", Props.unreadable_sheet)]
  = Ok {| ExcelCompare.success := false;
          ExcelCompare.total_sheets := 1;
          ExcelCompare.matched_sheets := 0;
          ExcelCompare.comparison_results :=
            [{| ExcelCompare.sheet := "Sheet1";
                ExcelCompare.cell_id := "ERROR";
                ExcelCompare.value1 := "Error during comparison";
                ExcelCompare.value2 := "bad cell";
                ExcelCompare.status := "comparison_error";
                ExcelCompare.differences := [] |}];
          ExcelCompare.summary :=
            "Compared 1 sheets. 0 matched, 1 had differences or were missing."
       |}
  /\ ExcelCompare.compare_excel_files Props.in_order Props.no_names_repr
       [("Sheet1", Props.unsized_sheet)] [("Sheet1", Props.unsized_sheet)]
     = Ok {| ExcelCompare.success := false;
             ExcelCompare.total_sheets := 1;
             ExcelCompare.matched_sheets := 0;
             ExcelCompare.comparison_results :=
               [{| ExcelCompare.sheet := "Sheet1";
                   ExcelCompare.cell_id := "ERROR";
                   ExcelCompare.value1 := "Error during comparison";
                   ExcelCompare.value2 :=
                     "'>' not supported between instances of 'NoneType' and 'NoneType'";
                   ExcelCompare.status := "comparison_error";
                   ExcelCompare.differences := [] |}];
             ExcelCompare.summary :=
               "Compared 1 sheets. 0 matched, 1 had differences or were missing."
          |}
  /\ ExcelCompare.status
       (ExcelCompare.compare_sheets Props.chartsheet Props.chartsheet
          "Chart1" 1000) = "comparison_error".
Proof. split; [|split]; vm_compute; reflexivity. Qed.

End SelfComparison.
